(** * Spectral normalization (lib/spectral_norm.py): a shallow embedding

    The Python module attaches a [SpectralNorm] object to a [torch.nn.Module]:
    it moves a weight parameter to [name_orig], keeps two vectors [name_u] and
    [name_v], and rewrites the public attribute [name] with [W / sigma] before
    every forward call.

    The embedding has three layers.
    - [Dtype]: the scalar arithmetic of a tensor's dtype, with the instance
      IEEE binary64 ([torch.float64], Rocq's primitive floats).
    - The part of [torch] and [torch.nn.Module] the source calls (tensors,
      [getattr]/[setattr]/[delattr], [register_parameter], [register_buffer],
      [register_forward_pre_hook]), as an exception-and-state monad over the
      attribute tables of one layer.
    - The functions of [spectral_norm.py], line by line. *)

From Stdlib Require Import ZArith Floats Lia List Ascii String.
From stdpp Require Import gmap strings list fin_maps.

(** ** Scalars *)

(** The arithmetic a dtype provides. [s_clamp_min x lo] is
    [x.clamp_min(lo)]. *)
Class Dtype (A : Type) := {
  s_zero : A;
  s_add : A -> A -> A;
  s_mul : A -> A -> A;
  s_div : A -> A -> A;
  s_sqrt : A -> A;
  s_clamp_min : A -> A -> A
}.

(** [torch.float64]: division by zero yields an infinity or NaN, and
    [clamp_min] lets a NaN through. *)
#[export] Instance float64 : Dtype float := {
  s_zero := 0%float;
  s_add := PrimFloat.add;
  s_mul := PrimFloat.mul;
  s_div := PrimFloat.div;
  s_sqrt := PrimFloat.sqrt;
  s_clamp_min x lo := if PrimFloat.ltb x lo then lo else x
}.

(** ** Exceptions and results *)

Inductive exn : Type :=
  | ValueError_iterations (n : Z)     (* compute_weight: negative count *)
  | ValueError_not_found (name : string) (* remove_spectral_norm *)
  | ValueError_non_leaf (name : string)  (* register_parameter *)
  | KeyError (key : string)
  | AttributeError (attr : string)
  | TypeError (what : string)
  | RuntimeError (what : string)
  | IndexError
  | ZeroDivisionError
  | NotModelled (what : string).

(** Python's class of an exception, as far as the spec's taxonomy needs it. *)
Definition is_ValueError (e : exn) : bool :=
  match e with
  | ValueError_iterations _ | ValueError_not_found _ | ValueError_non_leaf _ => true
  | _ => false
  end.

Inductive result (T : Type) : Type :=
  | Ok (x : T)
  | Raise (e : exn).
Arguments Ok {T} x.
Arguments Raise {T} e.

Definition rbind {T U} (r : result T) (k : T -> result U) : result U :=
  match r with
  | Ok x => k x
  | Raise e => Raise e
  end.

(** ** Tensors *)

(** A tensor is its shape, its elements in row-major order, and the autograd
    flags the source reads: [requires_grad], whether it has a [grad_fn] (it is
    not a leaf), and whether it is an instance of [torch.nn.Parameter]. *)
Record tensor (A : Type) : Type := Tensor {
  shape : list nat;
  data : list A;
  requires_grad : bool;
  grad_fn : bool;
  is_parameter : bool
}.
Arguments Tensor {A} shape data requires_grad grad_fn is_parameter.
Arguments shape {A} t.
Arguments data {A} t.
Arguments requires_grad {A} t.
Arguments grad_fn {A} t.
Arguments is_parameter {A} t.

Definition prod_list (s : list nat) : nat := fold_right Nat.mul 1 s.

(** [t.numel()] *)
Definition numel {A} (t : tensor A) : nat := prod_list (shape t).

(** [t.dim()] *)
Definition ndim {A} (t : tensor A) : nat := length (shape t).

Definition wf_tensor {A} (t : tensor A) : Prop :=
  length (data t) = numel t.

(** Row-major strides, the multi-index of a flat position, and the flat
    position of a multi-index under given strides. *)
Fixpoint strides (s : list nat) : list nat :=
  match s with
  | [] => []
  | _ :: r => prod_list r :: strides r
  end.

Fixpoint unravel (s : list nat) (j : nat) : list nat :=
  match s with
  | [] => []
  | _ :: r => j / prod_list r :: unravel r (j mod prod_list r)
  end.

Fixpoint offset (idx st : list nat) : nat :=
  match idx, st with
  | i :: idx', k :: st' => i * k + offset idx' st'
  | _, _ => 0
  end.

Section Tensor_ops.
Context {A : Type} `{Dtype A}.

(** A fresh result of an arithmetic operation: it requires grad when grad
    mode is on and an input does; it then carries a [grad_fn]. *)
Definition fresh (g : bool) (inputs_require : bool) (s : list nat) (d : list A)
  : tensor A :=
  Tensor s d (g && inputs_require) (g && inputs_require) false.

(** [t.size(d)]: [d] may count from the end. *)
Definition wrap_dim (n : nat) (d : Z) : result nat :=
  if decide (- Z.of_nat n <= d < Z.of_nat n)%Z
  then Ok (Z.to_nat (d mod Z.of_nat n))
  else Raise IndexError.

Definition size (t : tensor A) (d : Z) : result nat :=
  rbind (wrap_dim (ndim t) d) (fun i => Ok (nth i (shape t) 0)).

Fixpoint wrap_dims (n : nat) (ds : list Z) : result (list nat) :=
  match ds with
  | [] => Ok []
  | d :: ds' =>
      rbind (wrap_dim n d) (fun i =>
      rbind (wrap_dims n ds') (fun ps => Ok (i :: ps)))
  end.

(** [t.permute] with the listed dims: as many dims as the tensor has, each in range,
    none repeated. The result is laid out contiguously. *)
Definition permute_data (s : list nat) (d : list A) (p : list nat) : list A :=
  let s' := map (fun i => nth i s 0) p in
  let st' := map (fun i => nth i (strides s) 0) p in
  map (fun j => nth (offset (unravel s' j) st') d s_zero) (seq 0 (prod_list s')).

Definition permute (t : tensor A) (dims : list Z) : result (tensor A) :=
  if decide (length dims = ndim t) then
    rbind (wrap_dims (ndim t) dims) (fun p =>
      if decide (NoDup p) then
        Ok (Tensor (map (fun i => nth i (shape t) 0) p)
                   (permute_data (shape t) (data t) p)
                   (requires_grad t) (grad_fn t) false)
      else Raise (RuntimeError "permute: repeated dim"))
  else Raise (RuntimeError "permute: number of dims does not match").

(** [t.reshape(height, -1)]: the missing size is inferred as the number
    of elements over [height]. Torch refuses a [height] of zero, for which
    the missing size is ambiguous or the shape invalid, and a [height] that
    does not divide the number of elements; a tensor without elements and a
    non-zero [height] gives [height] rows of no columns. *)
Definition reshape_rows (t : tensor A) (height : nat) : result (tensor A) :=
  if decide (height = 0) then Raise (RuntimeError "reshape: invalid shape")
  else if decide (numel t mod height = 0) then
    Ok (Tensor [height; numel t / height] (data t)
               (requires_grad t) (grad_fn t) false)
  else Raise (RuntimeError "reshape: invalid shape").

(** Rows of a matrix stored row-major with [w] columns. *)
Fixpoint rows (h w : nat) (d : list A) : list (list A) :=
  match h with
  | 0 => []
  | S h' => take w d :: rows h' w (drop w d)
  end.

Definition column (w j : nat) (d : list A) (h : nat) : list A :=
  map (fun i => nth (i * w + j) d s_zero) (seq 0 h).

(** [m.t()] of a 2-D tensor. *)
Definition transpose (m : tensor A) : result (tensor A) :=
  match shape m with
  | [h; w] =>
      Ok (Tensor [w; h]
                 (concat (map (fun j => column w j (data m) h) (seq 0 w)))
                 (requires_grad m) (grad_fn m) false)
  | _ => Raise (NotModelled "t() of a tensor that is not 2-D")
  end.

(** Sum of products, accumulated from the left. *)
Definition dot_list (a b : list A) : A :=
  fold_left s_add (zip_with s_mul a b) s_zero.

(** [torch.matmul(m, x)] for a matrix and a vector. *)
Definition matmul (g : bool) (m x : tensor A) : result (tensor A) :=
  match shape m, shape x with
  | [h; w], [n] =>
      if decide (w = n) then
        Ok (fresh g (requires_grad m || requires_grad x) [h]
              (map (fun r => dot_list r (data x)) (rows h w (data m))))
      else Raise (RuntimeError "matmul: size mismatch")
  | _, _ => Raise (NotModelled "matmul other than matrix by vector")
  end.

(** [torch.dot(a, b)]: two 1-D tensors of one length; a 0-dim result. *)
Definition dot (g : bool) (a b : tensor A) : result (tensor A) :=
  match shape a, shape b with
  | [n], [n'] =>
      if decide (n = n') then
        Ok (fresh g (requires_grad a || requires_grad b) []
              [dot_list (data a) (data b)])
      else Raise (RuntimeError "dot: inconsistent tensor size")
  | _, _ => Raise (RuntimeError "dot: 1D tensors expected")
  end.

(** The L2 norm of the elements. *)
Definition norm2 (d : list A) : A := s_sqrt (dot_list d d).

(** [torch.nn.functional.normalize(x, dim=0, eps=eps)] of a 1-D tensor:
    [x / x.norm(2, 0, keepdim=True).clamp_min(eps).expand_as(x)]. *)
Definition normalize (g : bool) (x : tensor A) (eps : A) : result (tensor A) :=
  match shape x with
  | [n] =>
      let denom := s_clamp_min (norm2 (data x)) eps in
      Ok (fresh g (requires_grad x) [n] (map (fun a => s_div a denom) (data x)))
  | _ => Raise (NotModelled "normalize of a tensor that is not 1-D")
  end.

(** [w / sigma] with [sigma] a 0-dim tensor, broadcast over [w]. *)
Definition div_scalar (g : bool) (w sigma : tensor A) : result (tensor A) :=
  match data sigma, shape sigma with
  | [s], [] =>
      Ok (fresh g (requires_grad w || requires_grad sigma) (shape w)
            (map (fun a => s_div a s) (data w)))
  | _, _ => Raise (NotModelled "division by a tensor that is not 0-dim")
  end.

(** [t.detach()], [t.requires_grad_(r)], [t.data], [torch.nn.Parameter(t)]. *)
Definition detach (t : tensor A) : tensor A :=
  Tensor (shape t) (data t) false false false.

Definition requires_grad_ (t : tensor A) (r : bool) : result (tensor A) :=
  if grad_fn t && negb r
  then Raise (RuntimeError "requires_grad_: only leaf flags can change")
  else Ok (Tensor (shape t) (data t) r (grad_fn t) (is_parameter t)).

Definition data_of (t : tensor A) : tensor A :=
  Tensor (shape t) (data t) false false false.

Definition new_Parameter (t : tensor A) : tensor A :=
  Tensor (shape t) (data t) true false true.

End Tensor_ops.

(** ** The layer and the interpreter state *)

(** [class SpectralNorm]: the three fields [__init__] stores. *)
Record SpectralNorm (A : Type) : Type := mkSpectralNorm {
  name : string;
  dim : Z;
  eps : A
}.
Arguments mkSpectralNorm {A} name dim eps.
Arguments name {A} s.
Arguments dim {A} s.
Arguments eps {A} s.

(** The Python values an attribute of the layer can hold. [PMethod fn] is
    the bound method [types.MethodType(fn.get_update_method(module), module)];
    [PObj] is any other object. *)
Inductive pyobj (A : Type) : Type :=
  | PTensor (t : tensor A)
  | PNone
  | PMethod (fn : SpectralNorm A)
  | PObj (tag : nat).
Arguments PTensor {A} t.
Arguments PNone {A}.
Arguments PMethod {A} fn.
Arguments PObj {A} tag.

(** A registered forward pre-hook: a [SpectralNorm] instance or some other
    callable. *)
Inductive hook (A : Type) : Type :=
  | SNHook (fn : SpectralNorm A)
  | OtherHook (tag : nat).
Arguments SNHook {A} fn.
Arguments OtherHook {A} tag.

(** The class of the layer, as far as [isinstance] is asked about it. *)
Inductive module_class : Type :=
  | Linear | Conv1d | Conv2d | Conv3d
  | ConvTranspose1d | ConvTranspose2d | ConvTranspose3d
  | OtherModule (tag : nat).

(** The layer ([module] in the source) with the tables [torch.nn.Module]
    keeps: the instance [__dict__], [_parameters], [_buffers], [_modules] and
    the ordered dictionary [_forward_pre_hooks]; and the three process-wide
    variables the code touches: autograd's grad mode, the counter
    [RemovableHandle.next_id], and the random generator as the stream of
    normal draws still to come. *)
Record world (A : Type) : Type := World {
  oid : nat;
  cls : module_class;
  training : bool;
  dict : gmap string (pyobj A);
  _parameters : gmap string (option (tensor A));
  _buffers : gmap string (option (tensor A));
  _modules : gmap string (option nat);
  _forward_pre_hooks : list (nat * hook A);
  grad_enabled : bool;
  next_id : nat;
  rng : nat -> A
}.
Arguments World {A}.
Arguments oid {A} w.
Arguments cls {A} w.
Arguments training {A} w.
Arguments dict {A} w.
Arguments _parameters {A} w.
Arguments _buffers {A} w.
Arguments _modules {A} w.
Arguments _forward_pre_hooks {A} w.
Arguments grad_enabled {A} w.
Arguments next_id {A} w.
Arguments rng {A} w.

Section Setters.
Context {A : Type}.
Implicit Types w : world A.

Definition set_dict (f : gmap string (pyobj A) -> gmap string (pyobj A)) w :=
  World (oid w) (cls w) (training w) (f (dict w)) (_parameters w) (_buffers w)
        (_modules w) (_forward_pre_hooks w) (grad_enabled w) (next_id w) (rng w).
Definition set_parameters
    (f : gmap string (option (tensor A)) -> gmap string (option (tensor A))) w :=
  World (oid w) (cls w) (training w) (dict w) (f (_parameters w)) (_buffers w)
        (_modules w) (_forward_pre_hooks w) (grad_enabled w) (next_id w) (rng w).
Definition set_buffers
    (f : gmap string (option (tensor A)) -> gmap string (option (tensor A))) w :=
  World (oid w) (cls w) (training w) (dict w) (_parameters w) (f (_buffers w))
        (_modules w) (_forward_pre_hooks w) (grad_enabled w) (next_id w) (rng w).
Definition set_modules
    (f : gmap string (option nat) -> gmap string (option nat)) w :=
  World (oid w) (cls w) (training w) (dict w) (_parameters w) (_buffers w)
        (f (_modules w)) (_forward_pre_hooks w) (grad_enabled w) (next_id w) (rng w).
Definition set_hooks (f : list (nat * hook A) -> list (nat * hook A)) w :=
  World (oid w) (cls w) (training w) (dict w) (_parameters w) (_buffers w)
        (_modules w) (f (_forward_pre_hooks w)) (grad_enabled w) (next_id w) (rng w).
Definition set_grad_enabled (g : bool) w :=
  World (oid w) (cls w) (training w) (dict w) (_parameters w) (_buffers w)
        (_modules w) (_forward_pre_hooks w) g (next_id w) (rng w).
Definition set_next_id (n : nat) w :=
  World (oid w) (cls w) (training w) (dict w) (_parameters w) (_buffers w)
        (_modules w) (_forward_pre_hooks w) (grad_enabled w) n (rng w).
Definition set_rng (r : nat -> A) w :=
  World (oid w) (cls w) (training w) (dict w) (_parameters w) (_buffers w)
        (_modules w) (_forward_pre_hooks w) (grad_enabled w) (next_id w) r.
End Setters.

(** ** The monad: a mutable world, and exceptions that keep the mutations
    made before they were raised *)

Definition M (A T : Type) : Type := world A -> result T * world A.

Definition ret {A T} (x : T) : M A T := fun w => (Ok x, w).

Definition bind {A T U} (c : M A T) (k : T -> M A U) : M A U :=
  fun w =>
    match c w with
    | (Ok x, w') => k x w'
    | (Raise e, w') => (Raise e, w')
    end.

Definition raise {A T} (e : exn) : M A T := fun w => (Raise e, w).

Definition gets {A T} (f : world A -> T) : M A T := fun w => (Ok (f w), w).

Definition modify {A} (f : world A -> world A) : M A unit := fun w => (Ok tt, f w).

Definition lift {A T} (r : result T) : M A T := fun w => (r, w).

Declare Scope py_scope.
Delimit Scope py_scope with py.
Notation "x <- c ;; k" := (bind c (fun x => k))
  (at level 100, c at next level, right associativity) : py_scope.
Notation "c ;; k" := (bind c (fun _ => k))
  (at level 100, right associativity) : py_scope.
Local Open Scope py_scope.

(** [with torch.no_grad(): body]: grad mode is off inside and is put back on
    the way out, also when [body] raises. *)
Definition with_no_grad {A T} (body : M A T) : M A T :=
  fun w =>
    let prev := grad_enabled w in
    match body (set_grad_enabled false w) with
    | (r, w') => (r, set_grad_enabled prev w')
    end.

(** ** [torch.nn.Module]: the attribute protocol

    Modelled after [torch/nn/modules/module.py]. Two things are left out:
    attributes defined on the class (methods such as [forward]), so a
    parameter is assumed not to carry such a name; and the flag [training],
    which torch keeps in the instance dictionary and which is a field of its
    own here. Tensor operations are modelled for the ranks the source uses
    them with (matrix by vector, 1-D [normalize], division by a 0-dim
    tensor); other ranks are reported as [NotModelled]. Sums are accumulated
    from the left. *)

Fixpoint has_dot (s : string) : bool :=
  match s with
  | EmptyString => false
  | String c s' => if decide (c = "."%char) then true else has_dot s'
  end.

(** An [OrderedDict] as an association list in insertion order. *)
Fixpoint od_set {V} (k : nat) (v : V) (l : list (nat * V)) : list (nat * V) :=
  match l with
  | [] => [(k, v)]
  | (k', v') :: l' => if decide (k' = k) then (k, v) :: l' else (k', v') :: od_set k v l'
  end.

Fixpoint od_del {V} (k : nat) (l : list (nat * V)) : list (nat * V) :=
  match l with
  | [] => []
  | (k', v') :: l' => if decide (k' = k) then l' else (k', v') :: od_del k l'
  end.

Section Module_protocol.
Context {A : Type} `{Dtype A}.
Local Abbreviation M := (M A).

Definition of_slot (o : option (tensor A)) : pyobj A :=
  match o with
  | Some t => PTensor t
  | None => PNone
  end.

(** [getattr(module, n)]: the instance dictionary first, then
    [Module.__getattr__] through parameters, buffers and submodules. *)
Definition getattr (n : string) : M (pyobj A) :=
  fun w =>
    match dict w !! n with
    | Some o => (Ok o, w)
    | None =>
      match _parameters w !! n with
      | Some p => (Ok (of_slot p), w)
      | None =>
        match _buffers w !! n with
        | Some b => (Ok (of_slot b), w)
        | None =>
          match _modules w !! n with
          | Some (Some c) => (Ok (PObj c), w)
          | Some None => (Ok PNone, w)
          | None => (Raise (AttributeError n), w)
          end
        end
      end
    end.

Definition hasattr (n : string) : M bool :=
  fun w =>
    match getattr n w with
    | (Ok _, _) => (Ok true, w)
    | (Raise _, _) => (Ok false, w)
    end.

(** [Module.__delattr__] *)
Definition delattr (n : string) : M unit :=
  fun w =>
    if decide (is_Some (_parameters w !! n)) then (Ok tt, set_parameters (delete n) w)
    else if decide (is_Some (_buffers w !! n)) then (Ok tt, set_buffers (delete n) w)
    else if decide (is_Some (_modules w !! n)) then (Ok tt, set_modules (delete n) w)
    else if decide (is_Some (dict w !! n)) then (Ok tt, set_dict (delete n) w)
    else (Raise (AttributeError n), w).

(** [Module.register_parameter] *)
Definition register_parameter (n : string) (param : pyobj A) : M unit :=
  if has_dot n then raise (KeyError n)
  else if decide (n = "") then raise (KeyError n)
  else
    h <- hasattr n ;;
    ps <- gets _parameters ;;
    if h && negb (bool_decide (is_Some (ps !! n))) then raise (KeyError n)
    else
      match param with
      | PNone => modify (set_parameters (insert n None))
      | PTensor t =>
          if is_parameter t then
            if grad_fn t then raise (ValueError_non_leaf n)
            else modify (set_parameters (insert n (Some t)))
          else raise (TypeError "cannot assign a non-Parameter as parameter")
      | _ => raise (TypeError "cannot assign a non-Parameter as parameter")
      end.

(** [Module.register_buffer] *)
Definition register_buffer (n : string) (t : pyobj A) : M unit :=
  if has_dot n then raise (KeyError n)
  else if decide (n = "") then raise (KeyError n)
  else
    h <- hasattr n ;;
    bs <- gets _buffers ;;
    if h && negb (bool_decide (is_Some (bs !! n))) then raise (KeyError n)
    else
      match t with
      | PNone => modify (set_buffers (insert n None))
      | PTensor t => modify (set_buffers (insert n (Some t)))
      | _ => raise (TypeError "cannot assign a non-Tensor as buffer")
      end.

(** [Module.__setattr__], for the values the source assigns (tensors,
    [None], a bound method); none of them is a [Module]. *)
Definition setattr (n : string) (value : pyobj A) : M unit :=
  ps <- gets _parameters ;;
  match value with
  | PTensor (Tensor _ _ _ _ true) =>
      modify (set_dict (delete n)) ;;
      modify (set_buffers (delete n)) ;;
      modify (set_modules (delete n)) ;;
      register_parameter n value
  | _ =>
      if bool_decide (is_Some (ps !! n)) then
        match value with
        | PNone => register_parameter n value
        | _ => raise (TypeError "cannot assign as parameter")
        end
      else
        ms <- gets _modules ;;
        if bool_decide (is_Some (ms !! n)) then
          match value with
          | PNone => modify (set_modules (insert n None))
          | _ => raise (TypeError "cannot assign as child module")
          end
        else
          bs <- gets _buffers ;;
          if bool_decide (is_Some (bs !! n)) then
            match value with
            | PNone => modify (set_buffers (insert n None))
            | PTensor t => modify (set_buffers (insert n (Some t)))
            | _ => raise (TypeError "cannot assign as buffer")
            end
          else modify (set_dict (insert n value))
  end.

(** [Module.register_forward_pre_hook]: a fresh [RemovableHandle] takes
    the next global id, under which the hook is stored. *)
Definition register_forward_pre_hook (h : hook A) : M nat :=
  k <- gets next_id ;;
  modify (set_next_id (S k)) ;;
  modify (set_hooks (od_set k h)) ;;
  ret k.

(** [x.new_empty(n).normal_(0, 1)]: the next [n] draws of the generator. *)
Definition normal_ (n : nat) : M (tensor A) :=
  r <- gets rng ;;
  modify (set_rng (fun i => r (n + i))) ;;
  ret (Tensor [n] (map r (seq 0 n)) false false false).

(** Using a Python value where the source needs a tensor. *)
Definition as_tensor (e : exn) (o : pyobj A) : M (tensor A) :=
  match o with
  | PTensor t => ret t
  | _ => raise e
  end.

(** [torch.nn.Parameter(data)]; with [data=None] an empty tensor. *)
Definition torch_nn_Parameter (o : pyobj A) : M (pyobj A) :=
  match o with
  | PTensor t => ret (PTensor (new_Parameter t))
  | PNone => ret (PTensor (Tensor [0] [] true false true))
  | _ => raise (TypeError "Parameter: expected a Tensor")
  end.

(** The torch functions, reading the grad mode and the operands. *)
Definition torch_matmul (m : tensor A) (x : pyobj A) : M (tensor A) :=
  x <- as_tensor (TypeError "matmul: argument must be Tensor") x ;;
  g <- gets grad_enabled ;;
  lift (matmul g m x).

Definition torch_dot (a : pyobj A) (b : tensor A) : M (tensor A) :=
  a <- as_tensor (TypeError "dot: argument must be Tensor") a ;;
  g <- gets grad_enabled ;;
  lift (dot g a b).

Definition F_normalize (x : tensor A) (e : A) : M (tensor A) :=
  g <- gets grad_enabled ;;
  lift (normalize g x e).

Definition torch_div (w sigma : tensor A) : M (tensor A) :=
  g <- gets grad_enabled ;;
  lift (div_scalar g w sigma).

End Module_protocol.

(** ** lib/spectral_norm.py *)

Definition POWER_ITERATION_FN : string := "spectral_norm_power_iteration".

Section Spectral_norm.
Context {A : Type} `{Dtype A}.
Local Abbreviation M := (M A).

(** The body of [for _ in range(n_power_iterations)] (lines 34-39). *)
Fixpoint power_iterations (self : SpectralNorm A) (weight_mat : tensor A)
    (n : nat) (u v : pyobj A) : M (pyobj A * pyobj A) :=
  match n with
  | 0 => ret (u, v)
  | S n' =>
      wt <- lift (transpose weight_mat) ;;
      x <- torch_matmul wt u ;;
      v <- F_normalize x (eps self) ;;
      y <- torch_matmul weight_mat (PTensor v) ;;
      u <- F_normalize y (eps self) ;;
      power_iterations self weight_mat n' (PTensor u) (PTensor v)
  end.

(** [SpectralNorm.compute_weight] (lines 17-45). *)
Definition compute_weight (self : SpectralNorm A) (n_power_iterations : Z) : M unit :=
  if decide (n_power_iterations < 0)%Z then
    raise (ValueError_iterations n_power_iterations)
  else
    weight <- getattr (name self +:+ "_orig") ;;
    u <- getattr (name self +:+ "_u") ;;
    v <- getattr (name self +:+ "_v") ;;
    weight <- as_tensor (AttributeError "size") weight ;;
    weight_mat <-
      (if decide (dim self <> 0%Z) then
         lift (permute weight
                 (dim self ::
                  filter (fun d => d <> dim self) (map Z.of_nat (seq 0 (ndim weight)))))
       else ret weight) ;;
    height <- lift (size weight_mat 0) ;;
    weight_mat <- lift (reshape_rows weight_mat height) ;;
    uv <- with_no_grad
            (power_iterations self weight_mat (Z.to_nat n_power_iterations) u v) ;;
    setattr (name self +:+ "_u") (fst uv) ;;
    setattr (name self +:+ "_v") (snd uv) ;;
    y <- torch_matmul weight_mat (snd uv) ;;
    sigma <- torch_dot (fst uv) y ;;
    weight <- torch_div weight sigma ;;
    setattr (name self) (PTensor weight).

(** [SpectralNorm.remove] (lines 47-52). *)
Definition remove (self : SpectralNorm A) : M unit :=
  weight <- getattr (name self) ;;
  delattr (name self) ;;
  delattr (name self +:+ "_u") ;;
  delattr (name self +:+ "_orig") ;;
  p <- torch_nn_Parameter weight ;;
  register_parameter (name self) p.

(** [SpectralNorm.get_update_method] (lines 54-58): the closure
    [update_fn], which the layer later calls with an iteration count. *)
Definition get_update_method (self : SpectralNorm A) : Z -> M unit :=
  fun n_power_iterations => compute_weight self n_power_iterations.

(** Calling the attribute [module.spectral_norm_power_iteration(n)]. *)
Definition spectral_norm_power_iteration (n : Z) : M unit :=
  f <- getattr POWER_ITERATION_FN ;;
  match f with
  | PMethod fn => get_update_method fn n
  | _ => raise (TypeError "object is not callable")
  end.

(** [SpectralNorm.__call__] (lines 60-67), the forward pre-hook. *)
Definition __call__ (self : SpectralNorm A) (unused_inputs : pyobj A) : M unit :=
  compute_weight self 0 ;;
  t <- gets training ;;
  if negb t then
    orig <- getattr (name self +:+ "_orig") ;;
    orig <- as_tensor (AttributeError "requires_grad") orig ;;
    let r_g := requires_grad orig in
    cur <- getattr (name self) ;;
    cur <- as_tensor (AttributeError "detach") cur ;;
    d <- lift (requires_grad_ (detach cur) r_g) ;;
    setattr (name self) (PTensor d)
  else ret tt.

(** [SpectralNorm.apply] (lines 69-92). *)
Definition SpectralNorm_apply (name_ : string) (dim_ : Z) (eps_ : A)
  : M (SpectralNorm A) :=
  let fn := mkSpectralNorm name_ dim_ eps_ in
  ps <- gets _parameters ;;
  weight <- match ps !! name_ with
            | Some p => ret (of_slot p)
            | None => raise (KeyError name_)
            end ;;
  weight_t <- as_tensor (AttributeError "size") weight ;;
  height <- lift (size weight_t dim_) ;;
  e <- normal_ height ;;
  u <- F_normalize e (eps fn) ;;
  n <- (if decide (height = 0) then raise ZeroDivisionError
        else ret (numel weight_t / height)) ;;
  e <- normal_ n ;;
  v <- F_normalize e (eps fn) ;;
  delattr (name fn) ;;
  register_parameter (name fn +:+ "_orig") weight ;;
  register_buffer (name fn) (PTensor (data_of weight_t)) ;;
  register_buffer (name fn +:+ "_u") (PTensor u) ;;
  register_buffer (name fn +:+ "_v") (PTensor v) ;;
  setattr POWER_ITERATION_FN (PMethod fn) ;;
  register_forward_pre_hook (SNHook fn) ;;
  ret fn.

(** [isinstance(module, (ConvTranspose1d, ConvTranspose2d, ConvTranspose3d))] *)
Definition isinstance_ConvTranspose (c : module_class) : bool :=
  match c with
  | ConvTranspose1d | ConvTranspose2d | ConvTranspose3d => true
  | _ => false
  end.

(** [inplace_spectral_norm] (lines 95-142); [return module] hands back
    the reference it was given, here the identity of the layer. *)
Definition inplace_spectral_norm (name_ : string) (dim_ : option Z) (eps_ : A)
  : M nat :=
  c <- gets cls ;;
  let dim_ := match dim_ with
              | None => if isinstance_ConvTranspose c then 1%Z else 0%Z
              | Some d => d
              end in
  SpectralNorm_apply name_ dim_ eps_ ;;
  gets oid.

(** [remove_spectral_norm] (lines 145-162): the loop over
    [module._forward_pre_hooks.items()], then the [raise]. *)
Fixpoint remove_loop (name_ : string) (items : list (nat * hook A)) : M nat :=
  match items with
  | [] => raise (ValueError_not_found name_)
  | (k, SNHook fn) :: rest =>
      if decide (name fn = name_) then
        remove fn ;;
        modify (set_hooks (od_del k)) ;;
        gets oid
      else remove_loop name_ rest
  | (k, OtherHook _) :: rest => remove_loop name_ rest
  end.

Definition remove_spectral_norm (name_ : string) : M nat :=
  items <- gets _forward_pre_hooks ;;
  remove_loop name_ items.

End Spectral_norm.

(** ** What it means for the normalization to be attached *)

Section Attached.
Context {A : Type} `{Dtype A}.

(** The invariant [torch.nn.Module] keeps on its tables: a name lives in at
    most one of the instance dictionary, the parameters, the buffers and
    the submodules. *)
Definition wf_module (w : world A) : Prop :=
  forall n : string,
    (is_Some (dict w !! n) ->
       _parameters w !! n = None /\ _buffers w !! n = None /\ _modules w !! n = None) /\
    (is_Some (_parameters w !! n) ->
       _buffers w !! n = None /\ _modules w !! n = None) /\
    (is_Some (_buffers w !! n) -> _modules w !! n = None).

(** The first [SpectralNorm] hook registered under a name, with its key. *)
Fixpoint find_hook (name_ : string) (items : list (nat * hook A))
  : option (nat * SpectralNorm A) :=
  match items with
  | [] => None
  | (k, SNHook fn) :: rest =>
      if decide (name fn = name_) then Some (k, fn) else find_hook name_ rest
  | (k, OtherHook _) :: rest => find_hook name_ rest
  end.

(** [n] is held by the buffers only, with value [t]. *)
Definition buffer_only (w : world A) (n : string) (t : tensor A) : Prop :=
  dict w !! n = None /\ _parameters w !! n = None /\
  _modules w !! n = None /\ _buffers w !! n = Some (Some t).

(** The layout [SpectralNorm.apply] leaves behind for [name_]: the
    original parameter [W] under [name_orig]; the public tensor [pub] and
    the vectors [u], [v] as plain buffers; a hook registered under the
    name. *)
Record registered (name_ : string) (W pub u v : tensor A) (w : world A)
  : Prop := {
  reg_no_dot : has_dot name_ = false;
  reg_nonempty : name_ <> "";
  reg_orig : _parameters w !! (name_ +:+ "_orig") = Some (Some W);
  reg_orig_dict : dict w !! (name_ +:+ "_orig") = None;
  reg_pub : buffer_only w name_ pub;
  reg_u : buffer_only w (name_ +:+ "_u") u;
  reg_v : buffer_only w (name_ +:+ "_v") v;
  reg_u_plain : is_parameter u = false;
  reg_v_plain : is_parameter v = false;
  reg_hook : is_Some (find_hook name_ (_forward_pre_hooks w));
  reg_orig_buffers : _buffers w !! (name_ +:+ "_orig") = None;
  reg_orig_modules : _modules w !! (name_ +:+ "_orig") = None
}.

(** The shapes [SpectralNorm.apply] produces when the dimension is a
    valid index from the front and the weight has elements: [u] has one
    entry per index of the output dimension and [v] one per remaining
    position. *)
Record well_shaped (self : SpectralNorm A) (W u v : tensor A) : Prop := {
  ws_wf : wf_tensor W;
  ws_dim : (0 <= dim self < Z.of_nat (ndim W))%Z;
  ws_nonempty : numel W <> 0;
  ws_u_shape : shape u = [nth (Z.to_nat (dim self)) (shape W) 0];
  ws_u_data : length (data u) = nth (Z.to_nat (dim self)) (shape W) 0;
  ws_v_shape : shape v = [numel W / nth (Z.to_nat (dim self)) (shape W) 0];
  ws_v_data : length (data v) = numel W / nth (Z.to_nat (dim self)) (shape W) 0
}.

(** What may happen between attach and removal: forward calls, each
    running the pre-hook, and explicit power-iteration calls. *)
Inductive run_between (self : SpectralNorm A) : world A -> world A -> Prop :=
  | rb_done w : run_between self w w
  | rb_forward w w1 w2 inputs :
      __call__ self inputs w = (Ok tt, w1) ->
      run_between self w1 w2 ->
      run_between self w w2
  | rb_iterate w w1 w2 n :
      get_update_method self n w = (Ok tt, w1) ->
      run_between self w1 w2 ->
      run_between self w w2.

End Attached.

(** ** The arithmetic of [compute_weight], apart from the bookkeeping

    On a layer in the [registered] layout every [getattr] of
    [compute_weight] finds a tensor, and what remains is tensor arithmetic.
    These three functions are that arithmetic, in the order of the source;
    [compute_weight_run] below shows that [compute_weight] is exactly their
    composition wrapped in the attribute updates. *)

Section Arithmetic.
Context {A : Type} `{Dtype A}.

(** Lines 27-32: [weight_mat]. *)
Definition weight_matrix (self : SpectralNorm A) (weight : tensor A)
  : result (tensor A) :=
  rbind (if decide (dim self <> 0%Z) then
           permute weight
             (dim self ::
              filter (fun d => d <> dim self) (map Z.of_nat (seq 0 (ndim weight))))
         else Ok weight) (fun weight_mat =>
  rbind (size weight_mat 0) (fun height =>
  reshape_rows weight_mat height)).

(** Lines 33-39: the loop, under [torch.no_grad()]. *)
Fixpoint iterate (e : A) (weight_mat : tensor A) (n : nat) (u v : tensor A)
  : result (tensor A * tensor A) :=
  match n with
  | 0 => Ok (u, v)
  | S n' =>
      rbind (transpose weight_mat) (fun wt =>
      rbind (matmul false wt u) (fun x =>
      rbind (normalize false x e) (fun v =>
      rbind (matmul false weight_mat v) (fun y =>
      rbind (normalize false y e) (fun u =>
      iterate e weight_mat n' u v)))))
  end.

(** Lines 43-44: [sigma] and [weight / sigma]. *)
Definition sigma_of (g : bool) (weight_mat u v : tensor A) : result (tensor A) :=
  rbind (matmul g weight_mat v) (fun y => dot g u y).

Definition rescale (g : bool) (weight weight_mat u v : tensor A)
  : result (tensor A) :=
  rbind (sigma_of g weight_mat u v) (fun sigma => div_scalar g weight sigma).

(** The three buffer assignments of lines 40, 41 and 45. *)
Definition store (name_ : string) (u v pub : tensor A) (w : world A) : world A :=
  set_buffers (fun b => <[name_ := Some pub]>
                          (<[name_ +:+ "_v" := Some v]>
                             (<[name_ +:+ "_u" := Some u]> b))) w.

Definition store_uv (name_ : string) (u v : tensor A) (w : world A) : world A :=
  set_buffers (fun b => <[name_ +:+ "_v" := Some v]>
                          (<[name_ +:+ "_u" := Some u]> b)) w.

End Arithmetic.

(** ** The effect of removal, written out

    [removed name_ pub k w] is [w] after the four attribute operations of
    [SpectralNorm.remove] and the deregistration of hook [k], when the public
    name holds [pub]. *)

Section Removed.
Context {A : Type} `{Dtype A}.

Definition unregistered (name_ : string) (pub : tensor A) (w : world A) : world A :=
  set_parameters (fun p => <[name_ := Some (new_Parameter pub)]>
                             (delete (name_ +:+ "_orig") p))
    (set_buffers (fun b => delete (name_ +:+ "_u") (delete name_ b)) w).

Definition removed (name_ : string) (pub : tensor A) (k : nat) (w : world A)
  : world A :=
  set_hooks (od_del k) (unregistered name_ pub w).

End Removed.

(** ** The effect of attaching, written out *)

Section Applied.
Context {A : Type} `{Dtype A}.

(** [w] after a successful [SpectralNorm.apply] that found the parameter
    [W], measured [height] along the dimension and drew [u] and [v]. *)
Definition applied (fn : SpectralNorm A) (W u v : tensor A) (height : nat)
    (w : world A) : world A :=
  set_hooks (od_set (next_id w) (SNHook fn))
    (set_next_id (S (next_id w))
       (set_dict (insert POWER_ITERATION_FN (PMethod fn))
          (set_buffers (fun b => <[name fn +:+ "_v" := Some v]>
                                   (<[name fn +:+ "_u" := Some u]>
                                      (<[name fn := Some (data_of W)]> b)))
             (set_parameters (fun p => <[name fn +:+ "_orig" := Some W]>
                                         (delete (name fn) p))
                (set_rng (fun i => rng w (height + (numel W / height + i))) w))))).

(** [inplace_spectral_norm]'s choice when [dim] is [None]. *)
Definition default_dim (c : module_class) : Z :=
  if isinstance_ConvTranspose c then 1%Z else 0%Z.

Definition chosen_dim (dim_ : option Z) (c : module_class) : Z :=
  match dim_ with
  | Some d => d
  | None => default_dim c
  end.

End Applied.

(** ** The specification of section 4.2, on plain vectors and matrices

    These definitions follow the words of the specification, not the code:
    a matrix is the list of its rows, and the matrix of a weight has one row
    per index along the output dimension, made of the remaining positions in
    row-major order. *)

Definition insert_at (k i : nat) (idx : list nat) : list nat :=
  take k idx ++ i :: drop k idx.

Section Specification.
Context {A : Type} `{Dtype A}.

(** Entry [(i, j)] of [M]: the element of [W] whose index along dimension
    [k] is [i] and whose other indices are the [j]-th multi-index of the
    remaining shape. *)
Definition spec_entry (s : list nat) (d : list A) (k i j : nat) : A :=
  nth (offset (insert_at k i (unravel (delete k s) j)) (strides s)) d s_zero.

Definition spec_height (s : list nat) (k : nat) : nat := nth k s 0.
Definition spec_width (s : list nat) (k : nat) : nat := prod_list (delete k s).

Definition spec_matrix (s : list nat) (d : list A) (k : nat) : list (list A) :=
  map (fun i => map (fun j => spec_entry s d k i j) (seq 0 (spec_width s k)))
      (seq 0 (spec_height s k)).

(** [M x] and [M^T u] for a matrix with [width] columns. *)
Definition mat_vec (m : list (list A)) (x : list A) : list A :=
  map (fun r => dot_list r x) m.

Definition mat_T_vec (width : nat) (m : list (list A)) (u : list A) : list A :=
  map (fun j => dot_list (map (fun r => nth j r s_zero) m) u) (seq 0 width).

(** [normalize(x, eps)]: [x] over its L2 norm, floored at [eps]. *)
Definition unit_vector (x : list A) (e : A) : list A :=
  map (fun a => s_div a (s_clamp_min (norm2 x) e)) x.

(** One round: [v <- normalize(M^T u)], then [u <- normalize(M v)]. *)
Definition spec_step (width : nat) (m : list (list A)) (e : A)
    (uv : list A * list A) : list A * list A :=
  let v := unit_vector (mat_T_vec width m (fst uv)) e in
  let u := unit_vector (mat_vec m v) e in
  (u, v).

Definition spec_iterate (width : nat) (m : list (list A)) (e : A) (k : nat)
    (uv : list A * list A) : list A * list A :=
  Nat.iter k (spec_step width m e) uv.

(** [sigma = u^T M v] *)
Definition spec_sigma (m : list (list A)) (u v : list A) : A :=
  dot_list u (mat_vec m v).

(** The tensor the hook leaves under the public name: the rescaled weight
    in training mode, its detached copy with the original's
    [requires_grad] otherwise. *)
Definition hook_public (training_ : bool) (W pub' : tensor A) : tensor A :=
  if training_ then pub'
  else Tensor (shape pub') (data pub') (requires_grad W) false false.

(** [pub] is [W] divided by the [sigma] that [u] and [v] give. *)
Definition rescaled (self : SpectralNorm A) (W pub u v : tensor A) : Prop :=
  exists g Mx sg s,
    weight_matrix self W = Ok Mx /\ sigma_of g Mx u v = Ok sg /\
    data sg = [s] /\ shape pub = shape W /\
    data pub = map (fun a => s_div a s) (data W).

End Specification.

(** ** Concrete float64 layers

    [torch.nn.Linear(1, 1, bias=False).double()] with a given weight, in
    training mode, with a generator whose draws are all [1.0]. Without a
    bias the layer still registers the name ["bias"], with [None]. *)

Module Example_layer.

(** Python's [1e-12] as a binary64 value. *)
Definition eps12 : float := 0x1.19799812dea11p-40%float.

Definition W2 : tensor float := Tensor [1; 1] [2%float] true false true.
Definition W0 : tensor float := Tensor [1; 1] [0%float] true false true.

Definition linear (W : tensor float) : world float :=
  World 7 Linear true ∅ (<["bias" := None]> (<["weight" := Some W]> ∅)) ∅ ∅ [] true 0
        (fun _ => 1%float).

Definition sn : SpectralNorm float := mkSpectralNorm "weight" 0 eps12.

(** The vectors attach stores with these draws, and the zero vector. *)
Definition ones : tensor float := Tensor [1] [1%float] false false false.
Definition zeros : tensor float := Tensor [1] [0%float] false false false.

(** [inplace_spectral_norm(m)] *)
Definition attached (W : tensor float) : world float :=
  snd (inplace_spectral_norm "weight" None eps12 (linear W)).

(** ... then one forward call, which runs the pre-hook *)
Definition forwarded (W : tensor float) : world float :=
  snd (__call__ sn PNone (attached W)).

(** ... then [remove_spectral_norm(m)] *)
Definition detached (W : tensor float) : world float :=
  snd (remove_spectral_norm "weight" (forwarded W)).



End Example_layer.

(** ** Exceptions other than the rejection of a negative count *)

Section Quiet.
Context {A : Type}.

Definition not_iterations (e : exn) : Prop :=
  forall m, e <> ValueError_iterations m.

Definition quiet_result {T} (r : result T) : Prop :=
  forall e, r = Raise e -> not_iterations e.

Definition quiet {T} (c : M A T) : Prop :=
  forall w e w', c w = (Raise e, w') -> not_iterations e.

End Quiet.

(** ** Further vocabulary for the life cycle of a normalization *)

Section Life_cycle.
Context {A : Type} `{Dtype A}.

(** No table of the layer holds the name [n]. *)
Definition absent (w : world A) (n : string) : Prop :=
  dict w !! n = None /\ _parameters w !! n = None /\
  _buffers w !! n = None /\ _modules w !! n = None.

(** The two vectors [SpectralNorm.apply] computes from the generator for a
    weight measured [height] along the chosen dimension (lines 75-76). *)
Definition drawn_u (g : bool) (r : nat -> A) (height : nat) (e : A) : tensor A :=
  fresh g false [height]
    (unit_vector (map r (seq 0 height)) e).

Definition drawn_v (g : bool) (r : nat -> A) (height n : nat) (e : A) : tensor A :=
  fresh g false [n]
    (unit_vector (map (fun i => r (height + i)) (seq 0 n)) e).

(** The keys of the hook dictionary. *)
Definition hook_keys (w : world A) : list nat := map fst (_forward_pre_hooks w).

End Life_cycle.

(** ** Further concrete layers *)

Module Example_more.
Import Example_layer.

(** A weight with no rows. *)
Definition W_empty : tensor float := Tensor [0; 3] [] true false true.

(** [inplace_spectral_norm(m, dim=-1)]: the dimension counted from the end. *)
Definition sn_last : SpectralNorm float := mkSpectralNorm "weight" (-1) eps12.

Definition attached_last : world float :=
  snd (inplace_spectral_norm "weight" (Some (-1)%Z) eps12 (linear W2)).

End Example_more.

(** ** Vocabulary for the vectors [normalize] returns in float64 *)



(** * Properties *)

(** ** Attribute names *)

Lemma append_length (a b : string) :
  String.length (a +:+ b) = String.length a + String.length b.
Proof. induction a as [|c a IH]; simpl; [reflexivity | now rewrite IH]. Qed.

Lemma append_ne_self (a b : string) : b <> "" -> a +:+ b <> a.
Proof.
  intros Hb Heq. apply (f_equal String.length) in Heq.
  rewrite append_length in Heq. destruct b; [congruence | simpl in Heq; lia].
Qed.

Lemma append_ne_suffix (a b c : string) : b <> c -> a +:+ b <> a +:+ c.
Proof. intros Hbc Heq. apply Hbc. by eapply (inj (String.app a)). Qed.

Lemma has_dot_append (a b : string) : has_dot (a +:+ b) = has_dot a || has_dot b.
Proof.
  induction a as [|c a IH]; simpl; [reflexivity |].
  destruct (decide (c = "."%char)); [reflexivity | exact IH].
Qed.

Lemma append_nonempty (a b : string) : b <> "" -> a +:+ b <> "".
Proof. destruct a; simpl; [tauto | discriminate]. Qed.

(** No name with one of the three suffixes is [POWER_ITERATION_FN]. *)
Ltac peel_name H n :=
  repeat (destruct n as [|? n]; simpl in H;
          [discriminate H | injection H as _ H]);
  destruct n; discriminate H.

Lemma power_iteration_fn_not_u (n : string) : n +:+ "_u" <> POWER_ITERATION_FN.
Proof. unfold POWER_ITERATION_FN. intros H. peel_name H n. Qed.

Lemma power_iteration_fn_not_v (n : string) : n +:+ "_v" <> POWER_ITERATION_FN.
Proof. unfold POWER_ITERATION_FN. intros H. peel_name H n. Qed.

Lemma power_iteration_fn_not_orig (n : string) : n +:+ "_orig" <> POWER_ITERATION_FN.
Proof. unfold POWER_ITERATION_FN. intros H. peel_name H n. Qed.

(** The four names of one normalization are pairwise distinct. *)
Lemma names_distinct (n : string) :
  n +:+ "_u" <> n /\ n +:+ "_v" <> n /\ n +:+ "_orig" <> n /\
  n +:+ "_u" <> n +:+ "_v" /\ n +:+ "_u" <> n +:+ "_orig" /\
  n +:+ "_v" <> n +:+ "_orig".
Proof.
  repeat split;
    first [ apply append_ne_self; discriminate
          | apply append_ne_suffix; discriminate ].
Qed.

(** ** The monad and the attribute protocol *)

Section Protocol_facts.
Context {A : Type} `{Dtype A}.
Implicit Types (w : world A) (t u v : tensor A) (n : string).

Lemma bind_ok {T U} (c : M A T) (k : T -> M A U) w x w' :
  c w = (Ok x, w') -> bind c k w = k x w'.
Proof. unfold bind. now intros ->. Qed.

Lemma bind_raise {T U} (c : M A T) (k : T -> M A U) w e w' :
  c w = (Raise e, w') -> bind c k w = (Raise e, w').
Proof. unfold bind. now intros ->. Qed.

Lemma bind_ret {T U} (x : T) (k : T -> M A U) w : bind (ret x) k w = k x w.
Proof. reflexivity. Qed.

Lemma bind_lift_ok {T U} (x : T) (k : T -> M A U) w : bind (lift (Ok x)) k w = k x w.
Proof. reflexivity. Qed.

Lemma set_grad_enabled_restore w :
  set_grad_enabled (grad_enabled w) (set_grad_enabled false w) = w.
Proof. now destruct w. Qed.

Lemma getattr_buffer w n t :
  buffer_only w n t -> getattr n w = (Ok (PTensor t), w).
Proof. intros (Hd & Hp & _ & Hb). unfold getattr. now rewrite Hd, Hp, Hb. Qed.

Lemma getattr_parameter w n (p : option (tensor A)) :
  dict w !! n = None -> _parameters w !! n = Some p ->
  getattr n w = (Ok (of_slot p), w).
Proof. intros Hd Hp. unfold getattr. now rewrite Hd, Hp. Qed.

Lemma setattr_buffer w n t0 t :
  buffer_only w n t0 -> is_parameter t = false ->
  setattr n (PTensor t) w = (Ok tt, set_buffers (insert n (Some t)) w).
Proof.
  intros (Hd & Hp & Hm & Hb) Ht. destruct t as [s d r g p]. simpl in Ht. subst p.
  unfold setattr, bind, gets, modify. simpl.
  rewrite Hp. simpl. rewrite Hm. simpl. rewrite Hb. reflexivity.
Qed.

Lemma buffer_only_insert_eq w n t0 t :
  buffer_only w n t0 -> buffer_only (set_buffers (insert n (Some t)) w) n t.
Proof.
  intros (Hd & Hp & Hm & Hb). repeat split; simpl; try assumption.
  apply lookup_insert_eq.
Qed.

Lemma buffer_only_insert_ne w n n' t t' :
  n' <> n -> buffer_only w n t ->
  buffer_only (set_buffers (insert n' (Some t')) w) n t.
Proof.
  intros Hne (Hd & Hp & Hm & Hb). repeat split; simpl; try assumption.
  now rewrite lookup_insert_ne.
Qed.

End Protocol_facts.

(** ** [compute_weight] on a registered layer *)

Section Compute_weight_facts.
Context {A : Type} `{Dtype A}.
Implicit Types (w : world A) (t u v W pub : tensor A) (self : SpectralNorm A).

Lemma power_iterations_run self Mx n u v w :
  grad_enabled w = false ->
  power_iterations self Mx n (PTensor u) (PTensor v) w =
    (match iterate (eps self) Mx n u v with
     | Ok (u', v') => Ok (PTensor u', PTensor v')
     | Raise e => Raise e
     end, w).
Proof.
  intros Hg. revert u v. induction n as [|n IH]; intros u v; simpl.
  - reflexivity.
  - unfold bind, lift, torch_matmul, F_normalize, as_tensor, ret, gets, bind.
    cbn. rewrite ?Hg.
    destruct (transpose Mx) as [wt|e]; cbn; [|reflexivity].
    destruct (matmul false wt u) as [x|e]; cbn; [|reflexivity].
    destruct (normalize false x (eps self)) as [v'|e]; cbn; [|reflexivity].
    destruct (matmul false Mx v') as [y|e]; cbn; [|reflexivity].
    destruct (normalize false y (eps self)) as [u'|e]; cbn; [|reflexivity].
    apply IH.
Qed.

Lemma normalize_plain g x e y :
  normalize g x e = Ok y -> is_parameter y = false.
Proof.
  unfold normalize. destruct (shape x) as [|a [|b l]]; try discriminate.
  now intros [= <-].
Qed.

Lemma iterate_plain e Mx n u v u' v' :
  iterate e Mx n u v = Ok (u', v') ->
  is_parameter u = false -> is_parameter v = false ->
  is_parameter u' = false /\ is_parameter v' = false.
Proof.
  revert u v. induction n as [|n IH]; intros u v; simpl.
  - now intros [= <- <-].
  - destruct (transpose Mx) as [wt|]; simpl; [|discriminate].
    destruct (matmul false wt u) as [x|]; simpl; [|discriminate].
    destruct (normalize false x e) as [v1|] eqn:Hv; simpl; [|discriminate].
    destruct (matmul false Mx v1) as [y|]; simpl; [|discriminate].
    destruct (normalize false y e) as [u1|] eqn:Hu; simpl; [|discriminate].
    intros Hit _ _. eapply IH; eauto using normalize_plain.
Qed.

Lemma rescale_plain g W Mx u v pub :
  rescale g W Mx u v = Ok pub -> is_parameter pub = false.
Proof.
  unfold rescale. destruct (sigma_of g Mx u v) as [sg|]; simpl; [|discriminate].
  unfold div_scalar. destruct (data sg) as [|s [|]]; try discriminate.
  destruct (shape sg); try discriminate. now intros [= <-].
Qed.

(** [compute_weight] is the arithmetic above inside three buffer
    assignments; an exception from [sigma] or the division leaves [u] and
    [v] already stored. *)
Lemma compute_weight_run self n w W pub u v :
  registered (name self) W pub u v w -> (0 <= n)%Z ->
  compute_weight self n w =
    match weight_matrix self W with
    | Raise e => (Raise e, w)
    | Ok Mx =>
      match iterate (eps self) Mx (Z.to_nat n) u v with
      | Raise e => (Raise e, w)
      | Ok (u', v') =>
        match rescale (grad_enabled w) W Mx u' v' with
        | Raise e => (Raise e, store_uv (name self) u' v' w)
        | Ok pub' => (Ok tt, store (name self) u' v' pub' w)
        end
      end
    end.
Proof.
  intros Hreg Hn. destruct (names_distinct (name self)) as (Hu & Hv & Ho & Huv & Huo & Hvo).
  unfold compute_weight. destruct (decide (n < 0)%Z) as [|_]; [lia|].
  rewrite (bind_ok _ _ _ _ _ (getattr_parameter _ _ _ (reg_orig_dict _ _ _ _ _ _ Hreg)
                                (reg_orig _ _ _ _ _ _ Hreg))).
  rewrite (bind_ok _ _ _ _ _ (getattr_buffer _ _ _ (reg_u _ _ _ _ _ _ Hreg))).
  rewrite (bind_ok _ _ _ _ _ (getattr_buffer _ _ _ (reg_v _ _ _ _ _ _ Hreg))).
  simpl of_slot. unfold as_tensor at 1. rewrite (bind_ok _ _ w W w eq_refl).
  unfold weight_matrix.
  set (pm := if decide (dim self <> 0%Z) then _ else Ok W).
  replace (if decide (dim self <> 0%Z) then lift _ else ret W) with (lift (A:=A) pm)
    by (subst pm; now destruct (decide (dim self <> 0%Z))).
  destruct pm as [wm|e]; simpl rbind; [|now apply bind_raise].
  rewrite (bind_ok _ _ w wm w eq_refl).
  destruct (size wm 0) as [height|e]; simpl rbind; [|now apply bind_raise].
  rewrite (bind_ok _ _ w height w eq_refl).
  destruct (reshape_rows wm height) as [Mx|e]; [|now apply bind_raise].
  rewrite (bind_ok _ _ w Mx w eq_refl).
  assert (Hloop : with_no_grad
            (power_iterations self Mx (Z.to_nat n) (PTensor u) (PTensor v)) w =
          (match iterate (eps self) Mx (Z.to_nat n) u v with
           | Ok (u', v') => Ok (PTensor u', PTensor v')
           | Raise e => Raise e
           end, w)).
  { unfold with_no_grad. rewrite power_iterations_run by reflexivity.
    now rewrite set_grad_enabled_restore. }
  destruct (iterate (eps self) Mx (Z.to_nat n) u v) as [[u' v']|e] eqn:Hit;
    [|now apply bind_raise].
  rewrite (bind_ok _ _ _ _ _ Hloop). simpl fst. simpl snd.
  destruct (iterate_plain _ _ _ _ _ _ _ Hit (reg_u_plain _ _ _ _ _ _ Hreg)
              (reg_v_plain _ _ _ _ _ _ Hreg)) as [Hpu Hpv].
  rewrite (bind_ok _ _ _ _ _ (setattr_buffer _ _ _ _ (reg_u _ _ _ _ _ _ Hreg) Hpu)).
  pose proof (buffer_only_insert_ne _ _ _ _ u' Huv (reg_v _ _ _ _ _ _ Hreg)) as Hv1.
  rewrite (bind_ok _ _ _ _ _ (setattr_buffer _ _ _ _ Hv1 Hpv)).
  unfold rescale, sigma_of, torch_matmul, torch_dot, torch_div, as_tensor.
  unfold bind at 1. unfold bind at 1. simpl ret. unfold ret at 1.
  unfold bind at 1. unfold gets at 1. unfold lift at 1.
  simpl grad_enabled.
  destruct (matmul (grad_enabled w) Mx v') as [y|e]; simpl rbind; [|reflexivity].
  unfold bind at 1. unfold bind at 1. unfold ret at 1.
  unfold bind at 1. unfold gets at 1. unfold lift at 1. simpl grad_enabled.
  destruct (dot (grad_enabled w) u' y) as [sg|e]; simpl rbind; [|reflexivity].
  unfold bind at 1. unfold bind at 1. unfold gets at 1. unfold lift at 1.
  simpl grad_enabled.
  destruct (div_scalar (grad_enabled w) W sg) as [pub'|e] eqn:Hdiv; [|reflexivity].
  assert (Hpp : is_parameter pub' = false).
  { unfold div_scalar in Hdiv. destruct (data sg) as [|s [|]]; try discriminate.
    destruct (shape sg); try discriminate. now injection Hdiv as <-. }
  pose proof (buffer_only_insert_ne _ _ _ _ u' Hu (reg_pub _ _ _ _ _ _ Hreg)) as Hp1.
  pose proof (buffer_only_insert_ne _ _ _ _ v' Hv Hp1) as Hp2.
  rewrite (setattr_buffer _ _ _ _ Hp2 Hpp). reflexivity.
Qed.

End Compute_weight_facts.

(** ** The registered layout is kept by [compute_weight] and the hook *)

Section Registered_facts.
Context {A : Type} `{Dtype A}.
Implicit Types (w : world A) (t u v W pub : tensor A) (self : SpectralNorm A).

Lemma registered_store name_ W pub u v w u' v' pub' :
  registered name_ W pub u v w ->
  is_parameter u' = false -> is_parameter v' = false ->
  registered name_ W pub' u' v' (store name_ u' v' pub' w).
Proof.
  intros [Hdot Hne Ho Hod (Hpd & Hpp & Hpm & Hpb) (Hud & Hup & Hum & Hub)
            (Hvd & Hvp & Hvm & Hvb) Hpu Hpv Hh Hob Hom] Hu' Hv'.
  destruct (names_distinct name_) as (Hu & Hv & Horig & Huv & Huo & Hvo).
  split; try assumption; unfold buffer_only, store; simpl;
    repeat split; try assumption.
  - apply lookup_insert_eq.
  - rewrite lookup_insert_ne by congruence.
    rewrite lookup_insert_ne by congruence. apply lookup_insert_eq.
  - rewrite lookup_insert_ne by congruence. apply lookup_insert_eq.
  - now rewrite !lookup_insert_ne by congruence.
Qed.

Lemma registered_store_uv name_ W pub u v w u' v' :
  registered name_ W pub u v w ->
  is_parameter u' = false -> is_parameter v' = false ->
  registered name_ W pub u' v' (store_uv name_ u' v' w).
Proof.
  intros [Hdot Hne Ho Hod (Hpd & Hpp & Hpm & Hpb) (Hud & Hup & Hum & Hub)
            (Hvd & Hvp & Hvm & Hvb) Hpu Hpv Hh Hob Hom] Hu' Hv'.
  destruct (names_distinct name_) as (Hu & Hv & Horig & Huv & Huo & Hvo).
  split; try assumption; unfold buffer_only, store_uv; simpl;
    repeat split; try assumption.
  - rewrite lookup_insert_ne by congruence.
    now rewrite lookup_insert_ne by congruence.
  - rewrite lookup_insert_ne by congruence. apply lookup_insert_eq.
  - apply lookup_insert_eq.
  - now rewrite !lookup_insert_ne by congruence.
Qed.

(** Storing the same three tensors a second time changes nothing. *)
Lemma store_store name_ u v pub w :
  store name_ u v pub (store name_ u v pub w) = store name_ u v pub w.
Proof.
  unfold store, set_buffers. simpl. f_equal.
  apply map_eq. intros i.
  destruct (decide (name_ = i)) as [->|Hi].
  { now rewrite !lookup_insert_eq. }
  rewrite !(lookup_insert_ne _ name_) by assumption.
  destruct (decide (name_ +:+ "_v" = i)) as [<-|Hiv].
  { now rewrite !lookup_insert_eq. }
  rewrite !(lookup_insert_ne _ (name_ +:+ "_v")) by assumption.
  destruct (decide (name_ +:+ "_u" = i)) as [<-|Hiu].
  { now rewrite !lookup_insert_eq. }
  rewrite !(lookup_insert_ne _ (name_ +:+ "_u")) by assumption.
  rewrite !(lookup_insert_ne _ name_) by assumption.
  rewrite !(lookup_insert_ne _ (name_ +:+ "_v")) by assumption.
  now rewrite !(lookup_insert_ne _ (name_ +:+ "_u")) by assumption.
Qed.

Lemma store_uv_store_uv name_ u v w :
  store_uv name_ u v (store_uv name_ u v w) = store_uv name_ u v w.
Proof.
  unfold store_uv, set_buffers. simpl. f_equal.
  apply map_eq. intros i.
  destruct (decide (name_ +:+ "_v" = i)) as [<-|Hiv].
  { now rewrite !lookup_insert_eq. }
  rewrite !(lookup_insert_ne _ (name_ +:+ "_v")) by assumption.
  destruct (decide (name_ +:+ "_u" = i)) as [<-|Hiu].
  { now rewrite !lookup_insert_eq. }
  rewrite !(lookup_insert_ne _ (name_ +:+ "_u")) by assumption.
  rewrite !(lookup_insert_ne _ (name_ +:+ "_v")) by assumption.
  now rewrite !(lookup_insert_ne _ (name_ +:+ "_u")) by assumption.
Qed.

(** Assigning the public name once more replaces the stored tensor. *)
Lemma set_public_store name_ u v pub pub' w :
  set_buffers (insert name_ (Some pub')) (store name_ u v pub w) =
  store name_ u v pub' w.
Proof.
  unfold store, set_buffers. simpl. f_equal. apply insert_insert_eq.
Qed.

Lemma call_run self inputs w W pub u v :
  registered (name self) W pub u v w ->
  __call__ self inputs w =
    match weight_matrix self W with
    | Raise e => (Raise e, w)
    | Ok Mx =>
        match rescale (grad_enabled w) W Mx u v with
        | Raise e => (Raise e, store_uv (name self) u v w)
        | Ok pub' =>
            (Ok tt, store (name self) u v (hook_public (training w) W pub') w)
        end
    end.
Proof.
  intros Hreg. unfold __call__.
  pose proof (compute_weight_run self 0 w W pub u v Hreg (Z.le_refl 0)) as Hcw.
  simpl in Hcw.
  destruct (weight_matrix self W) as [Mx|e]; [|now apply bind_raise].
  destruct (rescale (grad_enabled w) W Mx u v) as [pub'|e] eqn:Hres;
    [|now apply bind_raise].
  rewrite (bind_ok _ _ _ _ _ Hcw).
  pose proof (registered_store _ _ _ _ _ _ u v pub' Hreg
                (reg_u_plain _ _ _ _ _ _ Hreg) (reg_v_plain _ _ _ _ _ _ Hreg)) as Hreg'.
  unfold bind at 1. unfold gets at 1.
  change (training (store (name self) u v pub' w)) with (training w).
  unfold hook_public. destruct (training w); cbn [negb].
  { reflexivity. }
  rewrite (bind_ok _ _ _ _ _ (getattr_parameter _ _ _ (reg_orig_dict _ _ _ _ _ _ Hreg')
                                (reg_orig _ _ _ _ _ _ Hreg'))).
  simpl of_slot. unfold as_tensor at 1. rewrite bind_ret.
  rewrite (bind_ok _ _ _ _ _ (getattr_buffer _ _ _ (reg_pub _ _ _ _ _ _ Hreg'))).
  unfold as_tensor at 1. rewrite bind_ret.
  unfold requires_grad_, detach. simpl grad_fn. simpl andb. cbv iota.
  rewrite bind_lift_ok.
  erewrite setattr_buffer; [|exact (reg_pub _ _ _ _ _ _ Hreg')|reflexivity].
  now rewrite set_public_store.
Qed.

End Registered_facts.

(** ** Removal on a registered layer *)

Section Removal_facts.
Context {A : Type} `{Dtype A}.
Implicit Types (w : world A) (t u v W pub : tensor A) (self : SpectralNorm A).

Lemma delattr_buffer w n :
  _parameters w !! n = None -> is_Some (_buffers w !! n) ->
  delattr n w = (Ok tt, set_buffers (delete n) w).
Proof.
  intros Hp Hb. unfold delattr. rewrite Hp.
  destruct (decide (is_Some (@None (option (tensor A))))) as [[? [=]]|_].
  now destruct (decide (is_Some (_buffers w !! n))).
Qed.

Lemma delattr_parameter w n :
  is_Some (_parameters w !! n) ->
  delattr n w = (Ok tt, set_parameters (delete n) w).
Proof.
  intros Hp. unfold delattr.
  now destruct (decide (is_Some (_parameters w !! n))).
Qed.

Lemma hasattr_absent w n :
  dict w !! n = None -> _parameters w !! n = None ->
  _buffers w !! n = None -> _modules w !! n = None ->
  hasattr n w = (Ok false, w).
Proof.
  intros Hd Hp Hb Hm. unfold hasattr, getattr. now rewrite Hd, Hp, Hb, Hm.
Qed.

Lemma register_parameter_fresh w n t :
  has_dot n = false -> n <> "" ->
  dict w !! n = None -> _parameters w !! n = None ->
  _buffers w !! n = None -> _modules w !! n = None ->
  is_parameter t = true -> grad_fn t = false ->
  register_parameter n (PTensor t) w =
    (Ok tt, set_parameters (insert n (Some t)) w).
Proof.
  intros Hdot Hne Hd Hp Hb Hm Hpar Hleaf. unfold register_parameter.
  rewrite Hdot. destruct (decide (n = "")) as [|_]; [contradiction|].
  rewrite (bind_ok _ _ _ _ _ (hasattr_absent _ _ Hd Hp Hb Hm)).
  unfold bind, gets, modify. simpl. now rewrite Hpar, Hleaf.
Qed.

Lemma remove_run self W pub u v w :
  registered (name self) W pub u v w ->
  remove self w = (Ok tt, unregistered (name self) pub w).
Proof.
  intros [Hdot Hne Ho Hod (Hpd & Hpp & Hpm & Hpb) (Hud & Hup & Hum & Hub)
            (Hvd & Hvp & Hvm & Hvb) Hpu Hpv Hh Hob Hom].
  destruct (names_distinct (name self)) as (Hu & Hv & Horig & Huv & Huo & Hvo).
  unfold remove.
  rewrite (bind_ok _ _ _ _ _ (getattr_buffer _ _ _ (conj Hpd (conj Hpp (conj Hpm Hpb))))).
  rewrite (bind_ok _ _ _ _ _ (delattr_buffer w (name self) Hpp (mk_is_Some _ _ Hpb))).
  erewrite bind_ok; cycle 1.
  { apply delattr_buffer; simpl; [exact Hup|].
    rewrite lookup_delete_ne by congruence. eauto. }
  erewrite bind_ok; cycle 1.
  { apply delattr_parameter; simpl. eauto. }
  unfold torch_nn_Parameter. rewrite bind_ret.
  rewrite register_parameter_fresh; simpl; try assumption; try reflexivity.
  - now rewrite lookup_delete_ne by congruence.
  - rewrite lookup_delete_ne by congruence. apply lookup_delete_eq.
Qed.

Lemma remove_loop_found name_ items k fn w :
  find_hook name_ items = Some (k, fn) ->
  name fn = name_ /\
  remove_loop name_ items w =
    bind (remove fn) (fun _ => bind (modify (set_hooks (od_del k))) (fun _ => gets oid)) w.
Proof.
  induction items as [|[k' [fn'|tag]] rest IH]; simpl; [discriminate| |exact IH].
  destruct (decide (name fn' = name_)) as [Heq|Hne]; [|exact IH].
  now intros [= <- <-].
Qed.

Lemma remove_loop_not_found name_ items w :
  find_hook name_ items = None ->
  remove_loop name_ items w = (Raise (ValueError_not_found name_), w).
Proof.
  induction items as [|[k' [fn'|tag]] rest IH]; simpl; [reflexivity| |exact IH].
  destruct (decide (name fn' = name_)) as [Heq|Hne]; [discriminate|exact IH].
Qed.

Lemma find_hook_none name_ (items : list (nat * hook A)) :
  find_hook name_ items = None <->
  forall k fn, In (k, SNHook fn) items -> name fn <> name_.
Proof.
  induction items as [|[k' [fn'|tag]] rest IH]; simpl.
  - split; [intros _ k fn []|reflexivity].
  - destruct (decide (name fn' = name_)) as [Heq|Hne].
    + split; [discriminate|]. intros Hall. exfalso. eapply Hall; eauto.
    + rewrite IH. split.
      * intros Hall k fn [[= <- <-]|Hin]; eauto.
      * intros Hall k fn Hin. eauto.
  - rewrite IH. split.
    + intros Hall k fn [[=]|Hin]; eauto.
    + intros Hall k fn Hin. eauto.
Qed.

Lemma remove_spectral_norm_run name_ W pub u v w :
  registered name_ W pub u v w ->
  exists k fn,
    find_hook name_ (_forward_pre_hooks w) = Some (k, fn) /\
    remove_spectral_norm name_ w = (Ok (oid w), removed name_ pub k w).
Proof.
  intros Hreg. destruct (reg_hook _ _ _ _ _ _ Hreg) as [[k fn] Hfind].
  exists k, fn. split; [exact Hfind|].
  unfold remove_spectral_norm. unfold bind at 1. unfold gets at 1.
  destruct (remove_loop_found _ _ _ _ w Hfind) as [Hname ->].
  subst name_. rewrite (bind_ok _ _ _ _ _ (remove_run _ _ _ _ _ _ Hreg)).
  reflexivity.
Qed.

End Removal_facts.

(** ** What a successful [SpectralNorm.apply] has done *)

Section Apply_facts.
Context {A : Type} `{Dtype A}.
Implicit Types (w : world A) (t u v W pub : tensor A) (self : SpectralNorm A).

Lemma bind_inv {T U} (c : M A T) (k : T -> M A U) w x w' :
  bind c k w = (Ok x, w') ->
  exists y w1, c w = (Ok y, w1) /\ k y w1 = (Ok x, w').
Proof.
  unfold bind. destruct (c w) as [[y|e] w1]; [eauto|discriminate].
Qed.

Lemma hasattr_cases w n :
  (hasattr n w = (Ok false, w) /\
     dict w !! n = None /\ _parameters w !! n = None /\
     _buffers w !! n = None /\ _modules w !! n = None) \/
  hasattr n w = (Ok true, w).
Proof.
  unfold hasattr, getattr.
  destruct (dict w !! n); [now right|].
  destruct (_parameters w !! n); [now right|].
  destruct (_buffers w !! n); [now right|].
  destruct (_modules w !! n) as [[|]|]; [now right|now right|].
  left. repeat split; reflexivity.
Qed.

Lemma register_buffer_inv w n t w' :
  register_buffer n (PTensor t) w = (Ok tt, w') ->
  has_dot n = false /\ n <> "" /\
  ((dict w !! n = None /\ _parameters w !! n = None /\
    _buffers w !! n = None /\ _modules w !! n = None) \/
   is_Some (_buffers w !! n)) /\
  w' = set_buffers (insert n (Some t)) w.
Proof.
  unfold register_buffer. destruct (has_dot n); [discriminate|].
  destruct (decide (n = "")) as [|Hne]; [discriminate|].
  intros Hrun. split; [reflexivity|]. split; [assumption|].
  destruct (hasattr_cases w n) as [(Hh & Hnone)|Hh];
    rewrite (bind_ok _ _ _ _ _ Hh) in Hrun;
    unfold bind, gets, modify, raise in Hrun; simpl in Hrun.
  - injection Hrun as <-. split; [now left|reflexivity].
  - destruct (bool_decide (is_Some (_buffers w !! n))) eqn:Hb; simpl in Hrun;
      [|discriminate].
    apply bool_decide_eq_true in Hb. injection Hrun as <-.
    split; [now right|reflexivity].
Qed.

Lemma register_parameter_inv w n t w' :
  register_parameter n (PTensor t) w = (Ok tt, w') ->
  has_dot n = false /\ n <> "" /\
  ((dict w !! n = None /\ _parameters w !! n = None /\
    _buffers w !! n = None /\ _modules w !! n = None) \/
   is_Some (_parameters w !! n)) /\
  is_parameter t = true /\ grad_fn t = false /\
  w' = set_parameters (insert n (Some t)) w.
Proof.
  unfold register_parameter. destruct (has_dot n); [discriminate|].
  destruct (decide (n = "")) as [|Hne]; [discriminate|].
  intros Hrun. split; [reflexivity|]. split; [assumption|].
  assert (Hfin : forall w0 : world A,
    (if is_parameter t
     then if grad_fn t then raise (ValueError_non_leaf n)
          else modify (set_parameters (insert n (Some t)))
     else raise (TypeError "cannot assign a non-Parameter as parameter")) w0
      = (Ok tt, w') ->
    is_parameter t = true /\ grad_fn t = false /\
    w' = set_parameters (insert n (Some t)) w0).
  { intros w0. destruct (is_parameter t); [|discriminate].
    destruct (grad_fn t); [discriminate|]. now intros [= <-]. }
  destruct (hasattr_cases w n) as [(Hh & Hnone)|Hh];
    rewrite (bind_ok _ _ _ _ _ Hh) in Hrun;
    unfold bind at 1, gets at 1 in Hrun; simpl in Hrun.
  - split; [now left|]. now apply Hfin.
  - destruct (bool_decide (is_Some (_parameters w !! n))) eqn:Hb; simpl in Hrun;
      [|discriminate].
    apply bool_decide_eq_true in Hb. split; [now right|]. now apply Hfin.
Qed.

Lemma setattr_method_inv w n fn w' :
  setattr n (PMethod fn) w = (Ok tt, w') ->
  _parameters w !! n = None /\ _modules w !! n = None /\
  _buffers w !! n = None /\ w' = set_dict (insert n (PMethod fn)) w.
Proof.
  unfold setattr, bind, gets, modify, raise. simpl.
  destruct (_parameters w !! n) eqn:Hp; simpl; [discriminate|].
  destruct (_modules w !! n) eqn:Hm; simpl; [discriminate|].
  destruct (_buffers w !! n) eqn:Hb; simpl; [discriminate|].
  now intros [= <-].
Qed.

Lemma find_hook_od_set name_ k fn (items : list (nat * hook A)) :
  name fn = name_ -> is_Some (find_hook name_ (od_set k (SNHook fn) items)).
Proof.
  intros Hn. induction items as [|[k' h] rest IH]; simpl.
  - destruct (decide (name fn = name_)); [eauto|contradiction].
  - destruct (decide (k' = k)) as [->|Hk]; simpl.
    + destruct (decide (name fn = name_)); [eauto|contradiction].
    + destruct h as [fn'|tag]; [|exact IH].
      destruct (decide (name fn' = name_)); [eauto|exact IH].
Qed.

Lemma size_inv W d height :
  size W d = Ok height ->
  (- Z.of_nat (ndim W) <= d < Z.of_nat (ndim W))%Z /\
  height = nth (Z.to_nat (d mod Z.of_nat (ndim W))) (shape W) 0.
Proof.
  unfold size, wrap_dim.
  destruct (decide (- Z.of_nat (ndim W) <= d < Z.of_nat (ndim W))%Z); [|discriminate].
  simpl. now intros [= <-].
Qed.

End Apply_facts.

Section Apply_registered.
Context {A : Type} `{Dtype A}.
Implicit Types (w : world A) (t u v W pub : tensor A) (self : SpectralNorm A).

Lemma wf_buffer_only w n :
  wf_module w -> is_Some (_buffers w !! n) ->
  dict w !! n = None /\ _parameters w !! n = None /\ _modules w !! n = None.
Proof.
  intros Hwf Hb. destruct (Hwf n) as (Hd & Hp & Hbm).
  repeat split.
  - destruct (dict w !! n) eqn:E; [|reflexivity].
    destruct Hd as (_ & Hnb & _); [eauto|]. rewrite Hnb in Hb. now destruct Hb.
  - destruct (_parameters w !! n) eqn:E; [|reflexivity].
    destruct Hp as (Hnb & _); [eauto|]. rewrite Hnb in Hb. now destruct Hb.
  - now apply Hbm.
Qed.

Lemma wf_parameter_only w n :
  wf_module w -> is_Some (_parameters w !! n) ->
  dict w !! n = None /\ _buffers w !! n = None /\ _modules w !! n = None.
Proof.
  intros Hwf Hp. destruct (Hwf n) as (Hd & Hpb & _).
  destruct (Hpb Hp) as [Hb Hm]. repeat split; try assumption.
  destruct (dict w !! n) eqn:E; [|reflexivity].
  destruct Hd as (Hnp & _); [eauto|]. rewrite Hnp in Hp. now destruct Hp.
Qed.

Lemma apply_inv name_ dim_ eps_ w0 fn w1 :
  SpectralNorm_apply name_ dim_ eps_ w0 = (Ok fn, w1) ->
  exists W u v height,
    fn = mkSpectralNorm name_ dim_ eps_ /\
    _parameters w0 !! name_ = Some (Some W) /\
    size W dim_ = Ok height /\ height <> 0 /\
    normalize (grad_enabled w0)
      (Tensor [height] (map (rng w0) (seq 0 height)) false false false) eps_ = Ok u /\
    normalize (grad_enabled w0)
      (Tensor [numel W / height]
         (map (fun i => rng w0 (height + i)) (seq 0 (numel W / height)))
         false false false) eps_ = Ok v /\
    w1 = applied fn W u v height w0 /\
    has_dot name_ = false /\ name_ <> "" /\
    is_parameter W = true /\ grad_fn W = false /\
    POWER_ITERATION_FN <> name_ /\
    ((dict w0 !! (name_ +:+ "_orig") = None /\
      _buffers w0 !! (name_ +:+ "_orig") = None /\
      _modules w0 !! (name_ +:+ "_orig") = None) \/
     is_Some (_parameters w0 !! (name_ +:+ "_orig"))) /\
    ((dict w0 !! (name_ +:+ "_u") = None /\
      _parameters w0 !! (name_ +:+ "_u") = None /\
      _modules w0 !! (name_ +:+ "_u") = None) \/
     is_Some (_buffers w0 !! (name_ +:+ "_u"))) /\
    ((dict w0 !! (name_ +:+ "_v") = None /\
      _parameters w0 !! (name_ +:+ "_v") = None /\
      _modules w0 !! (name_ +:+ "_v") = None) \/
     is_Some (_buffers w0 !! (name_ +:+ "_v"))).
Proof.
  intros Hrun. unfold SpectralNorm_apply in Hrun.
  unfold bind at 1, gets at 1 in Hrun.
  destruct (_parameters w0 !! name_) as [[W|]|] eqn:HW; simpl in Hrun;
    try discriminate.
  rewrite bind_ret in Hrun. simpl of_slot in Hrun.
  unfold as_tensor at 1 in Hrun. rewrite bind_ret in Hrun.
  apply bind_inv in Hrun as (height & w & Hsize & Hrun).
  unfold lift in Hsize. injection Hsize as Hsize <-.
  apply bind_inv in Hrun as (e1 & w & He1 & Hrun).
  unfold normal_, bind, gets, modify, ret in He1. injection He1 as <- <-.
  apply bind_inv in Hrun as (u & w & Hu & Hrun).
  unfold F_normalize, bind, gets, lift in Hu. simpl in Hu.
  injection Hu as Hu <-.
  destruct (decide (height = 0)) as [|Hh]; [discriminate|].
  rewrite bind_ret in Hrun.
  apply bind_inv in Hrun as (e2 & w & He2 & Hrun).
  unfold normal_, bind, gets, modify, ret in He2. simpl in He2.
  injection He2 as <- <-.
  apply bind_inv in Hrun as (v & w & Hv & Hrun).
  unfold F_normalize, bind, gets, lift in Hv. simpl in Hv.
  injection Hv as Hv <-.
  destruct (names_distinct name_) as (Hnu & Hnv & Hno & Hnuv & Hnuo & Hnvo).
  apply bind_inv in Hrun as ([] & w2 & Hdel & Hrun).
  rewrite delattr_parameter in Hdel by (simpl; rewrite HW; eauto).
  injection Hdel as <-.
  apply bind_inv in Hrun as ([] & w3 & Hrp & Hrun).
  apply register_parameter_inv in Hrp as (Hdot_o & _ & Hfree_o & HWpar & HWleaf & ->).
  apply bind_inv in Hrun as ([] & w4 & Hrb & Hrun).
  apply register_buffer_inv in Hrb as (Hdot & Hne & _ & ->).
  apply bind_inv in Hrun as ([] & w5 & Hru & Hrun).
  apply register_buffer_inv in Hru as (_ & _ & Hfree_u & ->).
  apply bind_inv in Hrun as ([] & w6 & Hrv & Hrun).
  apply register_buffer_inv in Hrv as (_ & _ & Hfree_v & ->).
  apply bind_inv in Hrun as ([] & w7 & Hset & Hrun).
  apply setattr_method_inv in Hset as (HPp & HPm & HPb & ->).
  apply bind_inv in Hrun as (k & w8 & Hhook & Hrun).
  unfold register_forward_pre_hook, bind, gets, modify, ret in Hhook.
  simpl in Hhook. injection Hhook as <- <-.
  unfold ret in Hrun. injection Hrun as <- <-.
  simpl in Hfree_o, Hfree_u, Hfree_v, HPb.
  rewrite !lookup_delete_ne in Hfree_o by congruence.
  rewrite !lookup_insert_ne, !lookup_delete_ne in Hfree_u by congruence.
  rewrite !lookup_insert_ne, !lookup_delete_ne in Hfree_v by congruence.
  assert (HPn : POWER_ITERATION_FN <> name_).
  { intros HP. rewrite HP in HPb.
    rewrite !lookup_insert_ne, lookup_insert_eq in HPb by congruence.
    discriminate. }
  exists W, u, v, height.
  split; [reflexivity|]. split; [reflexivity|]. split; [assumption|].
  split; [assumption|].
  split; [unfold normalize; simpl; now rewrite Hu|].
  split; [unfold normalize; simpl; now rewrite Hv|].
  split; [reflexivity|].
  repeat (split; [assumption|]).
  split; [|split].
  - destruct Hfree_o as [(? & _ & ? & ?)|?]; [left; now repeat split|now right].
  - destruct Hfree_u as [(? & ? & _ & ?)|?]; [left; now repeat split|now right].
  - destruct Hfree_v as [(? & ? & _ & ?)|?]; [left; now repeat split|now right].
Qed.

Lemma normalize_shape g x e y :
  normalize g x e = Ok y ->
  shape y = shape x /\ length (data y) = length (data x) /\
  data y = map (fun a => s_div a (s_clamp_min (norm2 (data x)) e)) (data x).
Proof.
  unfold normalize. destruct (shape x) as [|a [|b l]]; try discriminate.
  intros [= <-]. simpl. now rewrite length_map.
Qed.

Lemma applied_registered fn W u v height w0 :
  wf_module w0 ->
  _parameters w0 !! name fn = Some (Some W) ->
  has_dot (name fn) = false -> name fn <> "" ->
  POWER_ITERATION_FN <> name fn ->
  is_parameter u = false -> is_parameter v = false ->
  ((dict w0 !! (name fn +:+ "_orig") = None /\
    _buffers w0 !! (name fn +:+ "_orig") = None /\
    _modules w0 !! (name fn +:+ "_orig") = None) \/
   is_Some (_parameters w0 !! (name fn +:+ "_orig"))) ->
  ((dict w0 !! (name fn +:+ "_u") = None /\
    _parameters w0 !! (name fn +:+ "_u") = None /\
    _modules w0 !! (name fn +:+ "_u") = None) \/
   is_Some (_buffers w0 !! (name fn +:+ "_u"))) ->
  ((dict w0 !! (name fn +:+ "_v") = None /\
    _parameters w0 !! (name fn +:+ "_v") = None /\
    _modules w0 !! (name fn +:+ "_v") = None) \/
   is_Some (_buffers w0 !! (name fn +:+ "_v"))) ->
  registered (name fn) W (data_of W) u v (applied fn W u v height w0).
Proof.
  intros Hwf HW Hdot Hne HPn Hpu Hpv Hfree_o Hfree_u Hfree_v.
  destruct (names_distinct (name fn)) as (Hnu & Hnv & Hno & Hnuv & Hnuo & Hnvo).
  destruct (wf_parameter_only w0 (name fn) Hwf) as (Hd_n & Hb_n & Hm_n);
    [rewrite HW; eauto|].
  assert (Ho0 : dict w0 !! (name fn +:+ "_orig") = None /\
                _buffers w0 !! (name fn +:+ "_orig") = None /\
                _modules w0 !! (name fn +:+ "_orig") = None).
  { destruct Hfree_o as [?|Hs]; [assumption|]. now apply wf_parameter_only. }
  assert (Hu0 : dict w0 !! (name fn +:+ "_u") = None /\
                _parameters w0 !! (name fn +:+ "_u") = None /\
                _modules w0 !! (name fn +:+ "_u") = None).
  { destruct Hfree_u as [?|Hs]; [assumption|]. now apply wf_buffer_only. }
  assert (Hv0 : dict w0 !! (name fn +:+ "_v") = None /\
                _parameters w0 !! (name fn +:+ "_v") = None /\
                _modules w0 !! (name fn +:+ "_v") = None).
  { destruct Hfree_v as [?|Hs]; [assumption|]. now apply wf_buffer_only. }
  destruct Ho0 as (Hd_o & Hb_o & Hm_o).
  destruct Hu0 as (Hd_u & Hp_u & Hm_u). destruct Hv0 as (Hd_v & Hp_v & Hm_v).
  pose proof (power_iteration_fn_not_u (name fn)) as HPu.
  pose proof (power_iteration_fn_not_v (name fn)) as HPv.
  pose proof (power_iteration_fn_not_orig (name fn)) as HPo.
  split; try assumption; unfold buffer_only, applied; simpl.
  - apply lookup_insert_eq.
  - now rewrite lookup_insert_ne by congruence.
  - repeat split.
    + now rewrite lookup_insert_ne by congruence.
    + rewrite lookup_insert_ne by congruence. apply lookup_delete_eq.
    + assumption.
    + rewrite !lookup_insert_ne by congruence. apply lookup_insert_eq.
  - repeat split.
    + now rewrite lookup_insert_ne by congruence.
    + rewrite lookup_insert_ne, lookup_delete_ne by congruence. assumption.
    + assumption.
    + rewrite lookup_insert_ne by congruence. apply lookup_insert_eq.
  - repeat split.
    + now rewrite lookup_insert_ne by congruence.
    + rewrite lookup_insert_ne, lookup_delete_ne by congruence. assumption.
    + assumption.
    + apply lookup_insert_eq.
  - now apply find_hook_od_set.
  - now rewrite !lookup_insert_ne by congruence.
Qed.

Lemma apply_registered name_ dim_ eps_ w0 fn w1 :
  wf_module w0 ->
  SpectralNorm_apply name_ dim_ eps_ w0 = (Ok fn, w1) ->
  exists W u v height,
    fn = mkSpectralNorm name_ dim_ eps_ /\
    _parameters w0 !! name_ = Some (Some W) /\
    size W dim_ = Ok height /\ height <> 0 /\
    normalize (grad_enabled w0)
      (Tensor [height] (map (rng w0) (seq 0 height)) false false false) eps_ = Ok u /\
    normalize (grad_enabled w0)
      (Tensor [numel W / height]
         (map (fun i => rng w0 (height + i)) (seq 0 (numel W / height)))
         false false false) eps_ = Ok v /\
    w1 = applied fn W u v height w0 /\
    registered name_ W (data_of W) u v w1.
Proof.
  intros Hwf Hrun.
  destruct (apply_inv _ _ _ _ _ _ Hrun)
    as (W & u & v & height & -> & HW & Hsize & Hh & Hu & Hv & -> & Hdot & Hne &
        HWp & HWl & HPn & Hfo & Hfu & Hfv).
  exists W, u, v, height. repeat (split; [assumption || reflexivity|]).
  apply (applied_registered (mkSpectralNorm name_ dim_ eps_)); try assumption.
  - eapply normalize_plain; eassumption.
  - eapply normalize_plain; eassumption.
Qed.

End Apply_registered.

(** ** Row-major layout: strides, multi-indices and rows *)

Section Layout.

Lemma prod_list_app (a b : list nat) :
  prod_list (a ++ b) = prod_list a * prod_list b.
Proof. induction a as [|x a IH]; simpl; [lia | rewrite IH; lia]. Qed.

Lemma prod_list_delete (s : list nat) (i : nat) :
  i < length s -> nth i s 0 * prod_list (delete i s) = prod_list s.
Proof.
  revert i. induction s as [|x s IH]; intros i Hi; simpl in *; [lia|].
  destruct i as [|i]; simpl; [reflexivity|].
  rewrite <- (IH i) by lia. lia.
Qed.

Lemma length_unravel (s : list nat) (j : nat) : length (unravel s j) = length s.
Proof. revert j. induction s as [|x s IH]; intros j; simpl; [|rewrite IH]; reflexivity. Qed.

Lemma length_strides (s : list nat) : length (strides s) = length s.
Proof. induction s as [|x s IH]; simpl; [|rewrite IH]; reflexivity. Qed.

(** The multi-index of a position leads back to the position. *)
Lemma offset_unravel (s : list nat) (j : nat) :
  j < prod_list s -> offset (unravel s j) (strides s) = j.
Proof.
  revert j. induction s as [|x s IH]; intros j Hj; simpl in *; [lia|].
  destruct (Nat.eq_dec (prod_list s) 0) as [Hz|Hz]; [rewrite Hz in Hj; lia|].
  rewrite IH by (apply Nat.mod_upper_bound; assumption).
  rewrite (Nat.div_mod_eq j (prod_list s)) at 3. lia.
Qed.

Lemma unravel_cons (x : nat) (r : list nat) (i j : nat) :
  j < prod_list r ->
  unravel (x :: r) (i * prod_list r + j) = i :: unravel r j.
Proof.
  intros Hj. simpl.
  assert (prod_list r <> 0) by lia.
  rewrite Nat.div_add_l, Nat.div_small, Nat.add_0_r by assumption.
  rewrite Nat.add_comm, Nat.Div0.mod_add, Nat.mod_small by assumption.
  reflexivity.
Qed.

(** Putting [i] at position [k] of a multi-index adds [i] times the
    stride of position [k]. *)
Lemma offset_insert_at (k i : nat) (idx st : list nat) :
  k <= length idx -> k < length st ->
  offset (insert_at k i idx) st = i * nth k st 0 + offset idx (delete k st).
Proof.
  unfold insert_at. revert idx st.
  induction k as [|k IH]; intros idx st Hk Hst.
  - destruct st as [|a st]; simpl in *; [lia|]. reflexivity.
  - destruct idx as [|x idx]; simpl in Hk; [lia|].
    destruct st as [|a st]; simpl in Hst; [lia|].
    simpl. rewrite IH by lia. lia.
Qed.

Lemma map_nth_seq {X} (l : list X) (d : X) :
  map (fun i => nth i l d) (seq 0 (length l)) = l.
Proof.
  induction l as [|x l IH]; simpl; [reflexivity|].
  f_equal. rewrite <- seq_shift, map_map. exact IH.
Qed.

Lemma filter_ne_S (k : nat) (l : list nat) :
  filter (fun i => i <> S k) (map S l) = map S (filter (fun i => i <> k) l).
Proof.
  induction l as [|x l IH]; simpl; [reflexivity|].
  rewrite !filter_cons.
  destruct (decide (S x <> S k)), (decide (x <> k)); simpl; try lia;
    now rewrite IH.
Qed.

Lemma filter_ne_0_S (l : list nat) :
  filter (fun i => i <> 0) (map S l) = map S l.
Proof.
  induction l as [|x l IH]; simpl; [reflexivity|].
  rewrite filter_cons. destruct (decide (S x <> 0)); [|lia]. now rewrite IH.
Qed.

(** Reading a list at every index but [k] deletes entry [k]. *)
Lemma map_nth_filter_ne {X} (l : list X) (d : X) (k : nat) :
  map (fun i => nth i l d) (filter (fun i => i <> k) (seq 0 (length l)))
  = delete k l.
Proof.
  revert k. induction l as [|x l IH]; intros k; simpl; [reflexivity|].
  rewrite <- seq_shift, filter_cons.
  destruct k as [|k].
  - destruct (decide (0 <> 0)); [lia|].
    rewrite filter_ne_0_S, map_map. simpl. apply map_nth_seq.
  - destruct (decide (0 <> S k)); [|lia]. simpl. f_equal.
    rewrite filter_ne_S, map_map. simpl. apply IH.
Qed.

Lemma length_filter_ne (n k : nat) :
  k < n -> length (filter (fun i => i <> k) (seq 0 n)) = n - 1.
Proof.
  intros Hk.
  pose proof (map_nth_filter_ne (seq 0 n) 0 k) as Hm.
  apply (f_equal length) in Hm.
  rewrite length_map, length_seq in Hm. rewrite Hm.
  rewrite delete_take_drop, length_app, length_take, length_drop, length_seq. lia.
Qed.

Lemma NoDup_front (n k : nat) :
  NoDup (k :: filter (fun i => i <> k) (seq 0 n)).
Proof.
  constructor.
  - rewrite list_elem_of_filter. tauto.
  - apply NoDup_filter, NoDup_seq.
Qed.

End Layout.

(** ** Shapes through the tensor operations *)

Section Shapes.
Context {A : Type} `{Dtype A}.
Implicit Types (t u v W x y : tensor A).

Lemma wrap_dim_front n k :
  k < n -> wrap_dim n (Z.of_nat k) = Ok k.
Proof.
  intros Hk. unfold wrap_dim.
  destruct (decide (- Z.of_nat n <= Z.of_nat k < Z.of_nat n)%Z) as [_|Hn]; [|lia].
  f_equal. rewrite Z.mod_small by lia. apply Nat2Z.id.
Qed.

Lemma wrap_dims_filter n k (l : list nat) :
  (forall i, i ∈ l -> i < n) ->
  wrap_dims n (filter (fun d => d <> Z.of_nat k) (map Z.of_nat l))
  = Ok (filter (fun i => i <> k) l).
Proof.
  induction l as [|x l IH]; intros Hl; simpl; [reflexivity|].
  rewrite !filter_cons.
  assert (Hx : x < n) by (apply Hl; left).
  assert (Hl' : forall i, i ∈ l -> i < n) by (intros i Hi; apply Hl; now right).
  destruct (decide (Z.of_nat x <> Z.of_nat k)), (decide (x <> k)); try lia.
  - simpl. rewrite wrap_dim_front by assumption. simpl.
    now rewrite IH by assumption.
  - now apply IH.
Qed.

Lemma length_filter_Z n k :
  k < n ->
  length (filter (fun d => d <> Z.of_nat k) (map Z.of_nat (seq 0 n))) = n - 1.
Proof.
  intros Hk.
  assert (Hw := wrap_dims_filter n k (seq 0 n)).
  assert (Hlen : forall (zs : list Z) (ns : list nat),
             wrap_dims n zs = Ok ns -> length zs = length ns).
  { induction zs as [|z zs IH]; intros ns; simpl.
    - now intros [= <-].
    - destruct (wrap_dim n z); simpl; [|discriminate].
      destruct (wrap_dims n zs) as [ps|]; simpl; [|discriminate].
      intros [= <-]. simpl. f_equal. now apply IH. }
  rewrite (Hlen _ _ (Hw ltac:(intros i Hi; apply elem_of_seq in Hi; lia))).
  now apply length_filter_ne.
Qed.

Lemma nth_divides (s : list nat) (k : nat) :
  k < length s -> prod_list s <> 0 ->
  nth k s 0 <> 0 /\ prod_list s mod nth k s 0 = 0 /\
  prod_list s / nth k s 0 = prod_list (delete k s).
Proof.
  intros Hk Hp. rewrite <- (prod_list_delete s k Hk) in *.
  assert (Hn : nth k s 0 <> 0) by (intros E; rewrite E in Hp; lia).
  split; [assumption|]. split.
  - rewrite Nat.mul_comm. now apply Nat.Div0.mod_mul.
  - rewrite Nat.mul_comm. now apply Nat.div_mul.
Qed.

(** [weight_mat] on a well-shaped weight: its shape and its elements. *)
Lemma weight_matrix_ok (self : SpectralNorm A) W :
  wf_tensor W -> (0 <= dim self < Z.of_nat (ndim W))%Z -> numel W <> 0 ->
  let k := Z.to_nat (dim self) in
  exists Mx,
    weight_matrix self W = Ok Mx /\
    shape Mx = [spec_height (shape W) k; spec_width (shape W) k] /\
    data Mx =
      (if decide (dim self <> 0%Z)
       then permute_data (shape W) (data W)
              (k :: filter (fun i => i <> k) (seq 0 (ndim W)))
       else data W).
Proof.
  intros Hwf Hdim Hne k. unfold weight_matrix, spec_height, spec_width.
  assert (Hk : k < length (shape W)) by (unfold ndim in Hdim; lia).
  destruct (nth_divides (shape W) k Hk Hne) as (Hh & Hmod & Hdiv).
  destruct (decide (dim self <> 0%Z)) as [Hd|Hd].
  - unfold permute.
    replace (dim self) with (Z.of_nat k) by lia.
    destruct (decide (length (Z.of_nat k ::
        filter (fun d => d <> Z.of_nat k) (map Z.of_nat (seq 0 (ndim W)))) = ndim W))
      as [_|Hlen].
    2:{ exfalso. apply Hlen. simpl. rewrite length_filter_Z by exact Hk.
        unfold ndim. lia. }
    simpl wrap_dims. rewrite wrap_dim_front by exact Hk. simpl rbind.
    rewrite wrap_dims_filter
      by (intros i Hi; apply elem_of_seq in Hi; lia).
    simpl rbind.
    destruct (decide (NoDup (k :: filter (fun i => i <> k) (seq 0 (ndim W)))))
      as [_|Hnd]; [|exfalso; apply Hnd, NoDup_front].
    simpl rbind.
    set (P := Tensor _ _ _ _ _).
    assert (HsP : shape P = nth k (shape W) 0 :: delete k (shape W)).
    { subst P. simpl. f_equal. apply map_nth_filter_ne. }
    assert (HnP : numel P = numel W).
    { unfold numel. rewrite HsP. simpl. now apply prod_list_delete. }
    unfold reshape_rows. rewrite HnP.
    destruct (decide (nth k (shape W) 0 = 0)) as [|_]; [contradiction|].
    destruct (decide (numel W mod nth k (shape W) 0 = 0)) as [_|Hm];
      [|contradiction].
    eexists. split; [reflexivity|]. simpl. split; [|reflexivity].
    unfold numel. now rewrite Hdiv.
  - assert (Hk0 : k = 0) by lia. rewrite Hk0 in *.
    simpl rbind. unfold size, wrap_dim.
    destruct (decide (- Z.of_nat (ndim W) <= 0 < Z.of_nat (ndim W))%Z) as [_|Hn];
      [|lia].
    simpl rbind. rewrite Zmod_0_l. change (Z.to_nat 0) with 0. unfold reshape_rows.
    destruct (decide (nth 0 (shape W) 0 = 0)) as [|_]; [contradiction|].
    destruct (decide (numel W mod nth 0 (shape W) 0 = 0)) as [_|Hm];
      [|contradiction].
    eexists. split; [reflexivity|]. simpl. split; [|reflexivity].
    unfold numel. now rewrite Hdiv.
Qed.

End Shapes.

(** ** The code's matrix is the specification's matrix *)

Section Matrix.
Context {A : Type} `{Dtype A}.
Implicit Types (t u v W x y : tensor A) (d : list A).

Lemma take_map_nth d (w : nat) :
  w <= length d -> take w d = map (fun j => nth j d s_zero) (seq 0 w).
Proof.
  revert d. induction w as [|w IH]; intros d Hw; [now rewrite take_0|].
  destruct d as [|a d]; simpl in Hw; [lia|].
  simpl. f_equal. rewrite <- seq_shift, map_map. simpl. apply IH. lia.
Qed.

Lemma nth_drop d (n i : nat) : nth i (drop n d) s_zero = nth (n + i) d s_zero.
Proof.
  revert d. induction n as [|n IH]; intros d; [now rewrite drop_0|].
  destruct d as [|a d]; simpl; [now destruct i|]. apply IH.
Qed.

Lemma rows_nth (h w : nat) d :
  h * w <= length d ->
  rows h w d =
    map (fun i => map (fun j => nth (i * w + j) d s_zero) (seq 0 w)) (seq 0 h).
Proof.
  revert d. induction h as [|h IH]; intros d Hl; [reflexivity|].
  simpl rows. simpl seq. simpl map. f_equal.
  - apply take_map_nth. lia.
  - rewrite IH by (rewrite length_drop; lia).
    rewrite <- seq_shift, map_map. apply map_ext. intros i.
    apply map_ext. intros j. rewrite nth_drop. f_equal. lia.
Qed.

Lemma length_rows (h w : nat) d : length (rows h w d) = h.
Proof. revert d. induction h as [|h IH]; intros d; simpl; [|rewrite IH]; reflexivity. Qed.

Lemma rows_concat {X} (f : X -> list A) (l : list X) (h : nat) :
  (forall a : X, length (f a) = h) ->
  rows (length l) h (concat (map f l)) = map f l.
Proof.
  intros Hf. induction l as [|a l IH]; [reflexivity|].
  simpl. rewrite take_app_length' by (symmetry; apply Hf).
  rewrite drop_app_length' by (symmetry; apply Hf). now rewrite IH.
Qed.

Lemma nth_map_seq {X} (f : nat -> X) (n i : nat) (dflt : X) :
  i < n -> nth i (map f (seq 0 n)) dflt = f i.
Proof.
  intros Hi. rewrite (nth_indep _ dflt (f 0)) by (rewrite length_map, length_seq; lia).
  rewrite (map_nth f (seq 0 n) 0 i). now rewrite seq_nth.
Qed.

Lemma permute_data_front (s : list nat) d (k : nat) :
  k < length s ->
  permute_data s d (k :: filter (fun i => i <> k) (seq 0 (length s))) =
    map (fun q => nth (offset (unravel (nth k s 0 :: delete k s) q)
                         (nth k (strides s) 0 :: delete k (strides s))) d s_zero)
        (seq 0 (nth k s 0 * prod_list (delete k s))).
Proof.
  intros Hk. unfold permute_data.
  assert (E1 : map (fun i => nth i s 0) (filter (fun i => i <> k) (seq 0 (length s)))
               = delete k s) by apply map_nth_filter_ne.
  assert (E2 : map (fun i => nth i (strides s) 0)
                 (filter (fun i => i <> k) (seq 0 (length s)))
               = delete k (strides s)).
  { rewrite <- (length_strides s). apply map_nth_filter_ne. }
  simpl. rewrite E1, E2. reflexivity.
Qed.

(** Entry [(i, j)] of [weight_mat] is entry [(i, j)] of the
    specification's matrix. *)
Lemma weight_matrix_entries (self : SpectralNorm A) W Mx :
  wf_tensor W -> (0 <= dim self < Z.of_nat (ndim W))%Z -> numel W <> 0 ->
  weight_matrix self W = Ok Mx ->
  let k := Z.to_nat (dim self) in
  length (data Mx) = numel W /\
  rows (spec_height (shape W) k) (spec_width (shape W) k) (data Mx)
  = spec_matrix (shape W) (data W) k.
Proof.
  intros Hwf Hdim Hne HMx k.
  destruct (weight_matrix_ok self W Hwf Hdim Hne) as (Mx' & HMx' & Hshape & Hdata).
  rewrite HMx in HMx'. injection HMx' as <-. fold k in Hshape, Hdata.
  assert (Hk : k < length (shape W)) by (unfold ndim in Hdim; lia).
  set (h := spec_height (shape W) k). set (w := spec_width (shape W) k).
  assert (Hhw : h * w = numel W).
  { unfold h, w, spec_height, spec_width, numel. now apply prod_list_delete. }
  assert (Hlen : length (data Mx) = numel W).
  { rewrite Hdata. destruct (decide (dim self <> 0%Z)); [|exact Hwf].
    unfold permute_data. rewrite length_map, length_seq. simpl.
    unfold ndim. rewrite map_nth_filter_ne. now apply prod_list_delete. }
  split; [exact Hlen|].
  rewrite rows_nth by lia. unfold spec_matrix. fold h w.
  apply map_ext_in. intros i Hi. apply map_ext_in. intros j Hj.
  apply in_seq in Hi, Hj. unfold spec_entry.
  rewrite offset_insert_at; cycle 1.
  { rewrite length_unravel, delete_take_drop, length_app, length_take, length_drop. lia. }
  { rewrite length_strides. lia. }
  rewrite Hdata. destruct (decide (dim self <> 0%Z)) as [Hd|Hd].
  - unfold ndim. rewrite permute_data_front by exact Hk.
    fold (spec_height (shape W) k). fold h.
    fold (spec_width (shape W) k). fold w.
    rewrite nth_map_seq by nia.
    unfold w at 1, spec_width.
    rewrite unravel_cons by (fold (spec_width (shape W) k); fold w; lia).
    reflexivity.
  - assert (Hk0 : k = 0) by lia.
    destruct (shape W) as [|a r] eqn:Hs; [simpl in Hk; lia|].
    unfold w, spec_width. rewrite Hk0. simpl delete. simpl strides.
    simpl nth. rewrite offset_unravel.
    + f_equal.
    + unfold w, spec_width in Hj. rewrite Hk0 in Hj. simpl in Hj. lia.
Qed.

End Matrix.

(** ** The loop and the rescaling compute what the specification says *)

Section Iteration.
Context {A : Type} `{Dtype A}.
Implicit Types (t u v W x y Mx : tensor A) (d : list A).

Lemma matmul_spec g Mx x (h w : nat) :
  shape Mx = [h; w] -> shape x = [w] ->
  exists y, matmul g Mx x = Ok y /\ shape y = [h] /\
            data y = mat_vec (rows h w (data Mx)) (data x).
Proof.
  intros HM Hx. unfold matmul. rewrite HM, Hx.
  destruct (decide (w = w)) as [_|]; [|contradiction].
  eexists. split; [reflexivity|]. split; reflexivity.
Qed.

Lemma transpose_matmul_spec g Mx u (h w : nat) :
  shape Mx = [h; w] -> h * w <= length (data Mx) -> shape u = [h] ->
  exists wt x, transpose Mx = Ok wt /\ matmul g wt u = Ok x /\ shape x = [w] /\
               data x = mat_T_vec w (rows h w (data Mx)) (data u).
Proof.
  intros HM Hlen Hu. unfold transpose. rewrite HM.
  eexists. destruct (matmul_spec g (Tensor [w; h]
      (concat (map (fun j => column w j (data Mx) h) (seq 0 w)))
      (requires_grad Mx) (grad_fn Mx) false) u w h eq_refl Hu) as (x & Hx & Hsx & Hdx).
  exists x. split; [reflexivity|]. split; [exact Hx|]. split; [exact Hsx|].
  rewrite Hdx. simpl data.
  pose proof (rows_concat (fun j => column w j (data Mx) h) (seq 0 w) h) as E.
  rewrite length_seq in E.
  rewrite E by (intros j; unfold column; now rewrite length_map, length_seq).
  unfold mat_vec, mat_T_vec. rewrite map_map.
  apply map_ext_in. intros j Hj. apply in_seq in Hj. f_equal.
  rewrite rows_nth by exact Hlen. rewrite map_map. unfold column.
  apply map_ext. intros i. now rewrite nth_map_seq by lia.
Qed.

Lemma normalize_spec g x e (n : nat) :
  shape x = [n] ->
  exists y, normalize g x e = Ok y /\ shape y = [n] /\
            data y = unit_vector (data x) e.
Proof.
  intros Hx. unfold normalize. rewrite Hx.
  eexists. split; [reflexivity|]. split; reflexivity.
Qed.

Lemma iterate_spec e Mx (h w n : nat) u v :
  shape Mx = [h; w] -> h * w <= length (data Mx) ->
  shape u = [h] -> shape v = [w] ->
  exists u' v',
    iterate e Mx n u v = Ok (u', v') /\ shape u' = [h] /\ shape v' = [w] /\
    (data u', data v') =
      spec_iterate w (rows h w (data Mx)) e n (data u, data v).
Proof.
  intros HM Hlen. revert u v. induction n as [|n IH]; intros u v Hu Hv.
  - exists u, v. repeat split; assumption.
  - simpl iterate.
    destruct (transpose_matmul_spec false Mx u h w HM Hlen Hu)
      as (wt & x & Hwt & Hx & Hsx & Hdx).
    rewrite Hwt. simpl rbind. rewrite Hx. simpl rbind.
    destruct (normalize_spec false x e w Hsx) as (v1 & Hv1 & Hsv1 & Hdv1).
    rewrite Hv1. simpl rbind.
    destruct (matmul_spec false Mx v1 h w HM Hsv1) as (y & Hy & Hsy & Hdy).
    rewrite Hy. simpl rbind.
    destruct (normalize_spec false y e h Hsy) as (u1 & Hu1 & Hsu1 & Hdu1).
    rewrite Hu1. simpl rbind.
    destruct (IH u1 v1 Hsu1 Hsv1) as (u' & v' & Hit & Hsu' & Hsv' & Hd).
    exists u', v'. repeat split; try assumption.
    rewrite Hd. unfold spec_iterate. rewrite Nat.iter_succ_r.
    f_equal. unfold spec_step. simpl fst.
    now rewrite Hdu1, Hdy, Hdv1, Hdx.
Qed.

Lemma rescale_spec g W Mx u v (h w : nat) :
  shape Mx = [h; w] -> shape u = [h] -> shape v = [w] ->
  exists pub sg,
    sigma_of g Mx u v = Ok sg /\
    data sg = [spec_sigma (rows h w (data Mx)) (data u) (data v)] /\
    rescale g W Mx u v = Ok pub /\ shape pub = shape W /\
    data pub =
      map (fun a => s_div a (spec_sigma (rows h w (data Mx)) (data u) (data v)))
          (data W) /\
    is_parameter pub = false.
Proof.
  intros HM Hu Hv. unfold rescale, sigma_of.
  destruct (matmul_spec g Mx v h w HM Hv) as (y & Hy & Hsy & Hdy).
  rewrite Hy. simpl rbind.
  unfold dot. rewrite Hu, Hsy.
  destruct (decide (h = h)) as [_|]; [|contradiction].
  eexists. eexists. split; [reflexivity|]. simpl.
  split; [now rewrite Hdy|]. split; [reflexivity|].
  simpl. rewrite Hdy. repeat split.
Qed.

End Iteration.

(** ** Which exceptions [compute_weight] can raise *)

Section Quiet_facts.
Context {A : Type} `{Dtype A}.

Lemma quiet_ret {T} (x : T) : quiet (A:=A) (ret x).
Proof. intros w e w' [=]. Qed.

Lemma quiet_gets {T} (f : world A -> T) : quiet (gets f).
Proof. intros w e w' [=]. Qed.

Lemma quiet_modify (f : world A -> world A) : quiet (modify f).
Proof. intros w e w' [=]. Qed.

Lemma quiet_raise {T} (e : exn) : not_iterations e -> quiet (A:=A) (T:=T) (raise e).
Proof. intros He w e' w' [= <- _]. exact He. Qed.

Lemma quiet_lift {T} (r : result T) : quiet_result r -> quiet (A:=A) (lift r).
Proof. intros Hr w e w' [= -> _]. now apply Hr. Qed.

Lemma quiet_bind {T U} (c : M A T) (k : T -> M A U) :
  quiet c -> (forall x, quiet (k x)) -> quiet (bind c k).
Proof.
  intros Hc Hk w e w'. unfold bind.
  destruct (c w) as [[x|e1] w1] eqn:Hcw.
  - apply Hk.
  - intros [= <- _]. eapply Hc; eassumption.
Qed.

Lemma quiet_with_no_grad {T} (c : M A T) : quiet c -> quiet (with_no_grad c).
Proof.
  intros Hc w e w'. unfold with_no_grad.
  destruct (c (set_grad_enabled false w)) as [r w1] eqn:Hcw.
  intros [= -> _]. eapply Hc; eassumption.
Qed.

Ltac quiet_pure :=
  let Heq := fresh "Heq" in
  intros ? Heq ? ->; repeat case_match; discriminate Heq.

Lemma quiet_rbind {T U} (r : result T) (k : T -> result U) :
  quiet_result r -> (forall x, quiet_result (k x)) -> quiet_result (rbind r k).
Proof.
  intros Hr Hk e. destruct r as [x|e1]; simpl; [apply Hk|].
  intros [= <-]. now apply Hr.
Qed.

Lemma quiet_wrap_dim n d : quiet_result (wrap_dim n d).
Proof. unfold wrap_dim. quiet_pure. Qed.

Lemma quiet_size (t : tensor A) d : quiet_result (size t d).
Proof.
  unfold size. apply quiet_rbind; [apply quiet_wrap_dim|]. intros x e [=].
Qed.

Lemma quiet_wrap_dims n ds : quiet_result (wrap_dims n ds).
Proof.
  induction ds as [|d ds IH]; simpl; [intros e [=]|].
  apply quiet_rbind; [apply quiet_wrap_dim|]. intros i.
  apply quiet_rbind; [exact IH|]. intros ps e [=].
Qed.

Lemma quiet_permute (t : tensor A) ds : quiet_result (permute t ds).
Proof.
  unfold permute. destruct (decide _) as [_|_]; [|intros ? [= <-] ?; discriminate].
  apply quiet_rbind; [apply quiet_wrap_dims|]. intros p.
  destruct (decide _) as [_|_]; intros ? [= <-] ?; discriminate.
Qed.

Lemma quiet_reshape_rows (t : tensor A) h : quiet_result (reshape_rows t h).
Proof. unfold reshape_rows. quiet_pure. Qed.

Lemma quiet_transpose (t : tensor A) : quiet_result (transpose t).
Proof. unfold transpose. quiet_pure. Qed.

Lemma quiet_matmul g (m x : tensor A) : quiet_result (matmul g m x).
Proof. unfold matmul. quiet_pure. Qed.

Lemma quiet_dot g (a b : tensor A) : quiet_result (dot g a b).
Proof. unfold dot. quiet_pure. Qed.

Lemma quiet_normalize g (x : tensor A) e : quiet_result (normalize g x e).
Proof. unfold normalize. quiet_pure. Qed.

Lemma quiet_div_scalar g (w s : tensor A) : quiet_result (div_scalar g w s).
Proof. unfold div_scalar. quiet_pure. Qed.

Lemma quiet_getattr n : quiet (getattr (A:=A) n).
Proof.
  intros w e w'. unfold getattr. repeat case_match; intros [= <- _] m; discriminate.
Qed.

Lemma quiet_hasattr n : quiet (hasattr (A:=A) n).
Proof. intros w e w'. unfold hasattr. repeat case_match; discriminate. Qed.

Lemma quiet_as_tensor e (o : pyobj A) : not_iterations e -> quiet (as_tensor e o).
Proof. intros He. destruct o; simpl; first [apply quiet_ret | now apply quiet_raise]. Qed.

Ltac quiet_step :=
  first
    [ apply quiet_ret | apply quiet_gets | apply quiet_modify
    | apply quiet_getattr | apply quiet_hasattr
    | apply quiet_raise; intros ?; discriminate
    | apply quiet_as_tensor; intros ?; discriminate
    | apply quiet_lift;
      first [ apply quiet_size | apply quiet_permute | apply quiet_reshape_rows
            | apply quiet_transpose | apply quiet_matmul | apply quiet_dot
            | apply quiet_normalize | apply quiet_div_scalar ]
    | apply quiet_bind; [|intros ?]
    | match goal with
      | |- quiet (if ?b then _ else _) => destruct b
      | |- quiet (match ?x with _ => _ end) => destruct x
      end ].

Lemma quiet_register_parameter n (p : pyobj A) : quiet (register_parameter n p).
Proof. unfold register_parameter. repeat quiet_step. Qed.

Lemma quiet_setattr n (v : pyobj A) : quiet (setattr n v).
Proof.
  unfold setattr.
  repeat first [ apply quiet_register_parameter | quiet_step ].
Qed.

Lemma quiet_power_iterations self (Mx : tensor A) n u v :
  quiet (power_iterations self Mx n u v).
Proof.
  revert u v. induction n as [|n IH]; intros u v; simpl; [apply quiet_ret|].
  unfold torch_matmul, F_normalize.
  repeat first [ apply IH | quiet_step ].
Qed.

(** With a non-negative count, no exception of [compute_weight] is the
    rejection of the count. *)
Lemma quiet_compute_weight self (n : Z) :
  (0 <= n)%Z -> quiet (compute_weight (A:=A) self n).
Proof.
  intros Hn. unfold compute_weight.
  destruct (decide (n < 0)%Z) as [|_]; [lia|].
  unfold torch_matmul, torch_dot, torch_div.
  repeat first [ apply quiet_setattr
               | apply quiet_with_no_grad, quiet_power_iterations
               | quiet_step ].
Qed.

End Quiet_facts.

(** * The claims *)

Section Claims.
Context {A : Type} `{Dtype A}.
Implicit Types (w : world A) (t u v W pub : tensor A) (self : SpectralNorm A).

(** C6. A negative iteration count makes [compute_weight] raise the
    [ValueError] of line 19, with the layer untouched, both when it is called
    directly and through the method [spectral_norm_power_iteration] that
    attach stores on the layer; with a non-negative count no exception of
    [compute_weight] is that one. *)
Theorem negative_iterations_rejected self (n : Z) w :
  ((n < 0)%Z ->
     compute_weight self n w = (Raise (ValueError_iterations n), w) /\
     get_update_method self n w = (Raise (ValueError_iterations n), w) /\
     is_ValueError (ValueError_iterations n) = true /\
     (dict w !! POWER_ITERATION_FN = Some (PMethod self) ->
      spectral_norm_power_iteration n w = (Raise (ValueError_iterations n), w))) /\
  ((0 <= n)%Z ->
     forall e w' m,
       compute_weight self n w = (Raise e, w') -> e <> ValueError_iterations m).
Proof.
  split.
  - intros Hn.
    assert (Hcw : compute_weight self n w = (Raise (ValueError_iterations n), w)).
    { unfold compute_weight. now destruct (decide (n < 0)%Z). }
    repeat split; try exact Hcw.
    intros HP. unfold spectral_norm_power_iteration, bind, getattr.
    rewrite HP. exact Hcw.
  - intros Hn e w' m Hrun. exact (quiet_compute_weight self n Hn w e w' Hrun m).
Qed.

(** C7. When no [SpectralNorm] hook is registered under the name,
    [remove_spectral_norm] raises the not-found [ValueError] and leaves the
    layer as it was; on a layer in the registered layout it succeeds and
    returns the layer. *)
Theorem removal_not_found_or_done (name_ : string) w :
  ((forall k fn, In (k, SNHook fn) (_forward_pre_hooks w) -> name fn <> name_) ->
     remove_spectral_norm name_ w = (Raise (ValueError_not_found name_), w) /\
     is_ValueError (ValueError_not_found name_) = true) /\
  (forall W pub u v,
     registered name_ W pub u v w ->
     exists w', remove_spectral_norm name_ w = (Ok (oid w), w') /\ oid w' = oid w).
Proof.
  split.
  - intros Hnone. split; [|reflexivity].
    unfold remove_spectral_norm, bind, gets.
    apply remove_loop_not_found. now apply find_hook_none.
  - intros W pub u v Hreg.
    destruct (remove_spectral_norm_run _ _ _ _ _ _ Hreg) as (k & fn & _ & Hrun).
    eexists. split; [exact Hrun|reflexivity].
Qed.

(** C5. On a registered layer, a second zero-iteration [compute_weight]
    right after a first one returns the same outcome and leaves the layer
    exactly as the first call left it, so the public weight is the same both
    times; [u] and [v] are the ones stored before the first call. The same
    holds for two runs of the pre-hook. *)
Theorem zero_iteration_idempotent self W pub u v w r w1 :
  registered (name self) W pub u v w ->
  compute_weight self 0 w = (r, w1) ->
  compute_weight self 0 w1 = (r, w1) /\
  fst (getattr (name self) (snd (compute_weight self 0 w1)))
    = fst (getattr (name self) w1) /\
  _buffers w1 !! (name self +:+ "_u") = Some (Some u) /\
  _buffers w1 !! (name self +:+ "_v") = Some (Some v) /\
  (forall inputs r' w2,
     __call__ self inputs w = (r', w2) -> __call__ self inputs w2 = (r', w2)).
Proof.
  intros Hreg Hrun.
  pose proof (reg_u_plain _ _ _ _ _ _ Hreg) as Hpu.
  pose proof (reg_v_plain _ _ _ _ _ _ Hreg) as Hpv.
  assert (Hfirst : compute_weight self 0 w1 = (r, w1) /\
                   _buffers w1 !! (name self +:+ "_u") = Some (Some u) /\
                   _buffers w1 !! (name self +:+ "_v") = Some (Some v)).
  { rewrite (compute_weight_run self 0 w W pub u v Hreg (Z.le_refl 0)) in Hrun.
    simpl in Hrun.
    destruct (weight_matrix self W) as [Mx|e] eqn:HMx.
    - destruct (rescale (grad_enabled w) W Mx u v) as [pub'|e] eqn:Hres;
        injection Hrun as <- <-.
      + pose proof (registered_store _ _ _ _ _ _ u v pub' Hreg Hpu Hpv) as Hreg'.
        rewrite (compute_weight_run self 0 _ W pub' u v Hreg' (Z.le_refl 0)).
        simpl. rewrite HMx.
        change (grad_enabled (store (name self) u v pub' w)) with (grad_enabled w).
        rewrite Hres, store_store.
        split; [reflexivity|].
        split; [apply (reg_u _ _ _ _ _ _ Hreg')|apply (reg_v _ _ _ _ _ _ Hreg')].
      + pose proof (registered_store_uv _ _ _ _ _ _ u v Hreg Hpu Hpv) as Hreg'.
        rewrite (compute_weight_run self 0 _ W pub u v Hreg' (Z.le_refl 0)).
        simpl. rewrite HMx.
        change (grad_enabled (store_uv (name self) u v w)) with (grad_enabled w).
        rewrite Hres, store_uv_store_uv.
        split; [reflexivity|].
        split; [apply (reg_u _ _ _ _ _ _ Hreg')|apply (reg_v _ _ _ _ _ _ Hreg')].
    - injection Hrun as <- <-.
      rewrite (compute_weight_run self 0 w W pub u v Hreg (Z.le_refl 0)).
      simpl. rewrite HMx.
      split; [reflexivity|].
      split; [apply (reg_u _ _ _ _ _ _ Hreg)|apply (reg_v _ _ _ _ _ _ Hreg)]. }
  destruct Hfirst as (H1 & H2 & H3).
  split; [exact H1|]. split; [now rewrite H1|]. split; [exact H2|].
  split; [exact H3|].
  intros inputs r' w2 Hcall.
  rewrite (call_run self inputs w W pub u v Hreg) in Hcall.
  destruct (weight_matrix self W) as [Mx|e] eqn:HMx.
  - destruct (rescale (grad_enabled w) W Mx u v) as [pub'|e] eqn:Hres;
      injection Hcall as <- <-.
    + pose proof (registered_store _ _ _ _ _ _ u v
                    (hook_public (training w) W pub') Hreg Hpu Hpv) as Hreg'.
      rewrite (call_run self inputs _ W _ u v Hreg'). rewrite HMx.
      change (grad_enabled (store (name self) u v
                (hook_public (training w) W pub') w)) with (grad_enabled w).
      rewrite Hres.
      change (training (store (name self) u v
                (hook_public (training w) W pub') w)) with (training w).
      now rewrite store_store.
    + pose proof (registered_store_uv _ _ _ _ _ _ u v Hreg Hpu Hpv) as Hreg'.
      rewrite (call_run self inputs _ W pub u v Hreg'). rewrite HMx.
      change (grad_enabled (store_uv (name self) u v w)) with (grad_enabled w).
      now rewrite Hres, store_uv_store_uv.
  - injection Hcall as <- <-.
    rewrite (call_run self inputs w W pub u v Hreg). now rewrite HMx.
Qed.

End Claims.

(** ** Between attach and removal *)

Section Between.
Context {A : Type} `{Dtype A}.
Implicit Types (w : world A) (t u v W pub : tensor A) (self : SpectralNorm A).

Lemma rescale_inv g W Mx u v pub :
  rescale g W Mx u v = Ok pub ->
  exists sg s, sigma_of g Mx u v = Ok sg /\ data sg = [s] /\
               shape pub = shape W /\
               data pub = map (fun a => s_div a s) (data W).
Proof.
  unfold rescale. destruct (sigma_of g Mx u v) as [sg|]; simpl; [|discriminate].
  unfold div_scalar. destruct (data sg) as [|s [|]] eqn:Hd; try discriminate.
  destruct (shape sg); try discriminate. intros [= <-].
  exists sg, s. repeat split; assumption.
Qed.

Lemma compute_weight_registered self n w w1 W pub u v :
  registered (name self) W pub u v w ->
  compute_weight self n w = (Ok tt, w1) ->
  exists pub' u' v',
    registered (name self) W pub' u' v' w1 /\ rescaled self W pub' u' v' /\
    oid w1 = oid w.
Proof.
  intros Hreg Hrun.
  destruct (decide (n < 0)%Z) as [Hn|Hn].
  { unfold compute_weight in Hrun.
    destruct (decide (n < 0)%Z); [discriminate|contradiction]. }
  rewrite (compute_weight_run self n w W pub u v Hreg) in Hrun by lia.
  destruct (weight_matrix self W) as [Mx|] eqn:HMx; [|discriminate].
  destruct (iterate (eps self) Mx (Z.to_nat n) u v) as [[u' v']|] eqn:Hit;
    [|discriminate].
  destruct (rescale (grad_enabled w) W Mx u' v') as [pub'|] eqn:Hres;
    [|discriminate].
  injection Hrun as <-.
  destruct (iterate_plain _ _ _ _ _ _ _ Hit (reg_u_plain _ _ _ _ _ _ Hreg)
              (reg_v_plain _ _ _ _ _ _ Hreg)) as [Hpu Hpv].
  exists pub', u', v'. split; [now apply (registered_store _ _ _ _ _ _ u' v' pub' Hreg)|].
  destruct (rescale_inv _ _ _ _ _ _ Hres) as (sg & s & Hsg & Hds & Hsh & Hdt).
  split; [|reflexivity].
  now exists (grad_enabled w), Mx, sg, s.
Qed.

Lemma call_registered self inputs w w1 W pub u v :
  registered (name self) W pub u v w ->
  __call__ self inputs w = (Ok tt, w1) ->
  exists pub',
    registered (name self) W pub' u v w1 /\ rescaled self W pub' u v /\
    oid w1 = oid w.
Proof.
  intros Hreg Hrun. rewrite (call_run self inputs w W pub u v Hreg) in Hrun.
  destruct (weight_matrix self W) as [Mx|] eqn:HMx; [|discriminate].
  destruct (rescale (grad_enabled w) W Mx u v) as [pub'|] eqn:Hres;
    [|discriminate].
  injection Hrun as <-.
  exists (hook_public (training w) W pub'). split.
  - apply (registered_store _ _ _ _ _ _ u v _ Hreg);
      [apply (reg_u_plain _ _ _ _ _ _ Hreg)|apply (reg_v_plain _ _ _ _ _ _ Hreg)].
  - destruct (rescale_inv _ _ _ _ _ _ Hres) as (sg & s & Hsg & Hds & Hsh & Hdt).
    split; [|reflexivity].
    exists (grad_enabled w), Mx, sg, s.
    unfold hook_public. destruct (training w); now repeat split.
Qed.

(** Forward calls and power-iteration calls keep the layout and the
    original parameter; once one of them has run, the public tensor is the
    original divided by a [sigma]. *)
Lemma run_between_registered self W w w' :
  run_between self w w' ->
  forall pub u v,
    registered (name self) W pub u v w ->
    oid w' = oid w /\
    ((w' = w /\ registered (name self) W pub u v w') \/
     exists pub' u' v',
       registered (name self) W pub' u' v' w' /\ rescaled self W pub' u' v').
Proof.
  induction 1 as [w|w w1 w2 inputs Hstep Hrest IH|w w1 w2 n Hstep Hrest IH];
    intros pub u v Hreg.
  - split; [reflexivity|]. left. now split.
  - destruct (call_registered _ _ _ _ _ _ _ _ Hreg Hstep)
      as (pub1 & Hreg1 & Hres1 & Hoid1).
    destruct (IH _ _ _ Hreg1) as [Hoid [[-> _]|Hmore]];
      (split; [congruence|]); right; eauto.
  - destruct (compute_weight_registered _ _ _ _ _ _ _ _ Hreg Hstep)
      as (pub1 & u1 & v1 & Hreg1 & Hres1 & Hoid1).
    destruct (IH _ _ _ Hreg1) as [Hoid [[-> _]|Hmore]];
      (split; [congruence|]); right; eauto 6.
Qed.

Lemma inplace_spectral_norm_unfold (name_ : string) (dim_ : option Z) (eps_ : A) w :
  inplace_spectral_norm name_ dim_ eps_ w =
  bind (SpectralNorm_apply name_ (chosen_dim dim_ (cls w)) eps_)
       (fun _ => gets oid) w.
Proof. now destruct dim_. Qed.

Lemma removal_restores name_ W pub u v w :
  registered name_ W pub u v w ->
  exists w3,
    remove_spectral_norm name_ w = (Ok (oid w), w3) /\
    _parameters w3 !! name_ =
      Some (Some (Tensor (shape pub) (data pub) true false true)).
Proof.
  intros Hreg.
  destruct (remove_spectral_norm_run _ _ _ _ _ _ Hreg) as (k & fn & _ & Hrun).
  eexists. split; [exact Hrun|].
  unfold removed, unregistered. simpl. apply lookup_insert_eq.
Qed.

Lemma od_set_In {V} (k : nat) (x : V) (l : list (nat * V)) :
  In (k, x) (od_set k x l).
Proof.
  induction l as [|[k' y] l IH]; simpl; [now left|].
  destruct (decide (k' = k)); [now left|now right].
Qed.

End Between.

Section Claims_attach_remove.
Context {A : Type} `{Dtype A}.
Implicit Types (w : world A) (t u v W pub : tensor A) (self : SpectralNorm A).

(** C9. Called without a dimension, [inplace_spectral_norm] attaches with
    dimension 1 when the layer is a [ConvTranspose1d], [ConvTranspose2d] or
    [ConvTranspose3d] and with dimension 0 otherwise: that is the dimension
    of the hook it registers and of the bound method it stores, and the one
    along which the weight is measured for the length of [u]. It returns the
    layer it was given. *)
Theorem default_dimension (name_ : string) (eps_ : A) w0 (r : nat) w1 :
  inplace_spectral_norm name_ None eps_ w0 = (Ok r, w1) ->
  r = oid w0 /\ oid w1 = oid w0 /\
  (cls w0 = ConvTranspose1d \/ cls w0 = ConvTranspose2d \/
   cls w0 = ConvTranspose3d -> default_dim (cls w0) = 1%Z) /\
  (cls w0 <> ConvTranspose1d -> cls w0 <> ConvTranspose2d ->
   cls w0 <> ConvTranspose3d -> default_dim (cls w0) = 0%Z) /\
  exists W u v height,
    _parameters w0 !! name_ = Some (Some W) /\
    size W (default_dim (cls w0)) = Ok height /\
    shape u = [height] /\
    w1 = applied (mkSpectralNorm name_ (default_dim (cls w0)) eps_) W u v height w0 /\
    In (next_id w0, SNHook (mkSpectralNorm name_ (default_dim (cls w0)) eps_))
       (_forward_pre_hooks w1) /\
    dict w1 !! POWER_ITERATION_FN =
      Some (PMethod (mkSpectralNorm name_ (default_dim (cls w0)) eps_)).
Proof.
  intros Hrun. unfold inplace_spectral_norm in Hrun.
  unfold bind at 1, gets at 1 in Hrun.
  apply bind_inv in Hrun as (fn & w' & Happly & Hret).
  unfold gets in Hret. injection Hret as <- <-.
  fold (default_dim (cls w0)) in Happly.
  destruct (apply_inv _ _ _ _ _ _ Happly)
    as (W & u & v & height & -> & HW & Hsize & Hh & Hu & Hv & -> & _).
  split; [reflexivity|]. split; [reflexivity|].
  split; [|split].
  - unfold default_dim. intros [-> | [-> | ->]]; reflexivity.
  - unfold default_dim. destruct (cls w0); simpl; congruence.
  - exists W, u, v, height. repeat (split; [assumption || reflexivity|]).
    split; [now destruct (normalize_shape _ _ _ _ Hu)|].
    split; [reflexivity|]. split.
    + unfold applied. simpl. apply od_set_In.
    + unfold applied. simpl. apply lookup_insert_eq.
Qed.

(** C2, as the code has it. On a registered layer, removal finds the first
    [SpectralNorm] hook of that name, registers as a fresh learnable
    parameter under the public name the tensor the public name holds at that
    moment, deletes the [name_orig] and [name_u] entries, and deregisters
    that hook; every attribute other than the four names of the
    normalization is unchanged, and so is the rest of the layer. *)
Theorem removal_effect (name_ : string) W pub u v w :
  registered name_ W pub u v w ->
  exists k fn w',
    find_hook name_ (_forward_pre_hooks w) = Some (k, fn) /\
    remove_spectral_norm name_ w = (Ok (oid w), w') /\
    _parameters w' !! name_ = Some (Some (new_Parameter pub)) /\
    getattr name_ w' = (Ok (PTensor (new_Parameter pub)), w') /\
    getattr (name_ +:+ "_orig") w' = (Raise (AttributeError (name_ +:+ "_orig")), w') /\
    getattr (name_ +:+ "_u") w' = (Raise (AttributeError (name_ +:+ "_u")), w') /\
    _forward_pre_hooks w' = od_del k (_forward_pre_hooks w) /\
    (forall n, n <> name_ -> n <> name_ +:+ "_orig" ->
               _parameters w' !! n = _parameters w !! n) /\
    (forall n, n <> name_ -> n <> name_ +:+ "_u" -> n <> name_ +:+ "_v" ->
               _buffers w' !! n = _buffers w !! n) /\
    dict w' = dict w /\ _modules w' = _modules w /\
    training w' = training w /\ cls w' = cls w /\ oid w' = oid w /\
    grad_enabled w' = grad_enabled w /\ next_id w' = next_id w /\ rng w' = rng w.
Proof.
  intros Hreg.
  destruct (remove_spectral_norm_run _ _ _ _ _ _ Hreg) as (k & fn & Hfind & Hrun).
  exists k, fn, (removed name_ pub k w).
  destruct Hreg as [Hdot Hne Ho Hod (Hpd & Hpp & Hpm & Hpb) (Hud & Hup & Hum & Hub)
                      (Hvd & Hvp & Hvm & Hvb) Hpu Hpv Hh Hob Hom].
  destruct (names_distinct name_) as (Hu & Hv & Horig & Huv & Huo & Hvo).
  split; [exact Hfind|]. split; [exact Hrun|].
  unfold removed, unregistered, getattr; simpl.
  split; [apply lookup_insert_eq|].
  split; [now rewrite Hpd, lookup_insert_eq|].
  split.
  { rewrite Hod, lookup_insert_ne, lookup_delete_eq by congruence.
    rewrite !lookup_delete_ne by congruence. now rewrite Hob, Hom. }
  split.
  { rewrite Hud, lookup_insert_ne, lookup_delete_ne by congruence.
    rewrite Hup, lookup_delete_eq. now rewrite Hum. }
  split; [reflexivity|].
  split.
  { intros n Hn1 Hn2. now rewrite lookup_insert_ne, lookup_delete_ne by congruence. }
  split.
  { intros n Hn1 Hn2 Hn3. now rewrite !lookup_delete_ne by congruence. }
  repeat split.
Qed.

(** C1, as the code has it. After a successful attach, removal registers
    under the public name a learnable parameter holding the tensor the
    public name holds at that moment: right after attach its shape and
    elements are those of the original weight; after forward calls or
    power-iteration calls it is the public tensor they left, which is the
    original weight divided by the current [sigma], the one that the
    vectors held under [name_u] and [name_v] at that moment give, unless
    no call has run. *)
Theorem attach_remove_restores_public (name_ : string) (dim_ : option Z)
    (eps_ : A) w0 (r : nat) w1 W :
  wf_module w0 ->
  _parameters w0 !! name_ = Some (Some W) ->
  inplace_spectral_norm name_ dim_ eps_ w0 = (Ok r, w1) ->
  (exists w3,
     remove_spectral_norm name_ w1 = (Ok (oid w0), w3) /\
     _parameters w3 !! name_ =
       Some (Some (Tensor (shape W) (data W) true false true))) /\
  (forall w2,
     run_between (mkSpectralNorm name_ (chosen_dim dim_ (cls w0)) eps_) w1 w2 ->
     exists pub w3,
       _buffers w2 !! name_ = Some (Some pub) /\
       remove_spectral_norm name_ w2 = (Ok (oid w0), w3) /\
       _parameters w3 !! name_ =
         Some (Some (Tensor (shape pub) (data pub) true false true)) /\
       (w2 = w1 \/
        exists u v,
          _buffers w2 !! (name_ +:+ "_u") = Some (Some u) /\
          _buffers w2 !! (name_ +:+ "_v") = Some (Some v) /\
          rescaled (mkSpectralNorm name_ (chosen_dim dim_ (cls w0)) eps_) W pub u v)).
Proof.
  intros Hwf HW Hrun. rewrite inplace_spectral_norm_unfold in Hrun.
  apply bind_inv in Hrun as (fn & w' & Happly & Hret).
  unfold gets in Hret. injection Hret as <- <-.
  destruct (apply_registered _ _ _ _ _ _ Hwf Happly)
    as (W' & u & v & height & -> & HW' & _ & _ & _ & _ & Hw1 & Hreg).
  rewrite HW in HW'. injection HW' as <-.
  assert (Hoid : oid w' = oid w0) by (rewrite Hw1; reflexivity).
  split.
  - destruct (removal_restores name_ W (data_of W) u v w' Hreg) as (w3 & Hrm & Hp).
    exists w3. rewrite <- Hoid. split; [exact Hrm|exact Hp].
  - intros w2 Hbetween.
    destruct (run_between_registered _ W _ _ Hbetween _ _ _ Hreg)
      as [Hoid2 [[-> Hreg2]|(pub' & u' & v' & Hreg2 & Hres)]].
    + exists (data_of W).
      destruct (removal_restores name_ W (data_of W) u v w' Hreg2) as (w3 & Hrm & Hp).
      exists w3. rewrite <- Hoid.
      split; [apply (reg_pub _ _ _ _ _ _ Hreg2)|].
      split; [exact Hrm|]. split; [exact Hp|now left].
    + exists pub'.
      destruct (removal_restores name_ W pub' u' v' w2 Hreg2) as (w3 & Hrm & Hp).
      exists w3. rewrite <- Hoid, <- Hoid2.
      split; [apply (reg_pub _ _ _ _ _ _ Hreg2)|].
      split; [exact Hrm|]. split; [exact Hp|]. right.
      exists u', v'.
      split; [apply (reg_u _ _ _ _ _ _ Hreg2)|].
      split; [apply (reg_v _ _ _ _ _ _ Hreg2)|exact Hres].
Qed.

End Claims_attach_remove.

Section Claims_compute_weight.
Context {A : Type} `{Dtype A}.
Implicit Types (w : world A) (t u v W pub : tensor A) (self : SpectralNorm A).

Lemma well_shaped_matrix self W u v :
  well_shaped self W u v ->
  let k := Z.to_nat (dim self) in
  let h := spec_height (shape W) k in
  let wd := spec_width (shape W) k in
  exists Mx,
    weight_matrix self W = Ok Mx /\ shape Mx = [h; wd] /\
    h * wd <= length (data Mx) /\
    rows h wd (data Mx) = spec_matrix (shape W) (data W) k /\
    shape u = [h] /\ shape v = [wd].
Proof.
  intros [Hwf Hdim Hne Hsu Hlu Hsv Hlv] k h wd.
  destruct (weight_matrix_ok self W Hwf Hdim Hne) as (Mx & HMx & Hshape & _).
  destruct (weight_matrix_entries self W Mx Hwf Hdim Hne HMx) as [Hlen Hrows].
  assert (Hk : k < length (shape W)) by (unfold ndim in Hdim; lia).
  destruct (nth_divides (shape W) k Hk Hne) as (Hh & Hmod & Hdiv).
  exists Mx. split; [exact HMx|]. split; [exact Hshape|].
  split.
  { rewrite Hlen. unfold h, wd, spec_height, spec_width, numel.
    now rewrite prod_list_delete. }
  split; [exact Hrows|]. split; [exact Hsu|].
  rewrite Hsv. unfold wd, spec_width, numel. fold k. now rewrite Hdiv.
Qed.




(** C8. The pre-hook runs [compute_weight] with a count of zero, so the
    stored [u] and [v] are the ones it found, and the public name gets the
    original weight divided by the [sigma] they give. In training mode that
    is all; in inference mode the public tensor is replaced by its detached
    copy (no [grad_fn]) whose [requires_grad] is that of the original
    parameter. *)
Theorem pre_hook_effect self (inputs : pyobj A) w W pub u v :
  registered (name self) W pub u v w ->
  well_shaped self W u v ->
  let M := spec_matrix (shape W) (data W) (Z.to_nat (dim self)) in
  let sigma := spec_sigma M (data u) (data v) in
  exists pub0 pub',
    compute_weight self 0 w = (Ok tt, store (name self) u v pub0 w) /\
    __call__ self inputs w = (Ok tt, store (name self) u v pub' w) /\
    _buffers (store (name self) u v pub' w) !! (name self +:+ "_u") = Some (Some u) /\
    _buffers (store (name self) u v pub' w) !! (name self +:+ "_v") = Some (Some v) /\
    _buffers (store (name self) u v pub' w) !! (name self) = Some (Some pub') /\
    shape pub' = shape W /\ data pub' = map (fun a => s_div a sigma) (data W) /\
    (training w = true -> pub' = pub0) /\
    (training w = false ->
       pub' = Tensor (shape pub0) (data pub0) (requires_grad W) false false /\
       grad_fn pub' = false /\ requires_grad pub' = requires_grad W).
Proof.
  intros Hreg Hws M sigma.
  destruct (well_shaped_matrix self W u v Hws)
    as (Mx & HMx & Hshape & Hlen & Hrows & Hsu & Hsv).
  destruct (rescale_spec (grad_enabled w) W Mx u v _ _ Hshape Hsu Hsv)
    as (pub0 & sg & _ & _ & Hres & Hsp & Hdp & Hpp).
  rewrite Hrows in Hdp. fold M in Hdp. fold sigma in Hdp.
  exists pub0, (hook_public (training w) W pub0).
  pose proof (reg_u_plain _ _ _ _ _ _ Hreg) as Hpu.
  pose proof (reg_v_plain _ _ _ _ _ _ Hreg) as Hpv.
  pose proof (registered_store _ _ _ _ _ _ u v
                (hook_public (training w) W pub0) Hreg Hpu Hpv) as Hreg'.
  split.
  { rewrite (compute_weight_run self 0 w W pub u v Hreg (Z.le_refl 0)).
    simpl. now rewrite HMx, Hres. }
  split; [now rewrite (call_run self inputs w W pub u v Hreg), HMx, Hres|].
  split; [apply (reg_u _ _ _ _ _ _ Hreg')|].
  split; [apply (reg_v _ _ _ _ _ _ Hreg')|].
  split; [apply (reg_pub _ _ _ _ _ _ Hreg')|].
  unfold hook_public. destruct (training w); simpl.
  - repeat split; try assumption; discriminate.
  - repeat split; try assumption; discriminate.
Qed.

End Claims_compute_weight.

(** ** What float64 division and comparison do to zeros *)

Section Float_norms.







End Float_norms.

Section Claims_norm.
Implicit Types (w : world float) (u v W pub : tensor float) (self : SpectralNorm float).


End Claims_norm.

(** * The claims on concrete layers *)

Section Concrete_runs.
Import Example_layer.

Lemma run_eq {A T} (c : M A T) (w : world A) (r : result T) :
  fst (c w) = r -> c w = (r, snd (c w)).
Proof. intros <-. now destruct (c w). Qed.

Lemma linear_wf (W : tensor float) : wf_module (linear W).
Proof.
  intros n. simpl. rewrite !lookup_empty.
  split; [intros [? [=]]|].
  split; [intros _; split; reflexivity|intros [? [=]]].
Qed.

Lemma attached_run_W2 :
  inplace_spectral_norm "weight" None eps12 (linear W2) = (Ok 7, attached W2).
Proof. unfold attached. apply run_eq. vm_compute. reflexivity. Qed.


Lemma call_run_W2 : __call__ sn PNone (attached W2) = (Ok tt, forwarded W2).
Proof. unfold forwarded. apply run_eq. vm_compute. reflexivity. Qed.

Ltac concrete_registered :=
  split;
  [ reflexivity | discriminate | vm_compute; reflexivity | vm_compute; reflexivity
  | repeat split; vm_compute; reflexivity
  | repeat split; vm_compute; reflexivity
  | repeat split; vm_compute; reflexivity
  | reflexivity | reflexivity
  | vm_compute; eexists; reflexivity
  | vm_compute; reflexivity | vm_compute; reflexivity ].

Lemma attached_registered_W2 :
  registered "weight" W2 (data_of W2) ones ones (attached W2).
Proof. concrete_registered. Qed.

Lemma attached_registered_W0 :
  registered "weight" W0 (data_of W0) ones ones (attached W0).
Proof. concrete_registered. Qed.

Lemma well_shaped_W2 : well_shaped sn W2 ones ones.
Proof.
  split; try reflexivity.
  - unfold sn, W2, ndim. simpl. lia.
  - unfold numel, W2. simpl. discriminate.
Qed.

Lemma float_lists_differ : [1%float] <> [2%float].
Proof.
  intros Heq.
  apply (f_equal (fun l => match l with
                           | x :: _ => PrimFloat.eqb x 1%float
                           | [] => false
                           end)) in Heq.
  vm_compute in Heq. discriminate.
Qed.


(** C1, counterexample. A layer with weight [[2.0]] is attached, called
    once and detached: the parameter restored under ["weight"] holds
    [[1.0]], the rescaled weight, not the original [[2.0]]. *)
Lemma round_trip_counterexample :
  inplace_spectral_norm "weight" None eps12 (linear W2) = (Ok 7, attached W2) /\
  __call__ sn PNone (attached W2) = (Ok tt, forwarded W2) /\
  remove_spectral_norm "weight" (forwarded W2) = (Ok 7, detached W2) /\
  _parameters (linear W2) !! "weight"
    = Some (Some (Tensor [1; 1] [2%float] true false true)) /\
  _parameters (detached W2) !! "weight"
    = Some (Some (Tensor [1; 1] [1%float] true false true)) /\
  [1%float] <> [2%float].
Proof.
  split; [exact attached_run_W2|].
  split; [unfold forwarded; apply run_eq; vm_compute; reflexivity|].
  split; [unfold detached; apply run_eq; vm_compute; reflexivity|].
  split; [vm_compute; reflexivity|].
  split; [vm_compute; reflexivity|].
  exact float_lists_differ.
Qed.

(** C2, counterexample. On the same run the layer is in the registered
    layout before removal; after removal the entry ["weight_v"] is still
    among the buffers, and the restored parameter holds the rescaled
    [[1.0]] where the original was [[2.0]]. *)
Lemma removal_counterexample :
  registered "weight" W2 (Tensor [1; 1] [1%float] true true false) ones ones
             (forwarded W2) /\
  remove_spectral_norm "weight" (forwarded W2) = (Ok 7, detached W2) /\
  _buffers (detached W2) !! "weight_v" = Some (Some ones) /\
  getattr "weight_v" (detached W2) = (Ok (PTensor ones), detached W2) /\
  _parameters (detached W2) !! "weight"
    = Some (Some (Tensor [1; 1] [1%float] true false true)) /\
  data W2 = [2%float] /\ [1%float] <> [2%float].
Proof.
  split; [concrete_registered|].
  split; [unfold detached; apply run_eq; vm_compute; reflexivity|].
  split; [vm_compute; reflexivity|].
  split; [apply getattr_buffer; repeat split; vm_compute; reflexivity|].
  split; [vm_compute; reflexivity|].
  split; [reflexivity|exact float_lists_differ].
Qed.


(** C10. On the attached layer whose weight is [[0.0]], [sigma] is zero and
    [compute_weight] does not raise: it divides by [sigma] and leaves NaN
    under the public name, and so does the pre-hook. [normalize], which
    floors its denominator at [eps], maps the zero vector to the zero
    vector. *)
Theorem zero_sigma_yields_nan :
  registered "weight" W0 (data_of W0) ones ones (attached W0) /\
  (exists Mx,
     weight_matrix sn W0 = Ok Mx /\
     sigma_of true Mx ones ones = Ok (Tensor [] [0%float] true true false)) /\
  fst (compute_weight sn 0 (attached W0)) = Ok tt /\
  _buffers (snd (compute_weight sn 0 (attached W0))) !! "weight"
    = Some (Some (Tensor [1; 1] [PrimFloat.div 0 0] true true false)) /\
  fst (__call__ sn PNone (attached W0)) = Ok tt /\
  _buffers (forwarded W0) !! "weight"
    = Some (Some (Tensor [1; 1] [PrimFloat.div 0 0] true true false)) /\
  PrimFloat.is_nan (PrimFloat.div 0 0) = true /\
  normalize true zeros eps12 = Ok zeros.
Proof.
  split; [exact attached_registered_W0|].
  split; [eexists; split; vm_compute; reflexivity|].
  repeat split; vm_compute; reflexivity.
Qed.

End Concrete_runs.

(** * The theorems at concrete inputs *)

Section Witnesses.
Import Example_layer.

Lemma attach_remove_restores_public_witness :
  wf_module (linear W2) /\
  _parameters (linear W2) !! "weight" = Some (Some W2) /\
  inplace_spectral_norm "weight" None eps12 (linear W2) = (Ok 7, attached W2) /\
  (exists w3,
     remove_spectral_norm "weight" (attached W2) = (Ok (oid (linear W2)), w3) /\
     _parameters w3 !! "weight"
       = Some (Some (Tensor (shape W2) (data W2) true false true))) /\
  run_between sn (attached W2) (forwarded W2) /\
  exists pub w3,
    _buffers (forwarded W2) !! "weight" = Some (Some pub) /\
    remove_spectral_norm "weight" (forwarded W2) = (Ok (oid (linear W2)), w3) /\
    _parameters w3 !! "weight"
      = Some (Some (Tensor (shape pub) (data pub) true false true)) /\
    (forwarded W2 = attached W2 \/
     exists u v,
       _buffers (forwarded W2) !! ("weight" +:+ "_u") = Some (Some u) /\
       _buffers (forwarded W2) !! ("weight" +:+ "_v") = Some (Some v) /\
       rescaled sn W2 pub u v).
Proof.
  pose proof (linear_wf W2) as H1.
  assert (H2 : _parameters (linear W2) !! "weight" = Some (Some W2))
    by (vm_compute; reflexivity).
  pose proof attached_run_W2 as H3.
  assert (H4 : run_between sn (attached W2) (forwarded W2))
    by exact (rb_forward sn _ _ _ PNone call_run_W2 (rb_done sn _)).
  split; [exact H1|]. split; [exact H2|]. split; [exact H3|].
  destruct (attach_remove_restores_public "weight" None eps12 (linear W2) 7
              (attached W2) W2 H1 H2 H3) as [Hnow Hlater].
  split; [exact Hnow|]. split; [exact H4|].
  exact (Hlater (forwarded W2) H4).
Defined.

Lemma removal_effect_witness :
  registered "weight" W2 (data_of W2) ones ones (attached W2) /\
  exists w',
    remove_spectral_norm "weight" (attached W2) = (Ok (oid (attached W2)), w') /\
    _parameters w' !! "weight" = Some (Some (new_Parameter (data_of W2))).
Proof.
  split; [exact attached_registered_W2|].
  destruct (removal_effect "weight" W2 (data_of W2) ones ones (attached W2)
              attached_registered_W2) as (k & fn & w' & _ & Hrun & Hp & _).
  exists w'. split; [exact Hrun|exact Hp].
Defined.


Lemma zero_iteration_idempotent_witness :
  registered "weight" W2 (data_of W2) ones ones (attached W2) /\
  compute_weight sn 0 (attached W2) = (Ok tt, forwarded W2) /\
  compute_weight sn 0 (forwarded W2) = (Ok tt, forwarded W2) /\
  _buffers (forwarded W2) !! "weight_u" = Some (Some ones) /\
  _buffers (forwarded W2) !! "weight_v" = Some (Some ones).
Proof.
  assert (Hrun : compute_weight sn 0 (attached W2) = (Ok tt, forwarded W2)).
  { unfold forwarded.
    assert (E1 : fst (compute_weight sn 0 (attached W2)) = Ok tt)
      by (vm_compute; reflexivity).
    assert (E2 : snd (compute_weight sn 0 (attached W2))
                 = snd (__call__ sn PNone (attached W2)))
      by (vm_compute; reflexivity).
    rewrite <- E2. apply run_eq. exact E1. }
  split; [exact attached_registered_W2|]. split; [exact Hrun|].
  destruct (zero_iteration_idempotent sn W2 (data_of W2) ones ones (attached W2)
              (Ok tt) (forwarded W2) attached_registered_W2 Hrun)
    as (H1 & _ & H2 & H3 & _).
  split; [exact H1|]. split; [exact H2|exact H3].
Defined.

Lemma negative_iterations_rejected_witness :
  (-1 < 0)%Z /\
  dict (attached W2) !! POWER_ITERATION_FN = Some (PMethod sn) /\
  compute_weight sn (-1) (attached W2)
    = (Raise (ValueError_iterations (-1)), attached W2) /\
  spectral_norm_power_iteration (-1) (attached W2)
    = (Raise (ValueError_iterations (-1)), attached W2).
Proof.
  assert (Hn : (-1 < 0)%Z) by lia.
  assert (HP : dict (attached W2) !! POWER_ITERATION_FN = Some (PMethod sn))
    by (vm_compute; reflexivity).
  split; [exact Hn|]. split; [exact HP|].
  destruct (proj1 (negative_iterations_rejected sn (-1) (attached W2)) Hn)
    as (H1 & _ & _ & H2).
  split; [exact H1|exact (H2 HP)].
Defined.

Lemma removal_not_found_or_done_witness :
  (forall k fn, In (k, SNHook fn) (_forward_pre_hooks (linear W2)) ->
                name fn <> "weight") /\
  remove_spectral_norm "weight" (linear W2)
    = (Raise (ValueError_not_found "weight"), linear W2) /\
  registered "weight" W2 (data_of W2) ones ones (attached W2) /\
  exists w',
    remove_spectral_norm "weight" (attached W2) = (Ok (oid (attached W2)), w') /\
    oid w' = oid (attached W2).
Proof.
  assert (Hnone : forall k (fn : SpectralNorm float),
             In (k, SNHook fn) (_forward_pre_hooks (linear W2)) -> name fn <> "weight")
    by (intros k fn []).
  split; [exact Hnone|].
  split; [exact (proj1 (proj1 (removal_not_found_or_done "weight" (linear W2)) Hnone))|].
  split; [exact attached_registered_W2|].
  exact (proj2 (removal_not_found_or_done "weight" (attached W2))
           W2 (data_of W2) ones ones attached_registered_W2).
Defined.

Lemma pre_hook_effect_witness :
  registered "weight" W2 (data_of W2) ones ones (attached W2) /\
  well_shaped sn W2 ones ones /\
  exists pub',
    __call__ sn PNone (attached W2) = (Ok tt, store "weight" ones ones pub' (attached W2)) /\
    shape pub' = shape W2.
Proof.
  split; [exact attached_registered_W2|]. split; [exact well_shaped_W2|].
  destruct (pre_hook_effect sn PNone (attached W2) W2 (data_of W2) ones ones
              attached_registered_W2 well_shaped_W2)
    as (pub0 & pub' & _ & Hcall & _ & _ & _ & Hshape & _).
  exists pub'. split; [exact Hcall|exact Hshape].
Defined.

Lemma default_dimension_witness :
  inplace_spectral_norm "weight" None eps12 (linear W2) = (Ok 7, attached W2) /\
  7 = oid (linear W2) /\ default_dim (cls (linear W2)) = 0%Z.
Proof.
  split; [exact attached_run_W2|].
  destruct (default_dimension "weight" eps12 (linear W2) 7 (attached W2) attached_run_W2)
    as (Hr & _ & _ & Hdim & _).
  split; [exact Hr|]. apply Hdim; discriminate.
Defined.



End Witnesses.

(** * Further properties of the code *)

Section Attach_succeeds.
Context {A : Type} `{Dtype A}.
Implicit Types (w : world A) (t u v W pub : tensor A) (self : SpectralNorm A).

Lemma register_buffer_absent w n t :
  has_dot n = false -> n <> "" -> absent w n ->
  register_buffer n (PTensor t) w = (Ok tt, set_buffers (insert n (Some t)) w).
Proof.
  intros Hdot Hne (Hd & Hp & Hb & Hm). unfold register_buffer.
  rewrite Hdot. destruct (decide (n = "")) as [|_]; [contradiction|].
  rewrite (bind_ok _ _ _ _ _ (hasattr_absent _ _ Hd Hp Hb Hm)).
  reflexivity.
Qed.

Lemma setattr_method_dict w n fn :
  _parameters w !! n = None -> _modules w !! n = None -> _buffers w !! n = None ->
  setattr n (PMethod fn) w = (Ok tt, set_dict (insert n (PMethod fn)) w).
Proof.
  intros Hp Hm Hb. unfold setattr, bind, gets, modify. simpl.
  rewrite Hp. simpl. rewrite Hm. simpl. rewrite Hb. reflexivity.
Qed.

Lemma has_dot_suffix (n suffix : string) :
  has_dot n = false -> has_dot suffix = false -> has_dot (n +:+ suffix) = false.
Proof. intros Hn Hs. now rewrite has_dot_append, Hn, Hs. Qed.

(** What [SpectralNorm.apply] does when nothing stands in its way. *)
Lemma apply_run (name_ : string) (dim_ : Z) (eps_ : A) w W (height : nat) :
  _parameters w !! name_ = Some (Some W) ->
  dict w !! name_ = None -> _buffers w !! name_ = None -> _modules w !! name_ = None ->
  is_parameter W = true -> grad_fn W = false ->
  has_dot name_ = false -> name_ <> "" -> POWER_ITERATION_FN <> name_ ->
  size W dim_ = Ok height -> height <> 0 ->
  absent w (name_ +:+ "_orig") -> absent w (name_ +:+ "_u") ->
  absent w (name_ +:+ "_v") ->
  _parameters w !! POWER_ITERATION_FN = None ->
  _buffers w !! POWER_ITERATION_FN = None ->
  _modules w !! POWER_ITERATION_FN = None ->
  SpectralNorm_apply name_ dim_ eps_ w =
    (Ok (mkSpectralNorm name_ dim_ eps_),
     applied (mkSpectralNorm name_ dim_ eps_) W
       (drawn_u (grad_enabled w) (rng w) height eps_)
       (drawn_v (grad_enabled w) (rng w) height (numel W / height) eps_)
       height w).
Proof.
  intros HW Hd Hb Hm Hpar Hleaf Hdot Hne HPn Hsize Hh
         (Hod & Hop & Hob & Hom) (Hud & Hup & Hub & Hum) (Hvd & Hvp & Hvb & Hvm)
         HPp HPb HPm.
  destruct (names_distinct name_) as (Hnu & Hnv & Hno & Hnuv & Hnuo & Hnvo).
  pose proof (power_iteration_fn_not_u name_) as HPu.
  pose proof (power_iteration_fn_not_v name_) as HPv.
  pose proof (power_iteration_fn_not_orig name_) as HPo.
  unfold SpectralNorm_apply.
  unfold bind at 1, gets at 1. rewrite HW. rewrite bind_ret. simpl of_slot.
  unfold as_tensor at 1. rewrite bind_ret. rewrite Hsize, bind_lift_ok.
  unfold normal_ at 1, F_normalize at 1.
  unfold bind at 1. unfold bind at 1. unfold gets at 1.
  unfold bind at 1. unfold modify at 1. unfold ret at 1.
  unfold bind at 1. unfold bind at 1. unfold gets at 1. unfold lift at 1.
  unfold normalize at 1. simpl shape. cbv iota.
  destruct (decide (height = 0)) as [|_]; [contradiction|].
  rewrite bind_ret.
  unfold normal_ at 1, F_normalize at 1.
  unfold bind at 1. unfold bind at 1. unfold gets at 1.
  unfold bind at 1. unfold modify at 1. unfold ret at 1.
  unfold bind at 1. unfold bind at 1. unfold gets at 1. unfold lift at 1.
  unfold normalize at 1. simpl shape. cbv iota.
  erewrite bind_ok; cycle 1.
  { apply delattr_parameter. simpl. rewrite HW. eauto. }
  erewrite bind_ok; cycle 1.
  { apply register_parameter_fresh; simpl; try assumption.
    - apply has_dot_suffix; [assumption|reflexivity].
    - apply append_nonempty. discriminate.
    - now rewrite lookup_delete_ne by congruence. }
  erewrite bind_ok; cycle 1.
  { apply register_buffer_absent; [assumption|assumption|].
    repeat split; simpl; try assumption.
    rewrite lookup_insert_ne by congruence. apply lookup_delete_eq. }
  erewrite bind_ok; cycle 1.
  { apply register_buffer_absent;
      [apply has_dot_suffix; [assumption|reflexivity]
      |apply append_nonempty; discriminate|].
    repeat split; simpl; try assumption.
    - now rewrite lookup_insert_ne, lookup_delete_ne by congruence.
    - now rewrite lookup_insert_ne by congruence. }
  erewrite bind_ok; cycle 1.
  { apply register_buffer_absent;
      [apply has_dot_suffix; [assumption|reflexivity]
      |apply append_nonempty; discriminate|].
    repeat split; simpl; try assumption.
    - now rewrite lookup_insert_ne, lookup_delete_ne by congruence.
    - now rewrite !lookup_insert_ne by congruence. }
  erewrite bind_ok; cycle 1.
  { apply setattr_method_dict; simpl; try assumption.
    - now rewrite lookup_insert_ne, lookup_delete_ne by congruence.
    - now rewrite !lookup_insert_ne by congruence. }
  reflexivity.
Qed.

Lemma size_front W (d : Z) :
  (0 <= d < Z.of_nat (ndim W))%Z ->
  size W d = Ok (nth (Z.to_nat d) (shape W) 0).
Proof.
  intros Hd. unfold size, wrap_dim.
  destruct (decide (- Z.of_nat (ndim W) <= d < Z.of_nat (ndim W))%Z) as [_|Hn]; [|lia].
  simpl. now rewrite Z.mod_small by lia.
Qed.

Lemma length_unit_vector (x : list A) (e : A) :
  length (unit_vector x e) = length x.
Proof. unfold unit_vector. apply length_map. Qed.

Lemma attach_run (name_ : string) (dim_ : option Z) (eps_ : A) w W (height : nat) :
  wf_module w ->
  _parameters w !! name_ = Some (Some W) ->
  is_parameter W = true -> grad_fn W = false ->
  has_dot name_ = false -> name_ <> "" -> POWER_ITERATION_FN <> name_ ->
  size W (chosen_dim dim_ (cls w)) = Ok height -> height <> 0 ->
  absent w (name_ +:+ "_orig") -> absent w (name_ +:+ "_u") ->
  absent w (name_ +:+ "_v") ->
  _parameters w !! POWER_ITERATION_FN = None ->
  _buffers w !! POWER_ITERATION_FN = None ->
  _modules w !! POWER_ITERATION_FN = None ->
  let fn := mkSpectralNorm name_ (chosen_dim dim_ (cls w)) eps_ in
  let u := drawn_u (grad_enabled w) (rng w) height eps_ in
  let v := drawn_v (grad_enabled w) (rng w) height (numel W / height) eps_ in
  inplace_spectral_norm name_ dim_ eps_ w = (Ok (oid w), applied fn W u v height w) /\
  registered name_ W (data_of W) u v (applied fn W u v height w).
Proof.
  intros Hwf HW Hpar Hleaf Hdot Hne HPn Hsize Hh Ho Hu Hv HPp HPb HPm fn u v.
  destruct (wf_parameter_only w name_ Hwf) as (Hd_n & Hb_n & Hm_n);
    [rewrite HW; eauto|].
  split.
  - rewrite inplace_spectral_norm_unfold.
    pose proof (apply_run name_ (chosen_dim dim_ (cls w)) eps_ w W height HW Hd_n Hb_n
                  Hm_n Hpar Hleaf Hdot Hne HPn Hsize Hh Ho Hu Hv HPp HPb HPm) as Hap.
    rewrite (bind_ok _ _ _ _ _ Hap). reflexivity.
  - destruct Ho as (Hod & Hop & Hob & Hom). destruct Hu as (Hud & Hup & Hub & Hum).
    destruct Hv as (Hvd & Hvp & Hvb & Hvm).
    apply (applied_registered fn W u v height w Hwf HW Hdot Hne HPn);
      try reflexivity; left; now repeat split.
Qed.

Lemma drawn_well_shaped (name_ : string) (d : Z) (eps_ : A) (g : bool)
    (r : nat -> A) W (height : nat) :
  size W d = Ok height ->
  wf_tensor W -> (0 <= d < Z.of_nat (ndim W))%Z -> numel W <> 0 ->
  well_shaped (mkSpectralNorm name_ d eps_) W
    (drawn_u g r height eps_) (drawn_v g r height (numel W / height) eps_).
Proof.
  intros Hsize HwfW Hdim Hnum.
  rewrite (size_front W _ Hdim) in Hsize. injection Hsize as Hheight.
  split; try assumption; simpl; rewrite Hheight.
  - reflexivity.
  - now rewrite length_unit_vector, length_map, length_seq.
  - reflexivity.
  - now rewrite length_unit_vector, length_map, length_seq.
Qed.

(** X1. Attaching succeeds on a layer that holds the name as a leaf
    [Parameter], when the name is a legal attribute name, the weight has a
    non-zero size along the dimension, and the names [name_orig], [name_u],
    [name_v] are free: the function returns the layer, the layer is in the
    registered layout with the original parameter under [name_orig], a copy
    of its data under the public name and the two normalized draws under
    [name_u] and [name_v]; with a dimension index from the front and a
    non-empty weight the layout is well shaped. *)
Theorem attach_succeeds (name_ : string) (dim_ : option Z) (eps_ : A) w W
    (height : nat) :
  wf_module w ->
  _parameters w !! name_ = Some (Some W) ->
  is_parameter W = true -> grad_fn W = false ->
  has_dot name_ = false -> name_ <> "" -> POWER_ITERATION_FN <> name_ ->
  size W (chosen_dim dim_ (cls w)) = Ok height -> height <> 0 ->
  absent w (name_ +:+ "_orig") -> absent w (name_ +:+ "_u") ->
  absent w (name_ +:+ "_v") ->
  _parameters w !! POWER_ITERATION_FN = None ->
  _buffers w !! POWER_ITERATION_FN = None ->
  _modules w !! POWER_ITERATION_FN = None ->
  let fn := mkSpectralNorm name_ (chosen_dim dim_ (cls w)) eps_ in
  let u := drawn_u (grad_enabled w) (rng w) height eps_ in
  let v := drawn_v (grad_enabled w) (rng w) height (numel W / height) eps_ in
  inplace_spectral_norm name_ dim_ eps_ w = (Ok (oid w), applied fn W u v height w) /\
  getattr (name_ +:+ "_orig") (applied fn W u v height w)
    = (Ok (PTensor W), applied fn W u v height w) /\
  getattr name_ (applied fn W u v height w)
    = (Ok (PTensor (data_of W)), applied fn W u v height w) /\
  registered name_ W (data_of W) u v (applied fn W u v height w) /\
  (wf_tensor W -> (0 <= dim fn < Z.of_nat (ndim W))%Z -> numel W <> 0 ->
   well_shaped fn W u v).
Proof.
  intros Hwf HW Hpar Hleaf Hdot Hne HPn Hsize Hh Ho Hu Hv HPp HPb HPm fn u v.
  destruct (attach_run name_ dim_ eps_ w W height Hwf HW Hpar Hleaf Hdot Hne
              HPn Hsize Hh Ho Hu Hv HPp HPb HPm) as (Hrun & Hreg).
  fold fn u v in Hrun, Hreg.
  split; [exact Hrun|].
  split.
  { apply (getattr_parameter _ _ (Some W));
      [apply (reg_orig_dict _ _ _ _ _ _ Hreg)|apply (reg_orig _ _ _ _ _ _ Hreg)]. }
  split; [apply getattr_buffer, (reg_pub _ _ _ _ _ _ Hreg)|].
  split; [exact Hreg|].
  intros HwfW Hdim Hnum. now apply drawn_well_shaped.
Qed.

(** X2. After such an attach with a dimension index from the front and a
    non-empty, well-formed weight, the first forward call succeeds: the
    pre-hook leaves the drawn [u] and [v] in place and stores under the
    public name the original weight divided by the [sigma] the draws give. *)
Theorem first_forward_after_attach (name_ : string) (dim_ : option Z) (eps_ : A)
    w W (height : nat) (inputs : pyobj A) :
  wf_module w ->
  _parameters w !! name_ = Some (Some W) ->
  is_parameter W = true -> grad_fn W = false ->
  has_dot name_ = false -> name_ <> "" -> POWER_ITERATION_FN <> name_ ->
  size W (chosen_dim dim_ (cls w)) = Ok height -> height <> 0 ->
  absent w (name_ +:+ "_orig") -> absent w (name_ +:+ "_u") ->
  absent w (name_ +:+ "_v") ->
  _parameters w !! POWER_ITERATION_FN = None ->
  _buffers w !! POWER_ITERATION_FN = None ->
  _modules w !! POWER_ITERATION_FN = None ->
  wf_tensor W -> (0 <= chosen_dim dim_ (cls w) < Z.of_nat (ndim W))%Z ->
  numel W <> 0 ->
  let fn := mkSpectralNorm name_ (chosen_dim dim_ (cls w)) eps_ in
  let u := drawn_u (grad_enabled w) (rng w) height eps_ in
  let v := drawn_v (grad_enabled w) (rng w) height (numel W / height) eps_ in
  let M := spec_matrix (shape W) (data W) (Z.to_nat (dim fn)) in
  let sigma := spec_sigma M (data u) (data v) in
  exists w1 pub',
    inplace_spectral_norm name_ dim_ eps_ w = (Ok (oid w), w1) /\
    __call__ fn inputs w1 = (Ok tt, store name_ u v pub' w1) /\
    shape pub' = shape W /\
    data pub' = map (fun a => s_div a sigma) (data W).
Proof.
  intros Hwf HW Hpar Hleaf Hdot Hne HPn Hsize Hh Ho Hu Hv HPp HPb HPm
         HwfW Hdim Hnum fn u v M sigma.
  destruct (attach_run name_ dim_ eps_ w W height Hwf HW Hpar Hleaf Hdot Hne
              HPn Hsize Hh Ho Hu Hv HPp HPb HPm) as (Hrun & Hreg).
  fold fn u v in Hrun, Hreg.
  pose proof (drawn_well_shaped name_ _ eps_ (grad_enabled w) (rng w) W height
                Hsize HwfW Hdim Hnum) as Hws.
  fold fn u v in Hws.
  destruct (well_shaped_matrix fn W u v Hws)
    as (Mx & HMx & Hshape & Hlen & Hrows & Hsu & Hsv).
  destruct (rescale_spec (grad_enabled w) W Mx u v _ _ Hshape Hsu Hsv)
    as (pub0 & sg & _ & _ & Hres & Hsp & Hdp & Hpp).
  rewrite Hrows in Hdp. fold M in Hdp. fold sigma in Hdp.
  exists (applied fn W u v height w), (hook_public (training w) W pub0).
  split; [exact Hrun|]. split.
  - rewrite (call_run fn inputs _ W (data_of W) u v Hreg), HMx.
    change (grad_enabled (applied fn W u v height w)) with (grad_enabled w).
    now rewrite Hres.
  - unfold hook_public. destruct (training w); now split.
Qed.

End Attach_succeeds.

Section Attach_errors.
Context {A : Type} `{Dtype A}.
Implicit Types (w : world A) (t u v W pub : tensor A) (self : SpectralNorm A).

Lemma apply_missing (name_ : string) (d : Z) (eps_ : A) w :
  _parameters w !! name_ = None ->
  SpectralNorm_apply name_ d eps_ w = (Raise (KeyError name_), w).
Proof.
  intros Hnone. unfold SpectralNorm_apply. unfold bind at 1, gets at 1.
  now rewrite Hnone.
Qed.

(** X3. Attaching to a name that is not among the parameters raises
    [KeyError] and changes nothing. In particular a second attach under a
    name that is already normalized is refused, whatever dimension and
    epsilon it is given, and leaves the first normalization as it is. *)
Theorem attach_twice_rejected (name_ : string) (dim_ : option Z) (eps_ : A) w :
  (_parameters w !! name_ = None ->
   inplace_spectral_norm name_ dim_ eps_ w = (Raise (KeyError name_), w)) /\
  (forall (r : nat) w1,
     inplace_spectral_norm name_ dim_ eps_ w = (Ok r, w1) ->
     forall (dim' : option Z) (eps' : A),
       inplace_spectral_norm name_ dim' eps' w1 = (Raise (KeyError name_), w1)).
Proof.
  assert (Hmiss : forall (d : option Z) (e : A) w',
            _parameters w' !! name_ = None ->
            inplace_spectral_norm name_ d e w' = (Raise (KeyError name_), w')).
  { intros d e w' Hnone. rewrite inplace_spectral_norm_unfold.
    apply bind_raise. now apply apply_missing. }
  split; [apply Hmiss|].
  intros r w1 Hrun dim' eps'. apply Hmiss.
  rewrite inplace_spectral_norm_unfold in Hrun.
  apply bind_inv in Hrun as (fn & w' & Happly & Hret).
  unfold gets in Hret. injection Hret as <- <-.
  destruct (apply_inv _ _ _ _ _ _ Happly)
    as (W & u & v & height & -> & _ & _ & _ & _ & _ & -> & _).
  destruct (names_distinct name_) as (_ & _ & Hno & _).
  unfold applied. simpl.
  rewrite lookup_insert_ne by congruence. apply lookup_delete_eq.
Qed.

(** X4. Attaching with a dimension outside [-rank, rank) raises
    [IndexError] and changes nothing; attaching along a dimension of size
    zero raises [ZeroDivisionError] before any attribute is touched: every
    table of the layer, the hooks and the handle counter are as before, and
    the generator has handed out no draw. *)
Theorem attach_bad_dimension (name_ : string) (d : Z) (eps_ : A) w W :
  _parameters w !! name_ = Some (Some W) ->
  (~ (- Z.of_nat (ndim W) <= d < Z.of_nat (ndim W))%Z ->
   inplace_spectral_norm name_ (Some d) eps_ w = (Raise IndexError, w)) /\
  (size W d = Ok 0 ->
   exists w',
     inplace_spectral_norm name_ (Some d) eps_ w = (Raise ZeroDivisionError, w') /\
     dict w' = dict w /\ _parameters w' = _parameters w /\
     _buffers w' = _buffers w /\ _modules w' = _modules w /\
     _forward_pre_hooks w' = _forward_pre_hooks w /\ next_id w' = next_id w /\
     grad_enabled w' = grad_enabled w /\ forall i, rng w' i = rng w i).
Proof.
  intros HW. split.
  - intros Hd. rewrite inplace_spectral_norm_unfold. apply bind_raise.
    simpl chosen_dim. unfold SpectralNorm_apply.
    unfold bind at 1, gets at 1. rewrite HW. rewrite bind_ret. simpl of_slot.
    unfold as_tensor at 1. rewrite bind_ret.
    apply bind_raise. unfold lift, size, wrap_dim.
    now destruct (decide (- Z.of_nat (ndim W) <= d < Z.of_nat (ndim W))%Z).
  - intros Hsize. eexists. split.
    + rewrite inplace_spectral_norm_unfold. apply bind_raise.
      simpl chosen_dim. unfold SpectralNorm_apply.
      unfold bind at 1, gets at 1. rewrite HW. rewrite bind_ret. simpl of_slot.
      unfold as_tensor at 1. rewrite bind_ret. rewrite Hsize, bind_lift_ok.
      unfold normal_ at 1, F_normalize at 1.
      unfold bind at 1. unfold bind at 1. unfold gets at 1.
      unfold bind at 1. unfold modify at 1. unfold ret at 1.
      unfold bind at 1. unfold bind at 1. unfold gets at 1. unfold lift at 1.
      unfold normalize at 1. simpl shape. cbv iota.
      destruct (decide (0 = 0)) as [_|]; [|contradiction].
      reflexivity.
    + repeat split.
Qed.

End Attach_errors.

Section Compute_weight_more.
Context {A : Type} `{Dtype A}.
Implicit Types (w : world A) (t u v W pub : tensor A) (self : SpectralNorm A).

Lemma filter_negative_keeps (d : Z) (l : list nat) :
  (d < 0)%Z ->
  filter (fun z => z <> d) (map Z.of_nat l) = map Z.of_nat l.
Proof.
  intros Hd. induction l as [|x l IH]; simpl; [reflexivity|].
  rewrite filter_cons. destruct (decide (Z.of_nat x <> d)); [|lia].
  now rewrite IH.
Qed.

Lemma weight_matrix_negative_dim self W :
  (dim self < 0)%Z ->
  weight_matrix self W = Raise (RuntimeError "permute: number of dims does not match").
Proof.
  intros Hd. unfold weight_matrix.
  destruct (decide (dim self <> 0%Z)) as [_|]; [|lia].
  unfold permute. rewrite filter_negative_keeps by exact Hd.
  destruct (decide (length (dim self :: map Z.of_nat (seq 0 (ndim W))) = ndim W))
    as [Hlen|_]; [|reflexivity].
  simpl in Hlen. rewrite length_map, length_seq in Hlen. lia.
Qed.

(** X5. A negative dimension, which attach accepts because [size] counts
    it from the end, makes every later use fail: on a registered layer whose
    [SpectralNorm] has [dim < 0], [compute_weight] with any non-negative
    count and the pre-hook raise the [RuntimeError] of [permute], which is
    given one dimension too many, and leave the layer untouched. *)
Theorem negative_dim_breaks_forward self (n : Z) (inputs : pyobj A) w W pub u v :
  registered (name self) W pub u v w ->
  (dim self < 0)%Z -> (0 <= n)%Z ->
  compute_weight self n w
    = (Raise (RuntimeError "permute: number of dims does not match"), w) /\
  __call__ self inputs w
    = (Raise (RuntimeError "permute: number of dims does not match"), w).
Proof.
  intros Hreg Hd Hn. split.
  - rewrite (compute_weight_run self n w W pub u v Hreg Hn).
    now rewrite weight_matrix_negative_dim.
  - rewrite (call_run self inputs w W pub u v Hreg).
    now rewrite weight_matrix_negative_dim.
Qed.

(** X6. Whatever its outcome, [compute_weight] on a registered layer
    touches nothing but the three buffers of the normalization: the
    parameters (so the original weight), the instance dictionary, the
    submodules, the hooks, the mode flags, the handle counter and the
    generator are as before, grad mode is back to what it was, and every
    other buffer is unchanged; when it raises, the public tensor is unchanged
    too. *)
Theorem compute_weight_frame self (n : Z) w W pub u v (r : result unit) w' :
  registered (name self) W pub u v w ->
  compute_weight self n w = (r, w') ->
  _parameters w' = _parameters w /\ dict w' = dict w /\ _modules w' = _modules w /\
  _forward_pre_hooks w' = _forward_pre_hooks w /\
  training w' = training w /\ cls w' = cls w /\ oid w' = oid w /\
  grad_enabled w' = grad_enabled w /\ next_id w' = next_id w /\ rng w' = rng w /\
  (forall k, k <> name self -> k <> name self +:+ "_u" -> k <> name self +:+ "_v" ->
             _buffers w' !! k = _buffers w !! k) /\
  (r <> Ok tt -> _buffers w' !! name self = _buffers w !! name self).
Proof.
  intros Hreg Hrun.
  destruct (names_distinct (name self)) as (Hnu & Hnv & _).
  assert (Hcases : w' = w \/
            (exists u' v', w' = store_uv (name self) u' v' w /\ r <> Ok tt) \/
            (exists u' v' pub', w' = store (name self) u' v' pub' w /\ r = Ok tt)).
  { destruct (decide (n < 0)%Z) as [Hneg|Hpos].
    - unfold compute_weight in Hrun.
      destruct (decide (n < 0)%Z); [|contradiction]. injection Hrun as _ <-. now left.
    - rewrite (compute_weight_run self n w W pub u v Hreg) in Hrun by lia.
      destruct (weight_matrix self W) as [Mx|e]; [|injection Hrun as _ <-; now left].
      destruct (iterate (eps self) Mx (Z.to_nat n) u v) as [[u' v']|e];
        [|injection Hrun as _ <-; now left].
      destruct (rescale (grad_enabled w) W Mx u' v') as [pub'|e];
        injection Hrun as <- <-.
      + right. right. now exists u', v', pub'.
      + right. left. exists u', v'. split; [reflexivity|discriminate]. }
  destruct Hcases as [->|[(u' & v' & -> & Hr)|(u' & v' & pub' & -> & ->)]].
  - repeat split; reflexivity.
  - repeat split; try reflexivity.
    + intros k Hk Hku Hkv. unfold store_uv. simpl.
      now rewrite !lookup_insert_ne by congruence.
    + intros _. unfold store_uv. simpl.
      now rewrite !lookup_insert_ne by congruence.
  - repeat split; try reflexivity.
    + intros k Hk Hku Hkv. unfold store. simpl.
      now rewrite !lookup_insert_ne by congruence.
    + intros Hr. now contradiction Hr.
Qed.

Lemma iterate_add (e : A) Mx (k m : nat) u v :
  iterate e Mx (k + m) u v =
  rbind (iterate e Mx k u v) (fun uv => iterate e Mx m (fst uv) (snd uv)).
Proof.
  revert u v. induction k as [|k IH]; intros u v; [reflexivity|].
  simpl. destruct (transpose Mx) as [wt|]; simpl; [|reflexivity].
  destruct (matmul false wt u) as [x|]; simpl; [|reflexivity].
  destruct (normalize false x e) as [v1|]; simpl; [|reflexivity].
  destruct (matmul false Mx v1) as [y|]; simpl; [|reflexivity].
  destruct (normalize false y e) as [u1|]; simpl; [|reflexivity].
  apply IH.
Qed.

Lemma store_over_store name_ u1 v1 p1 u2 v2 p2 w :
  store name_ u2 v2 p2 (store name_ u1 v1 p1 w) = store name_ u2 v2 p2 w.
Proof.
  unfold store, set_buffers. simpl. f_equal.
  apply map_eq. intros i.
  destruct (decide (name_ = i)) as [->|Hi].
  { now rewrite !lookup_insert_eq. }
  rewrite !(lookup_insert_ne _ name_) by assumption.
  destruct (decide (name_ +:+ "_v" = i)) as [<-|Hiv].
  { now rewrite !lookup_insert_eq. }
  rewrite !(lookup_insert_ne _ (name_ +:+ "_v")) by assumption.
  destruct (decide (name_ +:+ "_u" = i)) as [<-|Hiu].
  { now rewrite !lookup_insert_eq. }
  rewrite !(lookup_insert_ne _ (name_ +:+ "_u")) by assumption.
  rewrite !(lookup_insert_ne _ name_) by assumption.
  rewrite !(lookup_insert_ne _ (name_ +:+ "_v")) by assumption.
  now rewrite !(lookup_insert_ne _ (name_ +:+ "_u")) by assumption.
Qed.

(** X7. The vectors are carried state: on a registered, well-shaped layer,
    [k] rounds of power iteration followed by [m] more leave the layer
    exactly as [k + m] rounds in one call do. *)
Theorem iterations_compose self (k m : Z) w W pub u v :
  registered (name self) W pub u v w ->
  well_shaped self W u v ->
  (0 <= k)%Z -> (0 <= m)%Z ->
  exists w1 w2,
    compute_weight self k w = (Ok tt, w1) /\
    compute_weight self m w1 = (Ok tt, w2) /\
    compute_weight self (k + m) w = (Ok tt, w2).
Proof.
  intros Hreg Hws Hk Hm.
  destruct (well_shaped_matrix self W u v Hws)
    as (Mx & HMx & Hshape & Hlen & _ & Hsu & Hsv).
  destruct (iterate_spec (eps self) Mx _ _ (Z.to_nat k) u v Hshape Hlen Hsu Hsv)
    as (u1 & v1 & Hit1 & Hsu1 & Hsv1 & _).
  destruct (rescale_spec (grad_enabled w) W Mx u1 v1 _ _ Hshape Hsu1 Hsv1)
    as (pub1 & sg1 & _ & _ & Hres1 & _).
  destruct (iterate_spec (eps self) Mx _ _ (Z.to_nat m) u1 v1 Hshape Hlen Hsu1 Hsv1)
    as (u2 & v2 & Hit2 & Hsu2 & Hsv2 & _).
  destruct (rescale_spec (grad_enabled w) W Mx u2 v2 _ _ Hshape Hsu2 Hsv2)
    as (pub2 & sg2 & _ & _ & Hres2 & _).
  destruct (iterate_plain _ _ _ _ _ _ _ Hit1 (reg_u_plain _ _ _ _ _ _ Hreg)
              (reg_v_plain _ _ _ _ _ _ Hreg)) as [Hpu1 Hpv1].
  pose proof (registered_store _ _ _ _ _ _ u1 v1 pub1 Hreg Hpu1 Hpv1) as Hreg1.
  exists (store (name self) u1 v1 pub1 w), (store (name self) u2 v2 pub2 w).
  split; [|split].
  - rewrite (compute_weight_run self k w W pub u v Hreg Hk).
    now rewrite HMx, Hit1, Hres1.
  - rewrite (compute_weight_run self m _ W pub1 u1 v1 Hreg1 Hm).
    rewrite HMx, Hit2.
    change (grad_enabled (store (name self) u1 v1 pub1 w)) with (grad_enabled w).
    now rewrite Hres2, store_over_store.
  - rewrite (compute_weight_run self (k + m) w W pub u v Hreg) by lia.
    rewrite HMx, Z2Nat.inj_add by lia.
    rewrite iterate_add, Hit1. simpl rbind.
    now rewrite Hit2, Hres2.
Qed.

End Compute_weight_more.

Section After_removal.
Context {A : Type} `{Dtype A}.
Implicit Types (w : world A) (t u v W pub : tensor A) (self : SpectralNorm A).

Lemma removed_orig_gone name_ W pub u v (k : nat) w :
  registered name_ W pub u v w ->
  getattr (name_ +:+ "_orig") (removed name_ pub k w)
    = (Raise (AttributeError (name_ +:+ "_orig")), removed name_ pub k w).
Proof.
  intros [Hdot Hne Ho Hod (Hpd & Hpp & Hpm & Hpb) (Hud & Hup & Hum & Hub)
            (Hvd & Hvp & Hvm & Hvb) Hpu Hpv Hh Hob Hom].
  destruct (names_distinct name_) as (Hu & Hv & Horig & Huv & Huo & Hvo).
  unfold removed, unregistered, getattr; simpl.
  rewrite Hod, lookup_insert_ne, lookup_delete_eq by congruence.
  rewrite !lookup_delete_ne by congruence. now rewrite Hob, Hom.
Qed.

Lemma compute_weight_without_orig self (n : Z) w :
  (0 <= n)%Z ->
  getattr (name self +:+ "_orig") w = (Raise (AttributeError (name self +:+ "_orig")), w) ->
  compute_weight self n w = (Raise (AttributeError (name self +:+ "_orig")), w).
Proof.
  intros Hn Hget. unfold compute_weight.
  destruct (decide (n < 0)%Z) as [|_]; [lia|]. now apply bind_raise.
Qed.

(** X8. Removal leaves the bound method [spectral_norm_power_iteration] on
    the layer, but nothing it needs: once a normalization has been removed,
    [compute_weight], the pre-hook and that method all raise
    [AttributeError] for [name_orig] and change nothing. *)
Theorem stale_after_removal self (n : Z) (inputs : pyobj A) w W pub u v (r : nat) w' :
  registered (name self) W pub u v w ->
  remove_spectral_norm (name self) w = (Ok r, w') ->
  (0 <= n)%Z ->
  compute_weight self n w'
    = (Raise (AttributeError (name self +:+ "_orig")), w') /\
  __call__ self inputs w'
    = (Raise (AttributeError (name self +:+ "_orig")), w') /\
  (dict w !! POWER_ITERATION_FN = Some (PMethod self) ->
   dict w' !! POWER_ITERATION_FN = Some (PMethod self) /\
   spectral_norm_power_iteration n w'
     = (Raise (AttributeError (name self +:+ "_orig")), w')).
Proof.
  intros Hreg Hrm Hn.
  destruct (remove_spectral_norm_run _ _ _ _ _ _ Hreg) as (k & fn & _ & Hrun).
  rewrite Hrun in Hrm. injection Hrm as _ <-.
  pose proof (removed_orig_gone _ _ _ _ _ k _ Hreg) as Hget.
  assert (Hcw : forall n', (0 <= n')%Z ->
            compute_weight self n' (removed (name self) pub k w)
            = (Raise (AttributeError (name self +:+ "_orig")),
               removed (name self) pub k w))
    by (intros n' Hn'; now apply compute_weight_without_orig).
  split; [now apply Hcw|]. split.
  - unfold __call__. apply bind_raise. now apply Hcw.
  - intros HP. split; [exact HP|].
    unfold spectral_norm_power_iteration, bind, getattr.
    change (dict (removed (name self) pub k w)) with (dict w). rewrite HP.
    now apply Hcw.
Qed.

Lemma find_hook_od_del_other (name_ name' : string) (k : nat) (fn : SpectralNorm A)
    (l : list (nat * hook A)) :
  NoDup (map fst l) ->
  find_hook name_ l = Some (k, fn) -> name' <> name_ ->
  find_hook name' (od_del k l) = find_hook name' l.
Proof.
  intros Hnd Hfind Hne. induction l as [|[k' h] l IH]; [reflexivity|].
  simpl in Hnd. apply NoDup_cons in Hnd as [Hk' Hnd].
  assert (Hin : forall f, find_hook name_ l = Some (k, f) -> k ∈ map fst l).
  { clear. intros f. induction l as [|[k1 h1] l IHl]; simpl; [discriminate|].
    destruct h1 as [f1|tag].
    - destruct (decide (name f1 = name_)).
      + intros [= <- _]. now left.
      + intros Hf. right. now apply IHl.
    - intros Hf. right. now apply IHl. }
  simpl in Hfind. simpl od_del.
  destruct h as [f'|tag].
  - destruct (decide (name f' = name_)) as [Hn|Hn].
    + injection Hfind as <- <-.
      destruct (decide (k' = k')) as [_|]; [|contradiction].
      simpl. destruct (decide (name f' = name')); [congruence|reflexivity].
    + destruct (decide (k' = k)) as [->|Hk].
      * exfalso. apply Hk'. eapply Hin. exact Hfind.
      * simpl. destruct (decide (name f' = name')); [reflexivity|now apply IH].
  - destruct (decide (k' = k)) as [->|Hk].
    + exfalso. apply Hk'. eapply Hin. exact Hfind.
    + simpl. now apply IH.
Qed.

Lemma od_del_keeps {V} (k k' : nat) (x : V) (l : list (nat * V)) :
  k' <> k -> In (k', x) l -> In (k', x) (od_del k l).
Proof.
  intros Hk. induction l as [|[k1 y] l IH]; simpl; [tauto|].
  destruct (decide (k1 = k)) as [->|Hk1].
  - intros [[= -> _]|Hin]; [contradiction|exact Hin].
  - intros [Heq|Hin]; [now left|right; now apply IH].
Qed.

(** X9. Removing the normalization of one name deregisters one hook only:
    when the keys of the hook dictionary are distinct, the first
    [SpectralNorm] hook of every other name is found as before, and every
    hook stored under another key is still registered. *)
Theorem removal_keeps_other_hooks (name_ : string) W pub u v w (r : nat) w' :
  registered name_ W pub u v w ->
  NoDup (hook_keys w) ->
  remove_spectral_norm name_ w = (Ok r, w') ->
  exists k fn,
    find_hook name_ (_forward_pre_hooks w) = Some (k, fn) /\
    (forall name', name' <> name_ ->
       find_hook name' (_forward_pre_hooks w') = find_hook name' (_forward_pre_hooks w)) /\
    (forall k' h, k' <> k -> In (k', h) (_forward_pre_hooks w) ->
                  In (k', h) (_forward_pre_hooks w')).
Proof.
  intros Hreg Hnd Hrm.
  destruct (remove_spectral_norm_run _ _ _ _ _ _ Hreg) as (k & fn & Hfind & Hrun).
  rewrite Hrun in Hrm. injection Hrm as _ <-.
  exists k, fn. split; [exact Hfind|]. split.
  - intros name' Hne. unfold removed. simpl.
    now apply (find_hook_od_del_other name_ name' k fn).
  - intros k' h Hk Hin. unfold removed. simpl. now apply od_del_keeps.
Qed.

End After_removal.

Section Round_trip.
Context {A : Type} `{Dtype A}.
Implicit Types (w : world A) (t u v W pub : tensor A) (self : SpectralNorm A).

Lemma od_del_od_set {V} (k : nat) (x : V) (l : list (nat * V)) :
  k ∉ map fst l -> od_del k (od_set k x l) = l.
Proof.
  induction l as [|[k' y] l IH]; simpl; intros Hk.
  - destruct (decide (k = k)); [reflexivity|contradiction].
  - apply not_elem_of_cons in Hk as [Hne Hk].
    destruct (decide (k' = k)) as [->|_]; [contradiction|].
    simpl. destruct (decide (k' = k)) as [->|_]; [contradiction|].
    now rewrite IH.
Qed.

Lemma find_hook_od_set_fresh (name_ : string) (k : nat) (fn : SpectralNorm A)
    (l : list (nat * hook A)) :
  find_hook name_ l = None -> name fn = name_ -> k ∉ map fst l ->
  find_hook name_ (od_set k (SNHook fn) l) = Some (k, fn).
Proof.
  intros Hnone Hn. induction l as [|[k' h] l IH]; simpl; intros Hk.
  - destruct (decide (name fn = name_)); [reflexivity|contradiction].
  - apply not_elem_of_cons in Hk as [Hne Hk].
    destruct (decide (k' = k)) as [->|_]; [contradiction|].
    simpl in Hnone |- *. destruct h as [f'|tag].
    + destruct (decide (name f' = name_)); [discriminate|now apply IH].
    + now apply IH.
Qed.

(** X10. Attach followed at once by removal, on a layer that had no
    normalization of that name, is not the identity. What is left behind:
    the parameter is back under the public name with its shape and elements,
    but always with [requires_grad = True]; the buffer [name_v] stays; the
    bound method [spectral_norm_power_iteration] stays in the instance
    dictionary; the handle counter has advanced. Nothing else differs: the
    submodules and the hooks are as before, and a second removal raises the
    not-found [ValueError]. *)
Theorem attach_remove_residue (name_ : string) (dim_ : option Z) (eps_ : A) w W
    (height : nat) :
  wf_module w ->
  _parameters w !! name_ = Some (Some W) ->
  is_parameter W = true -> grad_fn W = false ->
  has_dot name_ = false -> name_ <> "" -> POWER_ITERATION_FN <> name_ ->
  size W (chosen_dim dim_ (cls w)) = Ok height -> height <> 0 ->
  absent w (name_ +:+ "_orig") -> absent w (name_ +:+ "_u") ->
  absent w (name_ +:+ "_v") ->
  _parameters w !! POWER_ITERATION_FN = None ->
  _buffers w !! POWER_ITERATION_FN = None ->
  _modules w !! POWER_ITERATION_FN = None ->
  find_hook name_ (_forward_pre_hooks w) = None ->
  next_id w ∉ hook_keys w ->
  let fn := mkSpectralNorm name_ (chosen_dim dim_ (cls w)) eps_ in
  let v := drawn_v (grad_enabled w) (rng w) height (numel W / height) eps_ in
  exists w1 w3,
    inplace_spectral_norm name_ dim_ eps_ w = (Ok (oid w), w1) /\
    remove_spectral_norm name_ w1 = (Ok (oid w), w3) /\
    _parameters w3
      = <[name_ := Some (Tensor (shape W) (data W) true false true)]> (_parameters w) /\
    _buffers w3 = <[name_ +:+ "_v" := Some v]> (_buffers w) /\
    dict w3 = <[POWER_ITERATION_FN := PMethod fn]> (dict w) /\
    _modules w3 = _modules w /\
    _forward_pre_hooks w3 = _forward_pre_hooks w /\
    next_id w3 = S (next_id w) /\
    training w3 = training w /\ grad_enabled w3 = grad_enabled w /\
    remove_spectral_norm name_ w3 = (Raise (ValueError_not_found name_), w3).
Proof.
  intros Hwf HW Hpar Hleaf Hdot Hne HPn Hsize Hh Ho Hu Hv HPp HPb HPm Hnone Hfresh fn v.
  set (u := drawn_u (grad_enabled w) (rng w) height eps_).
  destruct (attach_run name_ dim_ eps_ w W height Hwf HW Hpar Hleaf Hdot Hne
              HPn Hsize Hh Ho Hu Hv HPp HPb HPm) as (Hrun & Hreg).
  fold fn u v in Hrun, Hreg.
  destruct (remove_spectral_norm_run _ _ _ _ _ _ Hreg) as (k & fn' & Hfind & Hrm).
  assert (Hfound : find_hook name_ (_forward_pre_hooks (applied fn W u v height w))
                   = Some (next_id w, fn)).
  { unfold applied. simpl. now apply find_hook_od_set_fresh. }
  rewrite Hfound in Hfind. injection Hfind as <- <-.
  destruct (names_distinct name_) as (Hnu & Hnv & Hno & Hnuv & Hnuo & Hnvo).
  destruct Ho as (Hod & Hop & Hob & Hom). destruct Hu as (Hud & Hup & Hub & Hum).
  destruct (wf_parameter_only w name_ Hwf) as (Hd_n & Hb_n & Hm_n);
    [rewrite HW; eauto|].
  assert (Hhooks : _forward_pre_hooks (removed name_ (data_of W) (next_id w)
                      (applied fn W u v height w)) = _forward_pre_hooks w).
  { unfold removed, applied. simpl. now apply od_del_od_set. }
  exists (applied fn W u v height w),
         (removed name_ (data_of W) (next_id w) (applied fn W u v height w)).
  split; [exact Hrun|]. split; [exact Hrm|].
  split.
  { unfold removed, unregistered, applied. simpl.
    apply map_eq. intros i.
    destruct (decide (name_ = i)) as [<-|Hi].
    { now rewrite !lookup_insert_eq. }
    rewrite !(lookup_insert_ne _ name_) by assumption.
    destruct (decide (name_ +:+ "_orig" = i)) as [<-|Hio].
    { now rewrite lookup_delete_eq. }
    rewrite lookup_delete_ne, lookup_insert_ne by assumption.
    now rewrite lookup_delete_ne by assumption. }
  split.
  { unfold removed, unregistered, applied. simpl.
    apply map_eq. intros i.
    destruct (decide (name_ +:+ "_v" = i)) as [<-|Hiv].
    { rewrite lookup_insert_eq, !lookup_delete_ne by congruence.
      now rewrite lookup_insert_eq. }
    rewrite (lookup_insert_ne _ (name_ +:+ "_v")) by assumption.
    destruct (decide (name_ +:+ "_u" = i)) as [<-|Hiu].
    { now rewrite lookup_delete_eq. }
    rewrite (lookup_delete_ne _ (name_ +:+ "_u")) by assumption.
    destruct (decide (name_ = i)) as [<-|Hi].
    { now rewrite lookup_delete_eq. }
    rewrite (lookup_delete_ne _ name_) by assumption.
    now rewrite !lookup_insert_ne by assumption. }
  split; [reflexivity|]. split; [reflexivity|].
  split; [exact Hhooks|]. split; [reflexivity|].
  split; [reflexivity|]. split; [reflexivity|].
  unfold remove_spectral_norm, bind, gets. rewrite Hhooks.
  now apply remove_loop_not_found.
Qed.

Lemma run_between_store self W w w' :
  run_between self w w' ->
  forall pub u v,
    registered (name self) W pub u v w ->
    exists pub' u' v',
      registered (name self) W pub' u' v' w' /\
      (w' = w \/ w' = store (name self) u' v' pub' w).
Proof.
  induction 1 as [w|w w1 w2 inputs Hstep Hrest IH|w w1 w2 n Hstep Hrest IH];
    intros pub u v Hreg.
  - exists pub, u, v. split; [exact Hreg|now left].
  - rewrite (call_run self inputs w W pub u v Hreg) in Hstep.
    destruct (weight_matrix self W) as [Mx|]; [|discriminate].
    destruct (rescale (grad_enabled w) W Mx u v) as [pub1|]; [|discriminate].
    injection Hstep as <-.
    pose proof (registered_store _ _ _ _ _ _ u v (hook_public (training w) W pub1)
                  Hreg (reg_u_plain _ _ _ _ _ _ Hreg) (reg_v_plain _ _ _ _ _ _ Hreg))
      as Hreg1.
    destruct (IH _ _ _ Hreg1) as (pub' & u' & v' & Hreg' & [-> | ->]).
    + eexists _, _, _. split; [exact Hreg1|now right].
    + exists pub', u', v'. split; [exact Hreg'|]. right. apply store_over_store.
  - unfold get_update_method in Hstep.
    destruct (decide (n < 0)%Z) as [Hn|Hn].
    { unfold compute_weight in Hstep.
      destruct (decide (n < 0)%Z); [discriminate|contradiction]. }
    rewrite (compute_weight_run self n w W pub u v Hreg) in Hstep by lia.
    destruct (weight_matrix self W) as [Mx|]; [|discriminate].
    destruct (iterate (eps self) Mx (Z.to_nat n) u v) as [[u1 v1]|] eqn:Hit;
      [|discriminate].
    destruct (rescale (grad_enabled w) W Mx u1 v1) as [pub1|]; [|discriminate].
    injection Hstep as <-.
    destruct (iterate_plain _ _ _ _ _ _ _ Hit (reg_u_plain _ _ _ _ _ _ Hreg)
                (reg_v_plain _ _ _ _ _ _ Hreg)) as [Hpu Hpv].
    pose proof (registered_store _ _ _ _ _ _ u1 v1 pub1 Hreg Hpu Hpv) as Hreg1.
    destruct (IH _ _ _ Hreg1) as (pub' & u' & v' & Hreg' & [-> | ->]).
    + eexists _, _, _. split; [exact Hreg1|now right].
    + exists pub', u', v'. split; [exact Hreg'|]. right. apply store_over_store.
Qed.

(** X11. Any number of forward calls and power-iteration calls, in any
    order, amounts to one assignment of the three buffers: afterwards the
    layer is in the registered layout with the same original parameter, and
    its parameters, instance dictionary, submodules, hooks and every buffer
    other than [name], [name_u] and [name_v] are exactly as before. *)
Theorem calls_only_rewrite_three_buffers self W pub u v w w' :
  registered (name self) W pub u v w ->
  run_between self w w' ->
  exists pub' u' v',
    registered (name self) W pub' u' v' w' /\
    getattr (name self +:+ "_orig") w' = (Ok (PTensor W), w') /\
    _parameters w' = _parameters w /\ dict w' = dict w /\
    _modules w' = _modules w /\
    _forward_pre_hooks w' = _forward_pre_hooks w /\
    training w' = training w /\ grad_enabled w' = grad_enabled w /\
    (forall k, k <> name self -> k <> name self +:+ "_u" -> k <> name self +:+ "_v" ->
               _buffers w' !! k = _buffers w !! k).
Proof.
  intros Hreg Hrun.
  destruct (run_between_store self W w w' Hrun pub u v Hreg)
    as (pub' & u' & v' & Hreg' & Hw).
  exists pub', u', v'. split; [exact Hreg'|]. split.
  { apply (getattr_parameter _ _ (Some W));
      [apply (reg_orig_dict _ _ _ _ _ _ Hreg')|apply (reg_orig _ _ _ _ _ _ Hreg')]. }
  destruct Hw as [-> | ->].
  - repeat split; reflexivity.
  - repeat split; try reflexivity.
    intros k Hk Hku Hkv. unfold store. simpl.
    now rewrite !lookup_insert_ne by congruence.
Qed.

End Round_trip.


(** * The further properties at concrete inputs *)

Section Witnesses_further.
Import Example_layer Example_more.

Lemma linear_W2_parameter :
  _parameters (linear W2) !! "weight" = Some (Some W2).
Proof. vm_compute. reflexivity. Qed.

Lemma linear_W2_clean :
  absent (linear W2) ("weight" +:+ "_orig") /\
  absent (linear W2) ("weight" +:+ "_u") /\
  absent (linear W2) ("weight" +:+ "_v") /\
  _parameters (linear W2) !! POWER_ITERATION_FN = None /\
  _buffers (linear W2) !! POWER_ITERATION_FN = None /\
  _modules (linear W2) !! POWER_ITERATION_FN = None.
Proof. repeat split; vm_compute; reflexivity. Qed.

Lemma W2_front :
  wf_tensor W2 /\
  (0 <= chosen_dim None (cls (linear W2)) < Z.of_nat (ndim W2))%Z /\
  numel W2 <> 0.
Proof.
  split; [reflexivity|]. split; [vm_compute; split; [discriminate|reflexivity]|].
  unfold numel, W2. simpl. discriminate.
Qed.

Lemma attach_succeeds_witness :
  wf_module (linear W2) /\
  _parameters (linear W2) !! "weight" = Some (Some W2) /\
  size W2 (chosen_dim None (cls (linear W2))) = Ok 1 /\
  absent (linear W2) ("weight" +:+ "_orig") /\
  absent (linear W2) ("weight" +:+ "_u") /\
  absent (linear W2) ("weight" +:+ "_v") /\
  let fn := mkSpectralNorm "weight" (chosen_dim None (cls (linear W2))) eps12 in
  let u := drawn_u (grad_enabled (linear W2)) (rng (linear W2)) 1 eps12 in
  let v := drawn_v (grad_enabled (linear W2)) (rng (linear W2)) 1 (numel W2 / 1) eps12 in
  inplace_spectral_norm "weight" None eps12 (linear W2)
    = (Ok (oid (linear W2)), applied fn W2 u v 1 (linear W2)) /\
  registered "weight" W2 (data_of W2) u v (applied fn W2 u v 1 (linear W2)) /\
  well_shaped fn W2 u v.
Proof.
  pose proof (linear_wf W2) as Hwf.
  pose proof linear_W2_parameter as HW.
  assert (Hsize : size W2 (chosen_dim None (cls (linear W2))) = Ok 1) by reflexivity.
  destruct linear_W2_clean as (Ho & Hu & Hv & HPp & HPb & HPm).
  destruct W2_front as (HwfW & Hdim & Hnum).
  split; [exact Hwf|]. split; [exact HW|]. split; [exact Hsize|].
  split; [exact Ho|]. split; [exact Hu|]. split; [exact Hv|].
  destruct (attach_succeeds "weight" None eps12 (linear W2) W2 1 Hwf HW eq_refl eq_refl
              eq_refl ltac:(discriminate) ltac:(discriminate) Hsize ltac:(discriminate)
              Ho Hu Hv HPp HPb HPm) as (Hrun & _ & _ & Hreg & Hws).
  split; [exact Hrun|]. split; [exact Hreg|].
  exact (Hws HwfW Hdim Hnum).
Defined.

Lemma first_forward_after_attach_witness :
  wf_module (linear W2) /\
  _parameters (linear W2) !! "weight" = Some (Some W2) /\
  size W2 (chosen_dim None (cls (linear W2))) = Ok 1 /\
  wf_tensor W2 /\ numel W2 <> 0 /\
  let fn := mkSpectralNorm "weight" (chosen_dim None (cls (linear W2))) eps12 in
  let u := drawn_u (grad_enabled (linear W2)) (rng (linear W2)) 1 eps12 in
  let v := drawn_v (grad_enabled (linear W2)) (rng (linear W2)) 1 (numel W2 / 1) eps12 in
  exists w1 pub',
    inplace_spectral_norm "weight" None eps12 (linear W2) = (Ok (oid (linear W2)), w1) /\
    __call__ fn PNone w1 = (Ok tt, store "weight" u v pub' w1) /\
    shape pub' = shape W2.
Proof.
  pose proof (linear_wf W2) as Hwf.
  pose proof linear_W2_parameter as HW.
  assert (Hsize : size W2 (chosen_dim None (cls (linear W2))) = Ok 1) by reflexivity.
  destruct linear_W2_clean as (Ho & Hu & Hv & HPp & HPb & HPm).
  destruct W2_front as (HwfW & Hdim & Hnum).
  split; [exact Hwf|]. split; [exact HW|]. split; [exact Hsize|].
  split; [exact HwfW|]. split; [exact Hnum|].
  destruct (first_forward_after_attach "weight" None eps12 (linear W2) W2 1 PNone
              Hwf HW eq_refl eq_refl
              eq_refl ltac:(discriminate) ltac:(discriminate) Hsize ltac:(discriminate)
              Ho Hu Hv HPp HPb HPm HwfW Hdim Hnum) as (w1 & pub' & Hrun & Hcall & Hsh & _).
  exists w1, pub'. split; [exact Hrun|]. split; [exact Hcall|exact Hsh].
Defined.

Lemma attach_twice_rejected_witness :
  _parameters (linear W2) !! "kernel" = None /\
  inplace_spectral_norm "kernel" None eps12 (linear W2)
    = (Raise (KeyError "kernel"), linear W2) /\
  inplace_spectral_norm "weight" None eps12 (linear W2) = (Ok 7, attached W2) /\
  inplace_spectral_norm "weight" (Some 1%Z) eps12 (attached W2)
    = (Raise (KeyError "weight"), attached W2).
Proof.
  assert (Hnone : _parameters (linear W2) !! "kernel" = None)
    by (vm_compute; reflexivity).
  split; [exact Hnone|].
  split; [exact (proj1 (attach_twice_rejected "kernel" None eps12 (linear W2)) Hnone)|].
  split; [exact attached_run_W2|].
  exact (proj2 (attach_twice_rejected "weight" None eps12 (linear W2)) 7 (attached W2)
           attached_run_W2 (Some 1%Z) eps12).
Defined.

Lemma attach_bad_dimension_witness :
  _parameters (linear W_empty) !! "weight" = Some (Some W_empty) /\
  ~ (- Z.of_nat (ndim W_empty) <= 5 < Z.of_nat (ndim W_empty))%Z /\
  inplace_spectral_norm "weight" (Some 5%Z) eps12 (linear W_empty)
    = (Raise IndexError, linear W_empty) /\
  size W_empty 0 = Ok 0 /\
  exists w',
    inplace_spectral_norm "weight" (Some 0%Z) eps12 (linear W_empty)
      = (Raise ZeroDivisionError, w') /\
    _parameters w' = _parameters (linear W_empty) /\
    _buffers w' = _buffers (linear W_empty).
Proof.
  assert (HW : _parameters (linear W_empty) !! "weight" = Some (Some W_empty))
    by (vm_compute; reflexivity).
  assert (Hout : ~ (- Z.of_nat (ndim W_empty) <= 5 < Z.of_nat (ndim W_empty))%Z)
    by (vm_compute; intros [_ Hlt]; discriminate Hlt).
  assert (Hzero : size W_empty 0 = Ok 0) by reflexivity.
  split; [exact HW|]. split; [exact Hout|].
  split; [exact (proj1 (attach_bad_dimension "weight" 5 eps12 (linear W_empty) W_empty HW)
                   Hout)|].
  split; [exact Hzero|].
  destruct (proj2 (attach_bad_dimension "weight" 0 eps12 (linear W_empty) W_empty HW)
              Hzero) as (w' & Hrun & _ & Hp & Hb & _).
  exists w'. split; [exact Hrun|]. split; [exact Hp|exact Hb].
Defined.

Lemma attached_last_registered :
  registered "weight" W2 (data_of W2) ones ones attached_last.
Proof.
  split;
  [ reflexivity | discriminate | vm_compute; reflexivity | vm_compute; reflexivity
  | repeat split; vm_compute; reflexivity
  | repeat split; vm_compute; reflexivity
  | repeat split; vm_compute; reflexivity
  | reflexivity | reflexivity
  | vm_compute; eexists; reflexivity
  | vm_compute; reflexivity | vm_compute; reflexivity ].
Qed.

Lemma negative_dim_breaks_forward_witness :
  inplace_spectral_norm "weight" (Some (-1)%Z) eps12 (linear W2) = (Ok 7, attached_last) /\
  registered "weight" W2 (data_of W2) ones ones attached_last /\
  (dim sn_last < 0)%Z /\ (0 <= 1)%Z /\
  compute_weight sn_last 1 attached_last
    = (Raise (RuntimeError "permute: number of dims does not match"), attached_last) /\
  __call__ sn_last PNone attached_last
    = (Raise (RuntimeError "permute: number of dims does not match"), attached_last).
Proof.
  assert (Hd : (dim sn_last < 0)%Z) by reflexivity.
  assert (Hn : (0 <= 1)%Z) by lia.
  split; [unfold attached_last; apply run_eq; vm_compute; reflexivity|].
  split; [exact attached_last_registered|]. split; [exact Hd|]. split; [exact Hn|].
  exact (negative_dim_breaks_forward sn_last 1 PNone attached_last W2 (data_of W2)
           ones ones attached_last_registered Hd Hn).
Defined.

Lemma compute_weight_zero_W2 :
  compute_weight sn 0 (attached W2) = (Ok tt, forwarded W2).
Proof.
  unfold forwarded.
  assert (E1 : fst (compute_weight sn 0 (attached W2)) = Ok tt)
    by (vm_compute; reflexivity).
  assert (E2 : snd (compute_weight sn 0 (attached W2))
               = snd (__call__ sn PNone (attached W2)))
    by (vm_compute; reflexivity).
  rewrite <- E2. apply run_eq. exact E1.
Qed.

Lemma compute_weight_frame_witness :
  registered "weight" W2 (data_of W2) ones ones (attached W2) /\
  compute_weight sn 0 (attached W2) = (Ok tt, forwarded W2) /\
  _parameters (forwarded W2) = _parameters (attached W2) /\
  dict (forwarded W2) = dict (attached W2) /\
  _buffers (forwarded W2) !! "running_mean" = _buffers (attached W2) !! "running_mean".
Proof.
  split; [exact attached_registered_W2|]. split; [exact compute_weight_zero_W2|].
  destruct (compute_weight_frame sn 0 (attached W2) W2 (data_of W2) ones ones (Ok tt)
              (forwarded W2) attached_registered_W2 compute_weight_zero_W2)
    as (Hp & Hd & _ & _ & _ & _ & _ & _ & _ & _ & Hb & _).
  split; [exact Hp|]. split; [exact Hd|].
  apply Hb; discriminate.
Defined.

Lemma iterations_compose_witness :
  registered "weight" W2 (data_of W2) ones ones (attached W2) /\
  well_shaped sn W2 ones ones /\ (0 <= 1)%Z /\ (0 <= 2)%Z /\
  exists w1 w2,
    compute_weight sn 1 (attached W2) = (Ok tt, w1) /\
    compute_weight sn 2 w1 = (Ok tt, w2) /\
    compute_weight sn (1 + 2) (attached W2) = (Ok tt, w2).
Proof.
  split; [exact attached_registered_W2|]. split; [exact well_shaped_W2|].
  split; [lia|]. split; [lia|].
  exact (iterations_compose sn 1 2 (attached W2) W2 (data_of W2) ones ones
           attached_registered_W2 well_shaped_W2 ltac:(lia) ltac:(lia)).
Defined.

Lemma remove_run_W2 :
  remove_spectral_norm "weight" (attached W2)
    = (Ok 7, snd (remove_spectral_norm "weight" (attached W2))).
Proof. apply run_eq. vm_compute. reflexivity. Qed.

Lemma stale_after_removal_witness :
  registered "weight" W2 (data_of W2) ones ones (attached W2) /\
  dict (attached W2) !! POWER_ITERATION_FN = Some (PMethod sn) /\
  exists w',
    remove_spectral_norm "weight" (attached W2) = (Ok 7, w') /\
    compute_weight sn 1 w' = (Raise (AttributeError "weight_orig"), w') /\
    __call__ sn PNone w' = (Raise (AttributeError "weight_orig"), w') /\
    spectral_norm_power_iteration 1 w' = (Raise (AttributeError "weight_orig"), w').
Proof.
  assert (HP : dict (attached W2) !! POWER_ITERATION_FN = Some (PMethod sn))
    by (vm_compute; reflexivity).
  split; [exact attached_registered_W2|]. split; [exact HP|].
  exists (snd (remove_spectral_norm "weight" (attached W2))).
  split; [exact remove_run_W2|].
  destruct (stale_after_removal sn 1 PNone (attached W2) W2 (data_of W2) ones ones 7 _
              attached_registered_W2 remove_run_W2 ltac:(lia)) as (H1 & H2 & H3).
  split; [exact H1|]. split; [exact H2|]. exact (proj2 (H3 HP)).
Defined.

Lemma removal_keeps_other_hooks_witness :
  registered "weight" W2 (data_of W2) ones ones (attached W2) /\
  NoDup (hook_keys (attached W2)) /\
  exists w',
    remove_spectral_norm "weight" (attached W2) = (Ok 7, w') /\
    find_hook "bias" (_forward_pre_hooks w')
      = find_hook "bias" (_forward_pre_hooks (attached W2)).
Proof.
  assert (Hnd : NoDup (hook_keys (attached W2)))
    by (vm_compute; apply NoDup_singleton).
  split; [exact attached_registered_W2|]. split; [exact Hnd|].
  exists (snd (remove_spectral_norm "weight" (attached W2))).
  split; [exact remove_run_W2|].
  destruct (removal_keeps_other_hooks "weight" W2 (data_of W2) ones ones (attached W2) 7 _
              attached_registered_W2 Hnd remove_run_W2) as (k & fn & _ & Hother & _).
  apply Hother. discriminate.
Defined.

Lemma attach_remove_residue_witness :
  wf_module (linear W2) /\
  _parameters (linear W2) !! "weight" = Some (Some W2) /\
  size W2 (chosen_dim None (cls (linear W2))) = Ok 1 /\
  find_hook "weight" (_forward_pre_hooks (linear W2)) = None /\
  (next_id (linear W2) ∉ hook_keys (linear W2)) /\
  exists w1 w3,
    inplace_spectral_norm "weight" None eps12 (linear W2) = (Ok (oid (linear W2)), w1) /\
    remove_spectral_norm "weight" w1 = (Ok (oid (linear W2)), w3) /\
    _parameters w3
      = <["weight" := Some (Tensor (shape W2) (data W2) true false true)]>
          (_parameters (linear W2)) /\
    _forward_pre_hooks w3 = _forward_pre_hooks (linear W2) /\
    remove_spectral_norm "weight" w3 = (Raise (ValueError_not_found "weight"), w3).
Proof.
  pose proof (linear_wf W2) as Hwf.
  pose proof linear_W2_parameter as HW.
  assert (Hsize : size W2 (chosen_dim None (cls (linear W2))) = Ok 1) by reflexivity.
  assert (Hnone : find_hook "weight" (_forward_pre_hooks (linear W2)) = None)
    by reflexivity.
  assert (Hfresh : next_id (linear W2) ∉ hook_keys (linear W2))
    by apply not_elem_of_nil.
  destruct linear_W2_clean as (Ho & Hu & Hv & HPp & HPb & HPm).
  split; [exact Hwf|]. split; [exact HW|]. split; [exact Hsize|].
  split; [exact Hnone|]. split; [exact Hfresh|].
  destruct (attach_remove_residue "weight" None eps12 (linear W2) W2 1 Hwf HW eq_refl
              eq_refl eq_refl ltac:(discriminate) ltac:(discriminate) Hsize
              ltac:(discriminate) Ho Hu Hv HPp HPb HPm Hnone Hfresh)
    as (w1 & w3 & Hrun & Hrm & Hp & _ & _ & _ & Hh & _ & _ & _ & Hagain).
  exists w1, w3. split; [exact Hrun|]. split; [exact Hrm|]. split; [exact Hp|].
  split; [exact Hh|exact Hagain].
Defined.

Lemma calls_only_rewrite_three_buffers_witness :
  registered "weight" W2 (data_of W2) ones ones (attached W2) /\
  run_between sn (attached W2) (forwarded W2) /\
  getattr "weight_orig" (forwarded W2) = (Ok (PTensor W2), forwarded W2) /\
  _parameters (forwarded W2) = _parameters (attached W2) /\
  _forward_pre_hooks (forwarded W2) = _forward_pre_hooks (attached W2).
Proof.
  assert (Hrun : run_between sn (attached W2) (forwarded W2))
    by exact (rb_forward sn _ _ _ PNone call_run_W2 (rb_done sn _)).
  split; [exact attached_registered_W2|]. split; [exact Hrun|].
  destruct (calls_only_rewrite_three_buffers sn W2 (data_of W2) ones ones (attached W2)
              (forwarded W2) attached_registered_W2 Hrun)
    as (pub' & u' & v' & _ & Hget & Hp & _ & _ & Hh & _).
  split; [exact Hget|]. split; [exact Hp|exact Hh].
Defined.

End Witnesses_further.
